(** * University registration queue: the discrete-event simulation

    A shallow embedding of [university_registration_queue.py], part 2
    (lines 118-155): the two-stage registration queue simulated on SimPy.

    Virtual time and durations are floats in the script; they are
    rationals here, so every ordering and arithmetic fact is the exact one.
    The one float that is no rational and that the script can produce is
    kept: the infinite rate [1 / 0.0] of a zero mean, a [numpy.float64].
    [random.random()] is a stream of variates read at a cursor.

    The script runs on SimPy.  The part of the SimPy kernel it drives is
    written out as the state machine it is, after the library:
    [Environment.schedule], [Environment.step] and [Environment.run]
    (simpy/core.py), [Timeout], [Initialize] and [Process._resume]
    (simpy/events.py), [BaseResource._trigger_put], [Put.__init__] and
    [Get.__init__] (simpy/resources/base.py), [Resource._do_put],
    [Resource._do_get] and [Request.__exit__] (simpy/resources/resource.py).
    One call of [step] pops one event and runs its callbacks. *)

From Stdlib Require Import QArith ZArith List Lia Sorted.
Import ListNotations.

Open Scope Q_scope.

(** ** Exceptions the run can raise *)

Inductive Exn : Type :=
| ValueError          (* simpy: capacity <= 0, negative delay, until <= now *)
| ZeroDivisionError   (* a division of Python floats by zero *)
| StatisticsError     (* [statistics.mean] of an empty list *)
| RuntimeError.       (* simpy: the event queue ran dry before [until] *)

(** ** [random]: the module-level generator

    [variates g n] is the value [-log(1 - u)] of the n-th call of
    [random.random()]; [consumed g] is the number of calls made so far. *)

Record Random : Type := mkRandom {
  variates : nat -> Q;
  consumed : nat
}.

Definition random_next (g : Random) : Q * Random :=
  (variates g (consumed g), mkRandom (variates g) (S (consumed g))).

(** A rate handed to [expovariate]: a float, which can be [inf]. *)
Inductive Rate : Type :=
| Finite (q : Q)
| Infinite.

(** [random.expovariate(lambd)] is [-log(1 - random()) / lambd]: a variate
    is drawn whatever the rate, and a finite number over [inf] is zero.  A
    zero rate is the reciprocal of no mean in this script. *)
Definition expovariate (lambd : Rate) (g : Random) : (Exn + Q) * Random :=
  let (e, g') := random_next g in
  match lambd with
  | Infinite => (inr 0, g')
  | Finite l =>
      if Qeq_bool l 0 then (inl ZeroDivisionError, g') else (inr (e / l), g')
  end.

(** Python's true division of two Python numbers: [1 / SIM_INTER_ARRIVAL]. *)
Definition py_div (a b : Q) : Exn + Rate :=
  if Qeq_bool b 0 then inl ZeroDivisionError else inr (Finite (a / b)).

(** The division of a positive Python number by a [numpy.float64], which is
    what [df[..].mean()] returns (lines 55-56): [1 / avg_doc_check] and
    [1 / avg_service].  Dividing by zero warns and gives [inf]. *)
Definition np_div (a b : Q) : Exn + Rate :=
  if Qeq_bool b 0 then inr Infinite else inr (Finite (a / b)).

(** [statistics.mean]. *)
Definition Qsum (l : list Q) : Q := fold_right Qplus 0 l.

Definition mean (l : list Q) : Exn + Q :=
  match l with
  | [] => inl StatisticsError
  | _ :: _ => inr (Qsum l / inject_Z (Z.of_nat (length l)))
  end.

(** ** Processes

    A generator object suspended at a [yield] is the label of that yield
    together with its live local variables.  [pid] numbers the student
    processes in spawn order; it stands for the identity of the process and
    of the request objects it creates. *)

Inductive ResId : Type := DocCheck | Registration.

Inductive StudentPC : Type :=
| AtStart                           (* not started yet *)
| AtDocRequest                      (* line 130: yield req *)
| AtDocTimeout                      (* line 131: yield env.timeout(..) *)
| AtRegRequest (start_wait : Q)     (* line 135: yield req *)
| AtRegTimeout.                     (* line 137: yield env.timeout(..) *)

Inductive GeneratorPC : Type :=
| GenStart                          (* not started yet *)
| GenTimeout.                       (* line 141: yield env.timeout(..) *)

Inductive Resumption : Type :=
| ResumeStudent (pid : nat) (pc : StudentPC)
| ResumeGenerator (pc : GeneratorPC).

(** ** The SimPy environment *)

Inductive EventKind : Type :=
| Initialize (k : Resumption)            (* starts a new process *)
| Timeout (k : Resumption)               (* env.timeout, yielded by k *)
| Request (r : ResId) (k : Resumption)   (* a granted resource request *)
| Release (r : ResId)                    (* callback: _trigger_put *)
| ProcessEnd (err : option Exn)          (* a process returned or raised *)
| Until.                                 (* callback: StopSimulation *)

Record Event : Type := mkEvent {
  at_time : Q;
  priority : nat;
  eid : nat;
  kind : EventKind
}.

Definition URGENT : nat := 0%nat.
Definition NORMAL : nat := 1%nat.

Record Environment : Type := mkEnv {
  now : Q;
  queue : list Event;
  next_eid : nat
}.

(** [simpy.Environment()] *)
Definition Environment_new : Environment := mkEnv 0 [] 0.

(** The heap orders its entries by [(time, priority, eid)]. *)
Definition event_le (a b : Event) : bool :=
  match at_time a ?= at_time b with
  | Lt => true
  | Gt => false
  | Eq => match Nat.compare (priority a) (priority b) with
          | Lt => true
          | Gt => false
          | Eq => Nat.leb (eid a) (eid b)
          end
  end.

Fixpoint heappush (e : Event) (q : list Event) : list Event :=
  match q with
  | [] => [e]
  | x :: q' => if event_le x e then x :: heappush e q' else e :: q
  end.

(** [Environment.schedule(event, priority, delay)]: the event is pushed
    with the key [(now + delay, priority, next(eid))]. *)
Definition schedule (prio : nat) (delay : Q) (k : EventKind) (env : Environment)
  : Environment :=
  mkEnv (now env)
        (heappush (mkEvent (now env + delay) prio (next_eid env) k) (queue env))
        (S (next_eid env)).

(** ** [simpy.Resource]

    [users] holds the granted requests with their [usage_since]; [put_queue]
    the pending ones, each carrying the process that yielded it. *)

Record Resource : Type := mkResource {
  capacity : Z;
  users : list (nat * Q);
  put_queue : list (nat * Resumption)
}.

Definition Resource_new (cap : Z) : Exn + Resource :=
  if (cap <=? 0)%Z then inl ValueError else inr (mkResource cap [] []).

(** [users.remove(request)] of [Resource._do_get]: the first entry of that
    request, if any. *)
Fixpoint remove_user (pid : nat) (us : list (nat * Q)) : list (nat * Q) :=
  match us with
  | [] => []
  | u :: us' => if Nat.eqb (fst u) pid then us' else u :: remove_user pid us'
  end.

(** [_trigger_put] with [Resource._do_put]: only the head of the queue is
    looked at, since [_do_put] returns [None] and the loop breaks. *)
Definition trigger_put (t : Q) (r : Resource)
  : Resource * option (nat * Resumption) :=
  match put_queue r with
  | [] => (r, None)
  | (pid, k) :: rest =>
      if (Z.of_nat (length (users r)) <? capacity r)%Z
      then (mkResource (capacity r) (users r ++ [(pid, t)]) rest, Some (pid, k))
      else (r, None)
  end.

(** ** The state of one call of [registration_simulation]

    [trace] is a history variable: the pool operations in the order they
    happened.  The simulation never reads it. *)

Inductive Obs : Type :=
| ObsRequest (r : ResId) (pid : nat) (t : Q)
| ObsGrant (r : ResId) (pid : nat) (t : Q)
| ObsRelease (r : ResId) (pid : nat) (t : Q).

Record Sim : Type := mkSim {
  env : Environment;
  doc_check : Resource;
  registration : Resource;
  wait_times : list Q;
  spawned : nat;
  rng : Random;
  trace : list Obs
}.

Definition set_env (f : Environment -> Environment) (s : Sim) : Sim :=
  mkSim (f (env s)) (doc_check s) (registration s) (wait_times s)
        (spawned s) (rng s) (trace s).

Definition resource (r : ResId) (s : Sim) : Resource :=
  match r with DocCheck => doc_check s | Registration => registration s end.

Definition set_resource (r : ResId) (x : Resource) (s : Sim) : Sim :=
  match r with
  | DocCheck => mkSim (env s) x (registration s) (wait_times s)
                      (spawned s) (rng s) (trace s)
  | Registration => mkSim (env s) (doc_check s) x (wait_times s)
                          (spawned s) (rng s) (trace s)
  end.

Definition set_rng (g : Random) (s : Sim) : Sim :=
  mkSim (env s) (doc_check s) (registration s) (wait_times s)
        (spawned s) g (trace s).

Definition log (o : Obs) (s : Sim) : Sim :=
  mkSim (env s) (doc_check s) (registration s) (wait_times s)
        (spawned s) (rng s) (trace s ++ [o]).

(** [_trigger_put] run on pool [r]: a granted request is triggered, that is
    scheduled for the current time. *)
Definition sim_trigger_put (r : ResId) (s : Sim) : Sim :=
  match trigger_put (now (env s)) (resource r s) with
  | (x, Some (pid, k)) =>
      log (ObsGrant r pid (now (env s)))
          (set_env (schedule NORMAL 0 (Request r k)) (set_resource r x s))
  | (_, None) => s
  end.

(** [r.request()] made by the process [pid], which then yields it:
    [Put.__init__] appends the request to [put_queue] and calls
    [_trigger_put].  A request granted at once is still only resumed when
    its event is popped. *)
Definition request (r : ResId) (pid : nat) (k : Resumption) (s : Sim) : Sim :=
  let x := resource r s in
  let s1 := set_resource r
              (mkResource (capacity x) (users x) (put_queue x ++ [(pid, k)])) s in
  sim_trigger_put r (log (ObsRequest r pid (now (env s))) s1).

(** [r.release(req)], called when the [with] block is left: the user is
    removed at once and the Release event is scheduled; the next waiter is
    served when that event is processed. *)
Definition release (r : ResId) (pid : nat) (s : Sim) : Sim :=
  let x := resource r s in
  let s1 := set_resource r
              (mkResource (capacity x) (remove_user pid (users x)) (put_queue x)) s in
  set_env (schedule NORMAL 0 (Release r)) (log (ObsRelease r pid (now (env s))) s1).

(** The operations a process or the kernel performs on a pool, for traces
    of them in any order: a request, the release of a request, and the
    processing of a Release event. *)
Inductive PoolOp : Type :=
| OpRequest (r : ResId) (pid : nat) (k : Resumption)
| OpRelease (r : ResId) (pid : nat)
| OpReleased (r : ResId).

Definition pool_op (s : Sim) (o : PoolOp) : Sim :=
  match o with
  | OpRequest r pid k => request r pid k s
  | OpRelease r pid => release r pid s
  | OpReleased r => sim_trigger_put r s
  end.

Definition pool_ops (ops : list PoolOp) (s : Sim) : Sim :=
  fold_left pool_op ops s.

(** ** The model parameters and the two process bodies *)

Definition SIM_INTER_ARRIVAL : Q := 60 / 120.
Definition SIM_TIME : Q := 600.

Inductive Result : Type :=
| Ok (s : Sim)
| Raise (e : Exn) (s : Sim).

Section Simulation.

(** The two means computed from the dataset (lines 55-56), each a
    [numpy.float64]. *)
Variables avg_doc_check avg_service : Q.

(** [yield env.timeout(random.expovariate(lambd))], resuming at [k], where
    [lambd] is what the division [1 / m] gave. *)
Definition yield_timeout (lambd : Exn + Rate) (k : Resumption) (s : Sim)
  : Result :=
  match lambd with
  | inl e => Raise e s
  | inr lambd =>
      match expovariate lambd (rng s) with
      | (inl e, g) => Raise e (set_rng g s)
      | (inr d, g) =>
          if Qle_bool 0 d
          then Ok (set_env (schedule NORMAL d (Timeout k)) (set_rng g s))
          else Raise ValueError (set_rng g s)
      end
  end.

(** A process whose generator returns or raises triggers its own event
    ([Process._resume]); [step] crashes the environment on one that raised. *)
Definition process_end (err : option Exn) (s : Sim) : Sim :=
  set_env (schedule NORMAL 0 (ProcessEnd err)) s.

Definition append_wait (w : Q) (s : Sim) : Sim :=
  mkSim (env s) (doc_check s) (registration s) (wait_times s ++ [w])
        (spawned s) (rng s) (trace s).

(** [student()], resumed at [pc] (lines 128-137). *)
Definition student (pid : nat) (pc : StudentPC) (s : Sim) : Sim :=
  match pc with
  | AtStart =>
      request DocCheck pid (ResumeStudent pid AtDocRequest) s
  | AtDocRequest =>
      match yield_timeout (np_div 1 avg_doc_check)
                          (ResumeStudent pid AtDocTimeout) s with
      | Ok s' => s'
      | Raise e s' => process_end (Some e) (release DocCheck pid s')
      end
  | AtDocTimeout =>
      let s1 := release DocCheck pid s in
      let start_wait := now (env s1) in
      request Registration pid (ResumeStudent pid (AtRegRequest start_wait)) s1
  | AtRegRequest start_wait =>
      let s1 := append_wait (now (env s) - start_wait) s in
      match yield_timeout (np_div 1 avg_service)
                          (ResumeStudent pid AtRegTimeout) s1 with
      | Ok s' => s'
      | Raise e s' => process_end (Some e) (release Registration pid s')
      end
  | AtRegTimeout =>
      process_end None (release Registration pid s)
  end.

(** [env.process(student())] *)
Definition spawn_student (s : Sim) : Sim :=
  let s1 := set_env (schedule URGENT 0
                       (Initialize (ResumeStudent (spawned s) AtStart))) s in
  mkSim (env s1) (doc_check s1) (registration s1) (wait_times s1)
        (S (spawned s1)) (rng s1) (trace s1).

(** [generator()], resumed at [pc] (lines 139-142). *)
Definition generator (pc : GeneratorPC) (s : Sim) : Sim :=
  let s1 := match pc with GenStart => s | GenTimeout => spawn_student s end in
  match yield_timeout (py_div 1 SIM_INTER_ARRIVAL)
                      (ResumeGenerator GenTimeout) s1 with
  | Ok s' => s'
  | Raise e s' => process_end (Some e) s'
  end.

Definition resume (k : Resumption) (s : Sim) : Sim :=
  match k with
  | ResumeStudent pid pc => student pid pc s
  | ResumeGenerator pc => generator pc s
  end.

(** ** [Environment.step] and [Environment.run] *)

Inductive StepResult : Type :=
| Continue (s : Sim)
| Stop (s : Sim)              (* StopSimulation *)
| Crash (e : Exn) (s : Sim).

Definition step (s : Sim) : StepResult :=
  match queue (env s) with
  | [] => Crash RuntimeError s
  | ev :: rest =>
      let s1 := set_env (fun e => mkEnv (at_time ev) rest (next_eid e)) s in
      match kind ev with
      | Initialize k => Continue (resume k s1)
      | Timeout k => Continue (resume k s1)
      | Request _ k => Continue (resume k s1)
      | Release r => Continue (sim_trigger_put r s1)
      | ProcessEnd None => Continue s1
      | ProcessEnd (Some e) => Crash e s1
      | Until => Stop s1
      end
  end.

Inductive Outcome : Type :=
| Finished (s : Sim)
| Crashed (e : Exn) (s : Sim)
| OutOfFuel (s : Sim).

Fixpoint run_loop (fuel : nat) (s : Sim) : Outcome :=
  match fuel with
  | O => OutOfFuel s
  | S fuel' =>
      match step s with
      | Continue s' => run_loop fuel' s'
      | Stop s' => Finished s'
      | Crash e s' => Crashed e s'
      end
  end.

(** [env.run(until=t)]: a number not after the clock is refused, else the
    stop event is scheduled urgent at [t] and events are stepped until it
    is popped.  [fuel] bounds the number of events. *)
Definition env_run (fuel : nat) (t : Q) (s : Sim) : Outcome :=
  if Qle_bool t (now (env s)) then Crashed ValueError s
  else run_loop fuel (set_env (schedule URGENT (t - now (env s)) Until) s).

(** ** [registration_simulation] (lines 123-149) *)

(** The state when [env.run] is called: both pools built, the arrival
    generator started. *)
Definition sim_init (e : Environment) (counters : Z) (g : Random) : Exn + Sim :=
  match Resource_new 5 with
  | inl x => inl x
  | inr dc =>
      match Resource_new counters with
      | inl x => inl x
      | inr reg =>
          inr (set_env (schedule URGENT 0 (Initialize (ResumeGenerator GenStart)))
                 (mkSim e dc reg [] 0 g []))
      end
  end.

Definition Results : Type := list (Z * Q).

(** What a call leaves behind: the caller's [env] and [results] objects and
    the generator, and whether the call returned or raised.  [Diverged]
    stands for a run that has not ended within the fuel given. *)
Inductive Call : Type :=
| Returned (e : Environment) (results : Results) (g : Random)
| Raised (x : Exn) (e : Environment) (results : Results) (g : Random)
| Diverged.

Definition registration_simulation (fuel : nat) (e : Environment) (counters : Z)
    (results : Results) (g : Random) : Call :=
  match sim_init e counters g with
  | inl x => Raised x e results g
  | inr s0 =>
      match env_run fuel SIM_TIME s0 with
      | OutOfFuel _ => Diverged
      | Crashed x s => Raised x (env s) results (rng s)
      | Finished s =>
          match mean (wait_times s) with
          | inl x => Raised x (env s) results (rng s)
          | inr avg_wait =>
              Returned (env s) (results ++ [(counters, avg_wait)]) (rng s)
          end
      end
  end.

(** The sweep (lines 152-155), for any list of capacities and from any
    generator state. *)
Fixpoint sweep (fuel : nat) (cs : list Z) (results : Results) (g : Random)
  : Call :=
  match cs with
  | [] => Returned Environment_new results g
  | c :: cs' =>
      match registration_simulation fuel Environment_new c results g with
      | Returned _ results' g' => sweep fuel cs' results' g'
      | other => other
      end
  end.

Definition simulation_results (fuel : nat) (seeded : Random) : Call :=
  sweep fuel [3; 10; 12]%Z [] seeded.

End Simulation.

Arguments yield_timeout lambd k s : simpl never.

(** * Properties

    What follows is stated about the model above.  The definitions come
    first: projections, the predicates the invariants are made of, the
    relations between two runs, and the concrete runs used as examples. *)

(** The state a step, or a run, leaves behind, whatever its verdict. *)
Definition step_state (r : StepResult) : Sim :=
  match r with Continue s | Stop s | Crash _ s => s end.

Definition outcome_state (o : Outcome) : Sim :=
  match o with Finished s | Crashed _ s | OutOfFuel s => s end.

Definition result_state (r : Result) : Sim :=
  match r with Ok s | Raise _ s => s end.

(** ** The predicates of the invariants *)

(** A pool within its bound. *)
Definition pool_ok (r : Resource) : Prop :=
  (0 < capacity r /\ 0 <= Z.of_nat (length (users r)) <= capacity r)%Z.

Definition pools_ok (s : Sim) : Prop :=
  forall r, pool_ok (resource r s).

Definition ResId_eqb (a b : ResId) : bool :=
  match a, b with
  | DocCheck, DocCheck | Registration, Registration => true
  | _, _ => false
  end.

(** The processes that asked for a unit of pool [r], in the order they
    asked, and those that were granted one, in the order of the grants. *)
Fixpoint requested (r : ResId) (tr : list Obs) : list nat :=
  match tr with
  | [] => []
  | ObsRequest r' pid _ :: tr' =>
      if ResId_eqb r r' then pid :: requested r tr' else requested r tr'
  | _ :: tr' => requested r tr'
  end.

Fixpoint granted (r : ResId) (tr : list Obs) : list nat :=
  match tr with
  | [] => []
  | ObsGrant r' pid _ :: tr' =>
      if ResId_eqb r r' then pid :: granted r tr' else granted r tr'
  | _ :: tr' => granted r tr'
  end.

Definition waiting (r : ResId) (s : Sim) : list nat :=
  map fst (put_queue (resource r s)).

Definition fifo_ok (s : Sim) : Prop :=
  forall r, requested r (trace s) = granted r (trace s) ++ waiting r s.

(** A suspended student that holds a [start_wait] took it from the clock. *)
Definition resumption_ok (t : Q) (k : Resumption) : Prop :=
  match k with
  | ResumeStudent _ (AtRegRequest start_wait) => start_wait <= t
  | _ => True
  end.

Definition kind_ok (t : Q) (k : EventKind) : Prop :=
  match k with
  | Initialize k | Timeout k | Request _ k => resumption_ok t k
  | _ => True
  end.

Definition event_ok (t : Q) (ev : Event) : Prop :=
  t <= at_time ev /\ kind_ok t (kind ev).

Definition time_sorted : list Event -> Prop :=
  StronglySorted (fun a b => at_time a <= at_time b).

Record time_ok (s : Sim) : Prop := mk_time_ok {
  queue_sorted : time_sorted (queue (env s));
  queue_future : Forall (event_ok (now (env s))) (queue (env s));
  waiters_ok : forall r,
    Forall (fun p => resumption_ok (now (env s)) (snd p))
           (put_queue (resource r s));
  waits_nonneg : Forall (fun w => 0 <= w) (wait_times s)
}.

(** The events a run schedules, and what each knows of the history: a
    granted registration request carries the [start_wait] its student read
    when it asked, and is due at the time of the grant. *)
Definition event_wf (tr : list Obs) (ev : Event) : Prop :=
  match kind ev with
  | Initialize (ResumeStudent _ AtStart) => True
  | Initialize (ResumeGenerator GenStart) => True
  | Timeout (ResumeStudent _ AtDocTimeout) => True
  | Timeout (ResumeStudent _ AtRegTimeout) => True
  | Timeout (ResumeGenerator GenTimeout) => True
  | Request DocCheck (ResumeStudent _ AtDocRequest) => True
  | Request Registration (ResumeStudent pid (AtRegRequest start_wait)) =>
      In (ObsRequest Registration pid start_wait) tr /\
      exists t, In (ObsGrant Registration pid t) tr /\ t == at_time ev
  | Release _ | ProcessEnd _ | Until => True
  | _ => False
  end.

Definition waiter_wf (tr : list Obs) (r : ResId) (p : nat * Resumption) : Prop :=
  match r, snd p with
  | DocCheck, ResumeStudent _ AtDocRequest => True
  | Registration, ResumeStudent pid (AtRegRequest start_wait) =>
      fst p = pid /\ In (ObsRequest Registration pid start_wait) tr
  | _, _ => False
  end.

Record wf (s : Sim) : Prop := mk_wf {
  wf_queue : Forall (event_wf (trace s)) (queue (env s));
  wf_waiters : forall r, Forall (waiter_wf (trace s) r) (put_queue (resource r s))
}.

(** The yields a process can be resumed at by each kind of event. *)
Definition resumes_at (tr : list Obs) (k : Resumption) : Prop :=
  exists ev, event_wf tr ev /\
    (kind ev = Initialize k \/ kind ev = Timeout k \/ exists r, kind ev = Request r k).

(** The call raised before it changed anything the caller can see: the
    environment has nothing scheduled by it and no variate was drawn. *)
Definition rejected_up_front (c : Call) (e : Environment) (results : Results)
    (g : Random) : Prop :=
  exists x, c = Raised x e results g.

(** The call returned, with one more entry in [results]. *)
Definition reported (c : Call) (results : Results) : Prop :=
  exists e entry g, c = Returned e (results ++ [entry]) g.

(** ** Two runs side by side *)

(** The same state with [c] registration counters. *)
Definition recap (c : Z) (s : Sim) : Sim :=
  set_resource Registration
    (mkResource c (users (registration s)) (put_queue (registration s))) s.

Definition map_result (f : Sim -> Sim) (r : Result) : Result :=
  match r with Ok s => Ok (f s) | Raise e s => Raise e (f s) end.

Definition map_step (f : Sim -> Sim) (r : StepResult) : StepResult :=
  match r with
  | Continue s => Continue (f s)
  | Stop s => Stop (f s)
  | Crash e s => Crash e (f s)
  end.

Definition map_outcome (f : Sim -> Sim) (o : Outcome) : Outcome :=
  match o with
  | Finished s => Finished (f s)
  | Crashed e s => Crashed e (f s)
  | OutOfFuel s => OutOfFuel (f s)
  end.

Definition no_waiter (s : Sim) : bool :=
  match put_queue (registration s) with [] => true | _ :: _ => false end.

Section UncontendedRuns.

Variables avg_doc_check avg_service : Q.

(** No state the loop goes through has a waiter at the registration pool. *)
Fixpoint uncontended (fuel : nat) (s : Sim) : bool :=
  no_waiter s &&
  match fuel with
  | O => true
  | S fuel' =>
      match step avg_doc_check avg_service s with
      | Continue s' => uncontended fuel' s'
      | Stop s' | Crash _ s' => no_waiter s'
      end
  end.

(** The same for a whole call. *)
Definition uncontended_call (fuel : nat) (e : Environment) (counters : Z)
    (g : Random) : bool :=
  match sim_init e counters g with
  | inl _ => false
  | inr s0 =>
      uncontended fuel
        (set_env (schedule URGENT (SIM_TIME - now (env s0)) Until) s0)
  end.

End UncontendedRuns.

(** ** Concrete generators and runs

    Both means are one minute in the runs below unless said otherwise, so a
    delay is the variate itself, and an inter-arrival time half of it. *)

(** A generator whose variates are those of [l], then [d] for ever. *)
Definition stream (l : list Q) (d : Q) : Random :=
  mkRandom (fun n => nth n l d) 0.

Definition call_exn (c : Call) : option Exn :=
  match c with Raised x _ _ _ => Some x | _ => None end.

Definition call_env (c : Call) : Environment :=
  match c with
  | Returned e _ _ | Raised _ e _ _ => e
  | Diverged => Environment_new
  end.

Definition call_rng (c : Call) : Random :=
  match c with
  | Returned _ _ g | Raised _ _ _ g => g
  | Diverged => stream [] 0
  end.

(** The capacities and mean waits of a call that returned, in lowest terms. *)
Definition call_results (c : Call) : option Results :=
  match c with
  | Returned _ r _ => Some (map (fun p => (fst p, Qred (snd p))) r)
  | _ => None
  end.

Definition call_mean (c : Call) : Q :=
  match c with
  | Returned _ r _ => snd (last r (0%Z, 0))
  | _ => 0
  end.

(** The state at the call of [env.run]. *)
Definition start (counters : Z) (g : Random) : Sim :=
  match sim_init Environment_new counters g with
  | inr s => s
  | inl _ => mkSim Environment_new (mkResource 0 [] []) (mkResource 0 [] [])
                   [] 0 g []
  end.

(** Students A, B and C arrive at 1, 2 and 3 and are checked for half a
    minute each.  With two counters: A is served from 3/2 for 2000 minutes,
    B from 5/2 to 25/2, C asks at 7/2 and is granted B's counter at 25/2;
    the next arrival would be at 1003.  The waits are 0, 0 and 9. *)
Definition contended : list Q :=
  [2; 2; 1 # 2; 2000; 2; 1 # 2; 10; 2000; 1 # 2].

(** These, followed by the variates of a run of one student (arrives at 1,
    checked until 3/2, served until 5/2): a call with two counters reads
    ten variates, the next call starts there. *)
Definition g_three : Random :=
  stream (contended ++ [2000; 2; 2000; 1 # 2; 1]) 2000.

(** Four more students ask for a registration counter at once, and the
    one held by the third student is released twice over. *)
Definition burst : list PoolOp :=
  [OpRequest Registration 3 (ResumeStudent 3 (AtRegRequest 13));
   OpRequest Registration 4 (ResumeStudent 4 (AtRegRequest 13));
   OpRelease Registration 2; OpReleased Registration;
   OpRequest Registration 5 (ResumeStudent 5 (AtRegRequest 13));
   OpRelease Registration 2; OpReleased Registration; OpReleased Registration;
   OpRequest Registration 6 (ResumeStudent 6 (AtRegRequest 13))].

(** After 21 events of the run with two counters, the next event is the
    grant of the third student's registration request. *)
Definition before_third_grant : Sim :=
  outcome_state (env_run 1 1 21 SIM_TIME (start 2 g_three)).

Definition third_grant : Event :=
  hd (mkEvent 0 NORMAL 0 Until) (queue (env before_third_grant)).

(** ** Abstract runs

    What a run can hold, given what its continuations may be ([Kok]), what
    may be recorded ([Wok]), which exceptions a process may die of
    ([allowed]) and what is known of the generator ([R]): the clock is
    between 0 and the horizon [T], the stop event is due at [T] and, while
    the loop is [running], still scheduled. *)

Definition kind_abs (T : Q) (allowed : Exn -> Prop) (Kok : Resumption -> Prop)
    (ev : Event) : Prop :=
  match kind ev with
  | Initialize k | Timeout k | Request _ k => Kok k
  | Release _ => True
  | ProcessEnd None => True
  | ProcessEnd (Some e) => allowed e
  | Until => at_time ev == T
  end.

Record abs_ok (running : bool) (T : Q) (allowed : Exn -> Prop)
    (R : Random -> Prop) (Kok : Resumption -> Prop) (Wok : Q -> Prop)
    (s : Sim) : Prop := mk_abs_ok {
  ab_now : 0 <= now (env s) <= T;
  ab_until : running = true -> Exists (fun ev => kind ev = Until) (queue (env s));
  ab_queue : Forall (kind_abs T allowed Kok) (queue (env s));
  ab_waiters : forall r, Forall (fun p => Kok (snd p)) (put_queue (resource r s));
  ab_waits : Forall Wok (wait_times s);
  ab_rng : R (rng s)
}.

(** The exceptions a delay can raise inside a process. *)
Definition delay_error (e : Exn) : Prop :=
  e = ValueError \/ e = ZeroDivisionError.

(** A student that holds a [start_wait] read it from a clock that had
    started. *)
Definition start_ok (k : Resumption) : Prop :=
  match k with
  | ResumeStudent _ (AtRegRequest start_wait) => 0 <= start_wait
  | _ => True
  end.

(** The rates the script draws delays with. *)
Definition rate_used (avg_doc_check avg_service : Q) (lambd : Exn + Rate)
  : Prop :=
  lambd = np_div 1 avg_doc_check \/ lambd = np_div 1 avg_service \/
  lambd = py_div 1 SIM_INTER_ARRIVAL.

(** A rate that was computed, and is positive or infinite. *)
Definition rate_positive (lambd : Exn + Rate) : Prop :=
  match lambd with
  | inl _ => False
  | inr (Finite l) => 0 < l
  | inr Infinite => True
  end.

Definition nonneg_variates (g : Random) : Prop :=
  forall n, 0 <= variates g n.

(** ** The variates a run reads *)

(** Two generator states at the same place of sequences that agree from
    [lo] up to, not including, [hi]. *)
Definition Random_agree (lo hi : nat) (g1 g2 : Random) : Prop :=
  consumed g1 = consumed g2 /\
  forall n, (lo <= n < hi)%nat -> variates g1 n = variates g2 n.

(** Two simulation states that differ at most in their generators, which
    agree so and have not gone back before [lo]. *)
Definition sim_agree (lo hi : nat) (s1 s2 : Sim) : Prop :=
  exists s g1 g2,
    s1 = set_rng g1 s /\ s2 = set_rng g2 s /\
    Random_agree lo hi g1 g2 /\ (lo <= consumed g1)%nat.

Definition result_agree (lo hi : nat) (r1 r2 : Result) : Prop :=
  match r1, r2 with
  | Ok a, Ok b => sim_agree lo hi a b
  | Raise x a, Raise y b => x = y /\ sim_agree lo hi a b
  | _, _ => False
  end.

Definition step_agree (lo hi : nat) (r1 r2 : StepResult) : Prop :=
  match r1, r2 with
  | Continue a, Continue b | Stop a, Stop b => sim_agree lo hi a b
  | Crash x a, Crash y b => x = y /\ sim_agree lo hi a b
  | _, _ => False
  end.

Definition outcome_agree (lo hi : nat) (o1 o2 : Outcome) : Prop :=
  match o1, o2 with
  | Finished a, Finished b | OutOfFuel a, OutOfFuel b => sim_agree lo hi a b
  | Crashed x a, Crashed y b => x = y /\ sim_agree lo hi a b
  | _, _ => False
  end.

(** The data of Figure 4 (lines 161-162). *)
Definition plot_counters (simulation_results : Results) : list Z :=
  map fst simulation_results.

Definition plot_waits (simulation_results : Results) : list Q :=
  map snd simulation_results.

(** ** Grants and recorded waits *)

(** The grant of a registration request, not yet resumed. *)
Definition is_reg_grant (ev : Event) : bool :=
  match kind ev with
  | Request Registration _ => true
  | _ => false
  end.

Definition pending_grants (s : Sim) : nat :=
  length (filter is_reg_grant (queue (env s))).

(** All but [d] of the registration grants are either recorded or still
    to be resumed. *)
Definition grants_tally (d : nat) (s : Sim) : Prop :=
  (length (wait_times s) + pending_grants s + d
   = length (granted Registration (trace s)))%nat.

(** ** Grants made at once *)

(** The grant of a registration request made at the time of the request. *)
Definition grant_on_time (ev : Event) : Prop :=
  match kind ev with
  | Request Registration (ResumeStudent _ (AtRegRequest start_wait)) =>
      at_time ev == start_wait
  | _ => True
  end.

(** In the history, every registration grant bears the time at which its
    process asked. *)
Definition granted_when_asked (tr : list Obs) : Prop :=
  forall pid t, In (ObsGrant Registration pid t) tr ->
                In (ObsRequest Registration pid t) tr.

Record prompt (s : Sim) : Prop := mk_prompt {
  pr_queue : Forall grant_on_time (queue (env s));
  pr_waits : Forall (fun w => w == 0) (wait_times s);
  pr_trace : granted_when_asked (trace s)
}.

(** All the units of a pool are in use. *)
Definition full (r : Resource) : Prop :=
  (Z.of_nat (length (users r)) <? capacity r)%Z = false.

Definition no_reg_release (ev : Event) : Prop :=
  kind ev <> Release Registration.

(** Nobody waits for a registration counter, or all the counters are taken
    and none is about to be handed over. *)
Definition calm (s : Sim) : Prop :=
  put_queue (registration s) = [] \/
  (full (registration s) /\ Forall no_reg_release (queue (env s))).

(** ** Runs in which no student leaves a registration counter *)

(** The processes that released a unit of pool [r], in that order.  A
    student releases its registration counter when its service is over. *)
Fixpoint released (r : ResId) (tr : list Obs) : list nat :=
  match tr with
  | [] => []
  | ObsRelease r' pid _ :: tr' =>
      if ResId_eqb r r' then pid :: released r tr' else released r tr'
  | _ :: tr' => released r tr'
  end.

(** Whoever waits for a registration counter waits because all are taken,
    and no counter is about to be handed over. *)
Definition idle (s : Sim) : Prop :=
  (put_queue (registration s) <> [] -> full (registration s)) /\
  Forall no_reg_release (queue (env s)).

(** ** The arithmetic mean, in the words of the specification *)

(** [is_sum l t]: [t] is the sum of the numbers of [l]. *)
Inductive is_sum : list Q -> Q -> Prop :=
| sum_nil : is_sum [] 0
| sum_cons w l t : is_sum l t -> is_sum (w :: l) (w + t).

(** [m] is the sum of the numbers of [l] divided by their count. *)
Definition is_arithmetic_mean (l : list Q) (m : Q) : Prop :=
  exists total,
    is_sum l total /\ m == total / inject_Z (Z.of_nat (length l)).

(** ** More concrete generators *)

(** The [results] a call leaves, as they are. *)
Definition call_raw (c : Call) : Results :=
  match c with
  | Returned _ r _ | Raised _ _ r _ => r
  | Diverged => []
  end.

(** Three runs of one student each. *)
Definition g_sweep : Random :=
  stream ([2; 2000; 1 # 2; 1] ++ [2; 2000; 1 # 2; 1] ++ [2; 2000; 1 # 2; 1]) 2000.

(** The variates of [g_three] up to the tenth, then others. *)
Definition g_other : Random := stream (contended ++ [2000]) 7.

(** The variates of [g_three] up to the fourteenth, then others. *)
Definition g_other_sweep : Random :=
  stream (contended ++ [2000; 2; 2000; 1 # 2; 1]) 7.

(** ** Generators within the range of [expovariate]

    A variate [-log(1 - u)] of a 53-bit [u] is at most [53 * log 2], a
    little under 37. *)

(** Every variate is 36: a student arrives every 18 minutes, 33 of them
    before the horizon. *)
Definition g_steady : Random := stream [] 36.

(** With means of 50 minutes: students A, B and C arrive at 1, 2 and 3 and
    are checked for half a minute each; every later student arrives 18
    minutes after the one before, from 21 on, and is checked for 1800
    minutes.

    With two counters: A is served from 3/2 for 1800 minutes, B from 5/2 to
    25/2, C asks at 7/2 and is granted the counter of B at 25/2.  The waits
    are 0, 0 and 9.

    With three counters C is granted at 7/2 as well: the waits are 0, 0, 0
    and nobody ever queues for a counter.

    With one counter: A holds it until the horizon and B queues from 5/2
    on.  B draws no service time, so the variates are dealt otherwise from
    the seventh on: 1/5 is drawn for the inter-arrival time after C, 36 for
    the check of C, 1/100 for the next inter-arrival time, and every later
    check takes 1800 minutes.  The only wait recorded is the 0 of A. *)
Definition rush : list Q :=
  [2; 2; 1 # 100; 36; 2; 1 # 100; 1 # 5; 36; 1 # 100; 36].

Definition g_rush : Random := stream rush 36.

(** The first 284 variates of [g_steady], then others. *)
Definition g_steady_other : Random := stream (repeat 36 284) 7.

(** * Proofs *)

(** ** Generic facts on the run loop *)

Section RunLoop.

Variables avg_doc_check avg_service : Q.

Local Abbreviation step := (step avg_doc_check avg_service).
Local Abbreviation run_loop := (run_loop avg_doc_check avg_service).
Local Abbreviation env_run := (env_run avg_doc_check avg_service).

(** An invariant of [step] holds in every state the loop goes through. *)
Lemma run_loop_invariant (P : Sim -> Prop) :
  (forall s, P s -> P (step_state (step s))) ->
  forall fuel s, P s -> P (outcome_state (run_loop fuel s)).
Proof.
  intros Hstep fuel; induction fuel as [|fuel IH]; intros s Hs; simpl.
  - exact Hs.
  - specialize (Hstep s Hs). destruct (step s) as [s'|s'|e s']; simpl in *; auto.
Qed.

Lemma env_run_invariant (P : Sim -> Prop) :
  (forall s, P s -> P (step_state (step s))) ->
  (forall s d, P s -> P (set_env (schedule URGENT d Until) s)) ->
  forall fuel t s, P s -> P (outcome_state (env_run fuel t s)).
Proof.
  intros Hstep Hsched fuel t s Hs. unfold env_run.
  destruct (Qle_bool t (now (env s))); simpl; auto.
  apply run_loop_invariant; auto.
Qed.

(** More fuel does not change the verdict of a run that finished. *)
Lemma run_loop_more_fuel fuel extra s s' :
  run_loop fuel s = Finished s' -> run_loop (fuel + extra) s = Finished s'.
Proof.
  revert s; induction fuel as [|fuel IH]; intros s; simpl.
  - discriminate.
  - destruct (step s); auto.
Qed.

Lemma env_run_more_fuel fuel extra t s s' :
  env_run fuel t s = Finished s' -> env_run (fuel + extra) t s = Finished s'.
Proof.
  unfold env_run. destruct (Qle_bool t (now (env s))); auto.
  apply run_loop_more_fuel.
Qed.

End RunLoop.

(** ** Invariants of the pools and their history

    A property that reads only the two pools and the history is an
    invariant of [step] as soon as the three pool operations keep it. *)

Lemma yield_timeout_frame m k s :
  let s' := result_state (yield_timeout m k s) in
  doc_check s' = doc_check s /\ registration s' = registration s /\
  wait_times s' = wait_times s /\ spawned s' = spawned s /\ trace s' = trace s.
Proof.
  unfold yield_timeout.
  destruct m as [x|q]; simpl; auto.
  destruct (expovariate q (rng s)) as [[e|d] g]; simpl; auto.
  destruct (Qle_bool 0 d); simpl; auto.
Qed.

Section PoolInvariant.

Variables avg_doc_check avg_service : Q.
Variable P : Sim -> Prop.

Hypothesis P_frame : forall s s',
  doc_check s' = doc_check s -> registration s' = registration s ->
  trace s' = trace s -> P s -> P s'.
Hypothesis P_request : forall r pid k s, P s -> P (request r pid k s).
Hypothesis P_release : forall r pid s, P s -> P (release r pid s).
Hypothesis P_trigger : forall r s, P s -> P (sim_trigger_put r s).

Local Abbreviation student := (student avg_doc_check avg_service).
Local Abbreviation resume := (resume avg_doc_check avg_service).
Local Abbreviation step := (step avg_doc_check avg_service).

Lemma pool_inv_yield m k s : P s -> P (result_state (yield_timeout m k s)).
Proof.
  intros H. destruct (yield_timeout_frame m k s) as (E1 & E2 & _ & _ & E3).
  eapply P_frame; eauto.
Qed.

Lemma pool_inv_process_end err s : P s -> P (process_end err s).
Proof. apply P_frame; reflexivity. Qed.

Lemma pool_inv_student pid pc s : P s -> P (student pid pc s).
Proof.
  intros H. destruct pc; simpl.
  - now apply P_request.
  - pose proof (pool_inv_yield (np_div 1 avg_doc_check) (ResumeStudent pid AtDocTimeout) s H) as Hy.
    destruct (yield_timeout _ _ s); simpl in Hy; auto.
    now apply pool_inv_process_end, P_release.
  - now apply P_request, P_release.
  - match goal with |- context [yield_timeout ?m ?k ?x] =>
      assert (Hy : P (result_state (yield_timeout m k x)))
        by (apply pool_inv_yield; eapply P_frame; [| | |exact H]; reflexivity);
      destruct (yield_timeout m k x); simpl in Hy; auto
    end.
    now apply pool_inv_process_end, P_release.
  - now apply pool_inv_process_end, P_release.
Qed.

Lemma pool_inv_generator pc s : P s -> P (generator pc s).
Proof.
  intros H. unfold generator.
  match goal with |- context [yield_timeout ?m ?k ?x] =>
    assert (Hy : P (result_state (yield_timeout m k x)))
      by (apply pool_inv_yield; destruct pc;
          [exact H | eapply P_frame; [| | |exact H]; reflexivity]);
    destruct (yield_timeout m k x); simpl in Hy; auto
  end.
  now apply pool_inv_process_end.
Qed.

Lemma pool_inv_resume k s : P s -> P (resume k s).
Proof.
  destruct k; simpl; [apply pool_inv_student | apply pool_inv_generator].
Qed.

Lemma pool_inv_step s : P s -> P (step_state (step s)).
Proof.
  intros H. unfold step.
  destruct (queue (env s)) as [|ev rest]; simpl; auto.
  set (s1 := set_env _ s).
  assert (H1 : P s1) by (eapply P_frame; [| | |exact H]; reflexivity).
  destruct (kind ev) as [k|k|r k|r|[e|]|]; simpl; auto using pool_inv_resume.
Qed.

Lemma pool_inv_ops ops : forall s, P s -> P (pool_ops ops s).
Proof.
  unfold pool_ops. induction ops as [|o ops IH]; intros s H; simpl; auto.
  apply IH. destruct o; simpl; auto.
Qed.

(** Hence it holds all along [env.run], whatever the verdict. *)
Lemma pool_inv_run fuel t s :
  P s -> P (outcome_state (env_run avg_doc_check avg_service fuel t s)).
Proof.
  apply env_run_invariant.
  - apply pool_inv_step.
  - intros s' d Hs. eapply P_frame; [| | |exact Hs]; reflexivity.
Qed.

End PoolInvariant.

(** ** The pool bound *)

Lemma remove_user_length pid us :
  (length (remove_user pid us) <= length us)%nat.
Proof.
  induction us as [|u us IH]; simpl; auto.
  destruct (Nat.eqb (fst u) pid); simpl; lia.
Qed.

Lemma trigger_put_ok t r : pool_ok r -> pool_ok (fst (trigger_put t r)).
Proof.
  unfold trigger_put, pool_ok. intros H.
  destruct (put_queue r) as [|[pid k] rest]; simpl; auto.
  destruct (Z.ltb_spec (Z.of_nat (length (users r))) (capacity r)); simpl; auto.
  rewrite length_app; simpl. lia.
Qed.

Lemma Resource_new_ok cap r : Resource_new cap = inr r -> pool_ok r.
Proof.
  unfold Resource_new, pool_ok.
  destruct (Z.leb_spec cap 0); intros E; inversion E; subst; simpl; lia.
Qed.

Lemma pools_ok_intro s :
  pool_ok (doc_check s) -> pool_ok (registration s) -> pools_ok s.
Proof. intros H1 H2 [|]; assumption. Qed.

Lemma pools_ok_same s s' :
  doc_check s' = doc_check s -> registration s' = registration s ->
  pools_ok s -> pools_ok s'.
Proof.
  intros E1 E2 H. apply pools_ok_intro; [rewrite E1|rewrite E2].
  - apply (H DocCheck).
  - apply (H Registration).
Qed.

Lemma pools_ok_set_resource r x s :
  pool_ok x -> pools_ok s -> pools_ok (set_resource r x s).
Proof.
  intros Hx H. destruct r; apply pools_ok_intro; simpl; auto.
  - apply (H Registration).
  - apply (H DocCheck).
Qed.

Lemma pools_ok_trigger r s : pools_ok s -> pools_ok (sim_trigger_put r s).
Proof.
  intros H. unfold sim_trigger_put.
  pose proof (trigger_put_ok (now (env s)) (resource r s) (H r)) as Hx.
  destruct (trigger_put (now (env s)) (resource r s)) as [x [[pid k]|]]; auto.
  simpl in Hx.
  eapply pools_ok_same; [| |apply (pools_ok_set_resource r x s Hx H)];
    reflexivity.
Qed.

Lemma pools_ok_request r pid k s : pools_ok s -> pools_ok (request r pid k s).
Proof.
  intros H. unfold request. apply pools_ok_trigger.
  eapply pools_ok_same; [| |apply pools_ok_set_resource; [|exact H]];
    try reflexivity.
  exact (H r).
Qed.

Lemma pools_ok_release r pid s : pools_ok s -> pools_ok (release r pid s).
Proof.
  intros H. unfold release.
  eapply pools_ok_same; [| |apply pools_ok_set_resource; [|exact H]];
    try reflexivity.
  destruct (H r) as [Hc Hu]. split; simpl; auto.
  pose proof (remove_user_length pid (users (resource r s))). lia.
Qed.

Lemma pools_ok_init e counters g s0 :
  sim_init e counters g = inr s0 -> pools_ok s0.
Proof.
  unfold sim_init.
  destruct (Resource_new 5) as [x|dc] eqn:E5; [discriminate|].
  destruct (Resource_new counters) as [x|reg] eqn:Ec; [discriminate|].
  intros E; inversion E; subst; clear E.
  apply pools_ok_intro; simpl; eauto using Resource_new_ok.
Qed.

(** C4.  In every state a run goes through, from any environment, with any
    capacity the constructor accepts, any means and any variates, and after
    any further sequence of requests and releases made there in any order,
    both pools have [0 <= in_use <= capacity], where [in_use] is the number
    of [users]. *)
Theorem in_use_within_capacity avg_doc_check avg_service fuel e counters g s0 :
  sim_init e counters g = inr s0 ->
  forall ops r,
    let s := outcome_state (env_run avg_doc_check avg_service fuel SIM_TIME s0) in
    let pool := resource r (pool_ops ops s) in
    (0 <= Z.of_nat (length (users pool)) <= capacity pool)%Z.
Proof.
  intros Hinit ops r s pool. subst pool.
  assert (H : pools_ok (pool_ops ops s)).
  { apply pool_inv_ops.
    - apply pools_ok_request.
    - apply pools_ok_release.
    - apply pools_ok_trigger.
    - apply pool_inv_run.
      + intros s1 s2 E1 E2 _; now apply pools_ok_same.
      + apply pools_ok_request.
      + apply pools_ok_release.
      + apply pools_ok_trigger.
      + exact (pools_ok_init _ _ _ _ Hinit). }
  apply (H r).
Qed.

(** ** First come, first served *)

Lemma requested_app r tr1 tr2 :
  requested r (tr1 ++ tr2) = requested r tr1 ++ requested r tr2.
Proof.
  induction tr1 as [|o tr1 IH]; simpl; auto.
  destruct o; auto. destruct (ResId_eqb r r0); simpl; congruence.
Qed.

Lemma granted_app r tr1 tr2 :
  granted r (tr1 ++ tr2) = granted r tr1 ++ granted r tr2.
Proof.
  induction tr1 as [|o tr1 IH]; simpl; auto.
  destruct o; auto. destruct (ResId_eqb r r0); simpl; congruence.
Qed.

Lemma fifo_ok_frame s s' :
  doc_check s' = doc_check s -> registration s' = registration s ->
  trace s' = trace s -> fifo_ok s -> fifo_ok s'.
Proof.
  intros E1 E2 E3 H r. unfold waiting. rewrite E3.
  destruct r; simpl; [rewrite E1; apply (H DocCheck)|rewrite E2; apply (H Registration)].
Qed.

Lemma fifo_ok_trigger r s : fifo_ok s -> fifo_ok (sim_trigger_put r s).
Proof.
  intros H. unfold sim_trigger_put, trigger_put.
  pose proof (H r) as Hr. unfold waiting in Hr.
  destruct (put_queue (resource r s)) as [|[pid k] rest] eqn:Eq; auto.
  destruct (Z.of_nat (length (users (resource r s))) <? capacity (resource r s))%Z;
    auto.
  intros r'. unfold waiting. simpl trace.
  rewrite requested_app, granted_app. simpl.
  destruct r, r'; simpl; rewrite ?app_nil_r;
    try (apply (H DocCheck)); try (apply (H Registration));
    simpl in Hr; rewrite Hr, <- app_assoc; reflexivity.
Qed.

Lemma fifo_ok_request r pid k s : fifo_ok s -> fifo_ok (request r pid k s).
Proof.
  intros H. unfold request. apply fifo_ok_trigger.
  intros r'. unfold waiting. simpl trace.
  rewrite requested_app, granted_app. simpl.
  destruct r, r'; simpl; rewrite ?app_nil_r, ?map_app;
    try (apply (H DocCheck)); try (apply (H Registration)); simpl.
  - rewrite (H DocCheck), <- app_assoc; reflexivity.
  - rewrite (H Registration), <- app_assoc; reflexivity.
Qed.

Lemma fifo_ok_release r pid s : fifo_ok s -> fifo_ok (release r pid s).
Proof.
  intros H. unfold release.
  intros r'. unfold waiting. simpl trace.
  rewrite requested_app, granted_app. simpl. rewrite !app_nil_r.
  destruct r, r'; simpl;
    try (apply (H DocCheck)); try (apply (H Registration)).
Qed.

Lemma fifo_ok_init e counters g s0 :
  sim_init e counters g = inr s0 -> fifo_ok s0.
Proof.
  unfold sim_init, Resource_new. simpl.
  destruct (counters <=? 0)%Z; [discriminate|].
  intros E; inversion E; subst; clear E. intros [|]; reflexivity.
Qed.

(** C7.  In every state a run goes through, and after any further
    sequence of requests and releases made there in any order, for both
    pools: the processes granted a unit so far are, in the order of the
    grants, the first of those that asked for one, in the order they asked;
    the others are the waiters, in the same order.  So no waiter is served
    before one that came earlier. *)
Theorem grants_follow_arrival_order
    avg_doc_check avg_service fuel e counters g s0 :
  sim_init e counters g = inr s0 ->
  forall ops r,
    let s := pool_ops ops
               (outcome_state (env_run avg_doc_check avg_service fuel SIM_TIME s0)) in
    requested r (trace s) = granted r (trace s) ++ waiting r s /\
    granted r (trace s) = firstn (length (granted r (trace s))) (requested r (trace s)).
Proof.
  intros Hinit ops r s.
  assert (H : fifo_ok s).
  { apply pool_inv_ops.
    - apply fifo_ok_request.
    - apply fifo_ok_release.
    - apply fifo_ok_trigger.
    - apply pool_inv_run.
      + apply fifo_ok_frame.
      + apply fifo_ok_request.
      + apply fifo_ok_release.
      + apply fifo_ok_trigger.
      + exact (fifo_ok_init _ _ _ _ Hinit). }
  split; [apply (H r)|].
  rewrite (H r), firstn_app, Nat.sub_diag, firstn_all. simpl.
  now rewrite app_nil_r.
Qed.

(** ** The clock and the recorded waits *)

Lemma resumption_ok_later t t' k :
  t <= t' -> resumption_ok t k -> resumption_ok t' k.
Proof.
  intros Ht. destruct k as [pid [| | |sw|]|]; simpl; auto.
  intros H. eapply Qle_trans; eauto.
Qed.

Lemma kind_ok_later t t' k : t <= t' -> kind_ok t k -> kind_ok t' k.
Proof. destruct k; simpl; eauto using resumption_ok_later. Qed.

Lemma event_le_true a b : event_le a b = true -> at_time a <= at_time b.
Proof.
  unfold event_le. destruct (at_time a ?= at_time b) eqn:E; intros H.
  - apply Qeq_alt in E. rewrite E. apply Qle_refl.
  - apply Qlt_alt in E. now apply Qlt_le_weak.
  - discriminate.
Qed.

Lemma event_le_false a b : event_le a b = false -> at_time b <= at_time a.
Proof.
  unfold event_le. destruct (at_time a ?= at_time b) eqn:E; intros H.
  - apply Qeq_alt in E. rewrite E. apply Qle_refl.
  - discriminate.
  - apply Qgt_alt in E. now apply Qlt_le_weak.
Qed.

Lemma heappush_Forall (P : Event -> Prop) e q :
  P e -> Forall P q -> Forall P (heappush e q).
Proof.
  intros He. induction 1 as [|x q Hx Hq IH]; simpl; auto.
  destruct (event_le x e); auto.
Qed.

Lemma heappush_sorted e q : time_sorted q -> time_sorted (heappush e q).
Proof.
  unfold time_sorted. induction 1 as [|x q Hq IH Hx]; simpl.
  - repeat constructor.
  - destruct (event_le x e) eqn:E.
    + constructor; auto. apply heappush_Forall; auto.
      now apply event_le_true.
    + apply event_le_false in E. constructor.
      * now constructor.
      * constructor; auto.
        eapply Forall_impl; [|exact Hx]. intros y Hy; simpl in *.
        eapply Qle_trans; eauto.
Qed.

Lemma time_ok_schedule prio d k s :
  0 <= d -> kind_ok (now (env s)) k -> time_ok s ->
  time_ok (set_env (schedule prio d k) s).
Proof.
  intros Hd Hk [H1 H2 H3 H4]. constructor; simpl; auto.
  - now apply heappush_sorted.
  - apply heappush_Forall; auto. split; simpl; auto.
    rewrite <- (Qplus_0_r (now (env s))) at 1.
    apply Qplus_le_r; exact Hd.
Qed.

(** Stores that leave the clock, the heap, the queues and the waits alone. *)
Lemma time_ok_frame s s' :
  env s' = env s ->
  put_queue (doc_check s') = put_queue (doc_check s) ->
  put_queue (registration s') = put_queue (registration s) ->
  wait_times s' = wait_times s ->
  time_ok s -> time_ok s'.
Proof.
  intros E1 E2 E3 E4 [H1 H2 H3 H4].
  constructor; rewrite ?E1, ?E4; auto.
  intros [|]; simpl; [rewrite E2; apply (H3 DocCheck)|rewrite E3; apply (H3 Registration)].
Qed.

Lemma time_ok_trigger r s : time_ok s -> time_ok (sim_trigger_put r s).
Proof.
  intros H. unfold sim_trigger_put, trigger_put.
  pose proof (waiters_ok s H r) as Hq.
  destruct (put_queue (resource r s)) as [|[pid k] rest] eqn:Eq; auto.
  destruct (Z.of_nat (length (users (resource r s))) <? capacity (resource r s))%Z;
    auto.
  inversion Hq as [|? ? Hk Hrest]; subst; simpl in Hk.
  destruct H as [H1 H2 H3 H4].
  assert (Hev : event_ok (now (env s))
                  (mkEvent (now (env s) + 0) NORMAL (next_eid (env s)) (Request r k))).
  { split; simpl; auto. rewrite Qplus_0_r. apply Qle_refl. }
  destruct r; constructor; simpl in *; auto using heappush_sorted, heappush_Forall;
    intros [|]; simpl; auto;
    try (apply (H3 DocCheck)); try (apply (H3 Registration)).
Qed.

Lemma time_ok_request r pid k s :
  resumption_ok (now (env s)) k -> time_ok s -> time_ok (request r pid k s).
Proof.
  intros Hk [H1 H2 H3 H4]. unfold request. apply time_ok_trigger.
  destruct r; constructor; simpl; auto;
    intros [|]; simpl;
    try (apply (H3 DocCheck)); try (apply (H3 Registration));
    apply Forall_app; split; auto;
    try (apply (H3 DocCheck)); try (apply (H3 Registration)).
Qed.

Lemma time_ok_release r pid s : time_ok s -> time_ok (release r pid s).
Proof.
  intros [H1 H2 H3 H4]. unfold release.
  apply time_ok_schedule.
  - apply Qle_refl.
  - exact I.
  - destruct r; constructor; simpl; auto;
      intros [|]; simpl; try (apply (H3 DocCheck)); try (apply (H3 Registration)).
Qed.

Lemma time_ok_yield m k s :
  resumption_ok (now (env s)) k -> time_ok s ->
  time_ok (result_state (yield_timeout m k s)).
Proof.
  intros Hk H. unfold yield_timeout.
  destruct m as [x|q]; simpl; auto.
  destruct (expovariate q (rng s)) as [[e|d] g]; simpl.
  - eapply time_ok_frame; [| | | |exact H]; reflexivity.
  - destruct (Qle_bool 0 d) eqn:Ed; simpl.
    + apply Qle_bool_iff in Ed.
      apply (time_ok_schedule NORMAL d (Timeout k) (set_rng g s)); auto.
      eapply time_ok_frame; [| | | |exact H]; reflexivity.
    + eapply time_ok_frame; [| | | |exact H]; reflexivity.
Qed.

Lemma time_ok_process_end err s : time_ok s -> time_ok (process_end err s).
Proof.
  intros H. apply time_ok_schedule; auto. apply Qle_refl. exact I.
Qed.

Lemma time_ok_append w s : 0 <= w -> time_ok s -> time_ok (append_wait w s).
Proof.
  intros Hw [H1 H2 H3 H4]. constructor; simpl; auto.
  apply Forall_app; auto.
Qed.

Lemma now_release r pid s : now (env (release r pid s)) = now (env s).
Proof. destruct r; reflexivity. Qed.

Lemma now_yield m k s :
  now (env (result_state (yield_timeout m k s))) = now (env s).
Proof.
  unfold yield_timeout.
  destruct m as [x|q]; simpl; auto.
  destruct (expovariate q (rng s)) as [[e|d] g]; simpl; auto.
  destruct (Qle_bool 0 d); simpl; auto.
Qed.

Section Clock.

Variables avg_doc_check avg_service : Q.

Local Abbreviation student := (student avg_doc_check avg_service).
Local Abbreviation resume := (resume avg_doc_check avg_service).
Local Abbreviation step := (step avg_doc_check avg_service).

Lemma time_ok_student pid pc s :
  resumption_ok (now (env s)) (ResumeStudent pid pc) -> time_ok s ->
  time_ok (student pid pc s).
Proof.
  intros Hk H. destruct pc as [| | |sw|]; simpl.
  - apply time_ok_request; simpl; auto.
  - pose proof (time_ok_yield (np_div 1 avg_doc_check) (ResumeStudent pid AtDocTimeout) s I H) as Hy.
    destruct (yield_timeout _ _ s); simpl in Hy; auto.
    now apply time_ok_process_end, time_ok_release.
  - apply time_ok_request.
    + simpl. apply Qle_refl.
    + now apply time_ok_release.
  - simpl in Hk.
    match goal with |- context [yield_timeout ?m ?k ?x] =>
      assert (Hy : time_ok (result_state (yield_timeout m k x)));
      [apply time_ok_yield; [exact I|apply time_ok_append; auto]
      |destruct (yield_timeout m k x); simpl in Hy; auto]
    end.
    + unfold Qminus. rewrite <- (Qplus_opp_r sw). apply Qplus_le_l. exact Hk.
    + now apply time_ok_process_end, time_ok_release.
  - now apply time_ok_process_end, time_ok_release.
Qed.

Lemma time_ok_generator pc s : time_ok s -> time_ok (generator pc s).
Proof.
  intros H. unfold generator.
  match goal with |- context [yield_timeout ?m ?k ?x] =>
    assert (Hy : time_ok (result_state (yield_timeout m k x)));
    [apply time_ok_yield; [exact I|]
    |destruct (yield_timeout m k x); simpl in Hy; auto]
  end.
  - destruct pc; auto. unfold spawn_student.
    eapply time_ok_frame;
      [| | | |apply (time_ok_schedule URGENT 0
                      (Initialize (ResumeStudent (spawned s) AtStart)) s);
              [apply Qle_refl|exact I|exact H]]; reflexivity.
  - now apply time_ok_process_end.
Qed.

Lemma time_ok_resume k s :
  resumption_ok (now (env s)) k -> time_ok s -> time_ok (resume k s).
Proof.
  destruct k; simpl; intros; [apply time_ok_student | apply time_ok_generator]; auto.
Qed.

(** Popping the head of the heap moves the clock forward. *)
Lemma time_ok_pop s ev rest :
  time_ok s -> queue (env s) = ev :: rest ->
  now (env s) <= at_time ev /\
  kind_ok (at_time ev) (kind ev) /\
  time_ok (set_env (fun e => mkEnv (at_time ev) rest (next_eid e)) s).
Proof.
  intros [H1 H2 H3 H4] E. rewrite E in H1, H2.
  inversion H1 as [|? ? Hs Hle]; subst.
  inversion H2 as [|? ? [Ht Hk] Hf]; subst.
  split; [exact Ht|]. split; [eapply kind_ok_later; eauto|].
  constructor; simpl; auto.
  - clear - Hle Hf Ht. induction rest as [|x rest IH]; constructor.
    + inversion Hle; inversion Hf; subst. destruct H5 as [_ Hk].
      split; [assumption|]. eapply kind_ok_later; eauto.
    + inversion Hle; inversion Hf; subst. auto.
  - intros r. eapply Forall_impl; [|apply (H3 r)].
    intros p. apply resumption_ok_later; auto.
Qed.

Lemma time_ok_step s : time_ok s -> time_ok (step_state (step s)).
Proof.
  intros H. unfold step.
  destruct (queue (env s)) as [|ev rest] eqn:E; simpl; auto.
  destruct (time_ok_pop s ev rest H E) as (Ht & Hk & H1).
  destruct (kind ev) as [k|k|r k|r|[e|]|]; simpl in *;
    auto using time_ok_resume, time_ok_trigger.
Qed.

Lemma time_ok_init counters g s0 :
  sim_init Environment_new counters g = inr s0 -> time_ok s0.
Proof.
  unfold sim_init, Resource_new. simpl.
  destruct (counters <=? 0)%Z; [discriminate|].
  intros E; inversion E; subst; clear E.
  constructor; simpl.
  - repeat constructor.
  - repeat constructor; simpl. discriminate.
  - intros [|]; constructor.
  - constructor.
Qed.

Lemma time_ok_run fuel counters g s0 :
  sim_init Environment_new counters g = inr s0 ->
  time_ok (outcome_state (env_run avg_doc_check avg_service fuel SIM_TIME s0)).
Proof.
  intros Hinit. unfold env_run.
  destruct (Qle_bool SIM_TIME (now (env s0))) eqn:Eu; simpl.
  - exact (time_ok_init _ _ _ Hinit).
  - apply run_loop_invariant; [apply time_ok_step|].
    apply time_ok_schedule; [|exact I|exact (time_ok_init _ _ _ Hinit)].
    assert (~ SIM_TIME <= now (env s0)) as Hn
      by (intros C; apply Qle_bool_iff in C; congruence).
    apply Qnot_le_lt in Hn. unfold Qminus.
    rewrite <- (Qplus_opp_r (now (env s0))). apply Qplus_le_l.
    now apply Qlt_le_weak.
Qed.

(** C10.  In every state a run goes through, every value in [wait_times]
    is non-negative; and every scheduled event is due no earlier than the
    clock, with, for the grant of a registration request, the [start_wait]
    of its student no later than the clock: the time of the grant is not
    before the time the request was made. *)
Theorem recorded_waits_nonnegative fuel counters g s0 :
  sim_init Environment_new counters g = inr s0 ->
  let s := outcome_state (env_run avg_doc_check avg_service fuel SIM_TIME s0) in
  Forall (fun w => 0 <= w) (wait_times s) /\
  Forall (fun ev =>
            now (env s) <= at_time ev /\
            match kind ev with
            | Request _ (ResumeStudent _ (AtRegRequest start_wait)) =>
                start_wait <= at_time ev
            | _ => True
            end) (queue (env s)).
Proof.
  intros Hinit s.
  destruct (time_ok_run fuel counters g s0 Hinit) as [_ Hq _ Hw]. fold s in Hq, Hw.
  split; [exact Hw|].
  eapply Forall_impl; [|exact Hq]. intros ev [Ht Hk]. split; [exact Ht|].
  destruct (kind ev) as [k|k|r k|r|err|]; auto.
  destruct k as [pid pc|pc]; auto. destruct pc; auto.
  simpl in Hk. eapply Qle_trans; eauto.
Qed.

End Clock.

(** ** What is appended to [wait_times], and when *)

Lemma event_wf_more tr o ev : event_wf tr ev -> event_wf (tr ++ [o]) ev.
Proof.
  unfold event_wf.
  destruct (kind ev) as [k|k|r k|r|err|]; auto.
  destruct r; auto. destruct k as [pid pc|pc]; auto. destruct pc; auto.
  intros [H1 (t & H2 & H3)]. split; [apply in_or_app; auto|].
  exists t; split; auto. apply in_or_app; auto.
Qed.

Lemma waiter_wf_more tr o r p : waiter_wf tr r p -> waiter_wf (tr ++ [o]) r p.
Proof.
  unfold waiter_wf. destruct r; auto.
  destruct (snd p) as [pid pc|pc]; auto. destruct pc; auto.
  intros [H1 H2]; split; auto. apply in_or_app; auto.
Qed.

Lemma wf_frame s s' :
  queue (env s') = queue (env s) ->
  put_queue (doc_check s') = put_queue (doc_check s) ->
  put_queue (registration s') = put_queue (registration s) ->
  trace s' = trace s ->
  wf s -> wf s'.
Proof.
  intros E1 E2 E3 E4 [H1 H2]. constructor; rewrite ?E1, ?E4; auto.
  intros [|]; simpl; [rewrite E2; apply (H2 DocCheck)|rewrite E3; apply (H2 Registration)].
Qed.

Lemma wf_log o s : wf s -> wf (log o s).
Proof.
  intros [H1 H2]. constructor; simpl.
  - eapply Forall_impl; [|exact H1]. intros; now apply event_wf_more.
  - intros r. eapply Forall_impl with (P := waiter_wf (trace s) r).
    + intros; now apply waiter_wf_more.
    + destruct r; [apply (H2 DocCheck)|apply (H2 Registration)].
Qed.

(** Only the due time and the kind of an event matter. *)
Lemma wf_schedule prio d k s :
  event_wf (trace s) (mkEvent (now (env s) + d) prio (next_eid (env s)) k) ->
  wf s -> wf (set_env (schedule prio d k) s).
Proof.
  intros Hk [H1 H2]. constructor; simpl; auto.
  apply heappush_Forall; auto.
Qed.

Lemma wf_trigger r s : wf s -> wf (sim_trigger_put r s).
Proof.
  intros H. unfold sim_trigger_put, trigger_put.
  pose proof (wf_waiters s H r) as Hq.
  destruct (put_queue (resource r s)) as [|[pid k] rest] eqn:Eq; auto.
  destruct (Z.of_nat (length (users (resource r s))) <? capacity (resource r s))%Z;
    auto.
  inversion Hq as [|? ? Hk Hrest]; subst.
  apply (wf_log (ObsGrant r pid (now (env s)))) in H. destruct H as [H1 H2].
  apply (Forall_impl _ (fun p => waiter_wf_more (trace s)
           (ObsGrant r pid (now (env s))) r p)) in Hrest.
  unfold waiter_wf in Hk; simpl in Hk.
  assert (Hev : event_wf (trace s ++ [ObsGrant r pid (now (env s))])
                  (mkEvent (now (env s) + 0) NORMAL (next_eid (env s)) (Request r k))).
  { unfold event_wf; simpl.
    destruct r; destruct k as [pid' pc|pc]; auto; destruct pc; auto.
    destruct Hk as [<- Hin]. split; [apply in_or_app; auto|].
    exists (now (env s)). split; [apply in_or_app; simpl; auto|].
    rewrite Qplus_0_r. reflexivity. }
  destruct r; constructor; simpl in *; auto using heappush_Forall;
    intros [|]; simpl; auto;
    try (apply (H2 DocCheck)); try (apply (H2 Registration)).
Qed.

Lemma wf_request r pid k s :
  waiter_wf (trace s ++ [ObsRequest r pid (now (env s))]) r (pid, k) ->
  wf s -> wf (request r pid k s).
Proof.
  intros Hk H. unfold request. apply wf_trigger.
  apply (wf_log (ObsRequest r pid (now (env s)))) in H. destruct H as [H1 H2].
  destruct r; constructor; simpl in *; auto;
    intros [|]; simpl;
    try (apply (H2 DocCheck)); try (apply (H2 Registration));
    apply Forall_app; split; auto;
    try (apply (H2 DocCheck)); try (apply (H2 Registration)).
Qed.

Lemma wf_release r pid s : wf s -> wf (release r pid s).
Proof.
  intros H. unfold release.
  apply (wf_log (ObsRelease r pid (now (env s)))) in H. destruct H as [H1 H2].
  apply wf_schedule; [exact I|].
  destruct r; constructor; simpl in *; auto;
    intros [|]; simpl; try (apply (H2 DocCheck)); try (apply (H2 Registration)).
Qed.

Lemma wf_yield m k s :
  (forall ev, kind ev = Timeout k -> event_wf (trace s) ev) ->
  wf s -> wf (result_state (yield_timeout m k s)).
Proof.
  intros Hk H. unfold yield_timeout.
  destruct m as [x|q]; simpl; auto.
  destruct (expovariate q (rng s)) as [[e|d] g]; simpl.
  - eapply wf_frame; [| | | |exact H]; reflexivity.
  - destruct (Qle_bool 0 d); simpl.
    + apply (wf_schedule NORMAL d (Timeout k) (set_rng g s)).
      * apply Hk; reflexivity.
      * eapply wf_frame; [| | | |exact H]; reflexivity.
    + eapply wf_frame; [| | | |exact H]; reflexivity.
Qed.

Lemma wf_process_end err s : wf s -> wf (process_end err s).
Proof. intros H. apply wf_schedule; auto. exact I. Qed.

(** The clock and the recorded waits through the pool operations. *)
Lemma now_trigger r s : now (env (sim_trigger_put r s)) = now (env s).
Proof.
  unfold sim_trigger_put.
  destruct (trigger_put _ _) as [x [[pid k]|]]; auto. destruct r; reflexivity.
Qed.

Lemma now_request r pid k s : now (env (request r pid k s)) = now (env s).
Proof. unfold request. rewrite now_trigger. destruct r; reflexivity. Qed.

Lemma wait_times_trigger r s : wait_times (sim_trigger_put r s) = wait_times s.
Proof.
  unfold sim_trigger_put.
  destruct (trigger_put _ _) as [x [[pid k]|]]; auto. destruct r; reflexivity.
Qed.

Lemma wait_times_request r pid k s : wait_times (request r pid k s) = wait_times s.
Proof. unfold request. rewrite wait_times_trigger. destruct r; reflexivity. Qed.

Lemma wait_times_release r pid s : wait_times (release r pid s) = wait_times s.
Proof. destruct r; reflexivity. Qed.

Lemma wait_times_yield m k s :
  wait_times (result_state (yield_timeout m k s)) = wait_times s.
Proof. apply (yield_timeout_frame m k s). Qed.

Section Waits.

Variables avg_doc_check avg_service : Q.

Local Abbreviation student := (student avg_doc_check avg_service).
Local Abbreviation resume := (resume avg_doc_check avg_service).
Local Abbreviation step := (step avg_doc_check avg_service).

Lemma wf_student pid pc s :
  resumes_at (trace s) (ResumeStudent pid pc) -> wf s -> wf (student pid pc s).
Proof.
  intros Hk H. destruct pc as [| | |sw|]; simpl.
  - apply wf_request; [exact I|exact H].
  - pose proof (wf_yield (np_div 1 avg_doc_check) (ResumeStudent pid AtDocTimeout) s) as Hy.
    assert (Hy' := Hy ltac:(intros ev E; unfold event_wf; rewrite E; exact I) H).
    destruct (yield_timeout _ _ s); simpl in Hy'; auto.
    now apply wf_process_end, wf_release.
  - apply wf_request.
    + split; auto. apply in_or_app; right. left. reflexivity.
    + now apply wf_release.
  - match goal with |- context [yield_timeout ?m ?k ?x] =>
      assert (Hy : wf (result_state (yield_timeout m k x)));
      [apply wf_yield;
       [intros ev E; unfold event_wf; rewrite E; exact I
       |eapply wf_frame; [| | | |exact H]; reflexivity]
      |destruct (yield_timeout m k x); simpl in Hy; auto]
    end.
    now apply wf_process_end, wf_release.
  - now apply wf_process_end, wf_release.
Qed.

Lemma wf_generator pc s : wf s -> wf (generator pc s).
Proof.
  intros H. unfold generator.
  match goal with |- context [yield_timeout ?m ?k ?x] =>
    assert (Hy : wf (result_state (yield_timeout m k x)));
    [apply wf_yield; [intros ev E; unfold event_wf; rewrite E; exact I|]
    |destruct (yield_timeout m k x); simpl in Hy; auto]
  end.
  - destruct pc; auto. unfold spawn_student.
    eapply wf_frame;
      [| | | |apply (wf_schedule URGENT 0
                      (Initialize (ResumeStudent (spawned s) AtStart)) s);
              [exact I|exact H]]; reflexivity.
  - now apply wf_process_end.
Qed.

Lemma wf_resume k s : resumes_at (trace s) k -> wf s -> wf (resume k s).
Proof.
  destruct k; simpl; intros; [apply wf_student | apply wf_generator]; auto.
Qed.

Lemma wf_step s : wf s -> wf (step_state (step s)).
Proof.
  intros H. unfold step.
  destruct (queue (env s)) as [|ev rest] eqn:E; simpl; auto.
  set (s1 := set_env _ s).
  assert (Hev : event_wf (trace s) ev /\ wf s1).
  { destruct H as [H1 H2]. rewrite E in H1. inversion H1; subst.
    split; auto. constructor; simpl; auto. }
  destruct Hev as [Hev H1].
  assert (Hres : forall k,
            kind ev = Initialize k \/ kind ev = Timeout k \/
            (exists r, kind ev = Request r k) -> wf (resume k s1)).
  { intros k Hk. apply wf_resume; auto. exists ev; auto. }
  destruct (kind ev) as [k|k|r k|r|[e|]|]; simpl; eauto 6 using wf_trigger.
Qed.

Lemma wf_init counters g s0 :
  sim_init Environment_new counters g = inr s0 -> wf s0.
Proof.
  unfold sim_init, Resource_new. simpl.
  destruct (counters <=? 0)%Z; [discriminate|].
  intros E; inversion E; subst; clear E.
  constructor; simpl.
  - repeat constructor.
  - intros [|]; constructor.
Qed.

Lemma wf_run fuel counters g s0 :
  sim_init Environment_new counters g = inr s0 ->
  wf (outcome_state (env_run avg_doc_check avg_service fuel SIM_TIME s0)).
Proof.
  intros Hinit. apply env_run_invariant.
  - apply wf_step.
  - intros s d Hs. apply wf_schedule; auto. exact I.
  - exact (wf_init _ _ _ Hinit).
Qed.

Ltac yield_cases :=
  match goal with
  | |- context [yield_timeout ?m ?k ?x] =>
      let Hn := fresh "Hn" in
      let Hw := fresh "Hw" in
      pose proof (now_yield m k x) as Hn;
      pose proof (wait_times_yield m k x) as Hw;
      destruct (yield_timeout m k x); simpl in Hn, Hw
  end.

Lemma now_student pid pc s : now (env (student pid pc s)) = now (env s).
Proof.
  destruct pc; simpl; rewrite ?now_request, ?now_release; auto; yield_cases; auto.
Qed.

Lemma now_generator pc s : now (env (generator pc s)) = now (env s).
Proof.
  unfold generator. yield_cases; simpl; rewrite Hn; destruct pc; reflexivity.
Qed.

Lemma wait_times_student pid pc s :
  wait_times (student pid pc s) =
  match pc with
  | AtRegRequest start_wait => wait_times s ++ [now (env s) - start_wait]
  | _ => wait_times s
  end.
Proof.
  destruct pc; simpl;
    rewrite ?wait_times_request, ?wait_times_release; auto; yield_cases; auto.
Qed.

Lemma wait_times_generator pc s : wait_times (generator pc s) = wait_times s.
Proof.
  unfold generator. yield_cases; simpl; rewrite Hw; destruct pc; reflexivity.
Qed.

Lemma wait_times_resume k s :
  wait_times (resume k s) =
  match k with
  | ResumeStudent _ (AtRegRequest start_wait) =>
      wait_times s ++ [now (env s) - start_wait]
  | _ => wait_times s
  end.
Proof.
  destruct k as [pid pc|pc]; unfold resume.
  - rewrite wait_times_student. destruct pc; reflexivity.
  - apply wait_times_generator.
Qed.

(** Processing an event sets the clock to its due time. *)
Lemma now_step s ev rest :
  queue (env s) = ev :: rest -> now (env (step_state (step s))) = at_time ev.
Proof.
  intros E. unfold step. rewrite E.
  destruct (kind ev) as [k|k|r k|r|[e|]|]; simpl;
    try (destruct k; simpl; rewrite ?now_student, ?now_generator);
    rewrite ?now_trigger; reflexivity.
Qed.

(** C5.  Take any state of a run and the event [ev] that is processed next.
    If [ev] is the grant of a registration request, the student it resumes
    holds a [start_wait] that is the clock it read when it made the request,
    the grant happened at the due time of [ev], which is the clock now, and
    exactly [now - start_wait] is appended to [wait_times].  Every other
    event, the grant of a document-check request included, leaves
    [wait_times] as it is. *)
Theorem only_registration_wait_recorded fuel counters g s0 :
  sim_init Environment_new counters g = inr s0 ->
  let s := outcome_state (env_run avg_doc_check avg_service fuel SIM_TIME s0) in
  forall ev rest, queue (env s) = ev :: rest ->
  let s' := step_state (step s) in
  now (env s') = at_time ev /\
  match kind ev with
  | Request Registration (ResumeStudent pid (AtRegRequest start_wait)) =>
      wait_times s' = wait_times s ++ [now (env s') - start_wait] /\
      In (ObsRequest Registration pid start_wait) (trace s) /\
      exists t, In (ObsGrant Registration pid t) (trace s) /\ t == now (env s')
  | _ => wait_times s' = wait_times s
  end.
Proof.
  intros Hinit s ev rest E s'.
  assert (Hnow : now (env s') = at_time ev) by (apply (now_step s ev rest E)).
  split; [exact Hnow|]. rewrite Hnow.
  pose proof (wf_run fuel counters g s0 Hinit) as [Hq _]. fold s in Hq.
  rewrite E in Hq. inversion Hq as [|? ? Hev _]; subst.
  unfold event_wf in Hev. subst s'. clear Hnow. unfold step. rewrite E.
  destruct (kind ev) as [k|k|r k|r|[e|]|]; unfold step_state;
    rewrite ?wait_times_resume, ?wait_times_trigger;
    try (destruct r);
    try (destruct k as [pid pc|pc]; [destruct pc|destruct pc]);
    try contradiction; simpl; auto.
Qed.

End Waits.

(** ** Finalising a run *)

Section Finalize.

Variables avg_doc_check avg_service : Q.

Local Abbreviation env_run := (env_run avg_doc_check avg_service).
Local Abbreviation registration_simulation :=
  (registration_simulation avg_doc_check avg_service).

Lemma Qsum_is_sum l : is_sum l (Qsum l).
Proof. induction l as [|w l IH]; simpl; constructor; exact IH. Qed.

(** C8.  When [env.run] finishes and at least one wait was recorded, the
    call returns, whatever fuel is added, and the entry it appends to
    [results] pairs the capacity with the arithmetic mean of the recorded
    waits: their sum divided by their number. *)
Theorem mean_wait_is_arithmetic_mean fuel e counters results g s0 s :
  sim_init e counters g = inr s0 ->
  env_run fuel SIM_TIME s0 = Finished s ->
  wait_times s <> [] ->
  exists avg_wait,
    (forall extra,
       registration_simulation (fuel + extra) e counters results g
       = Returned (env s) (results ++ [(counters, avg_wait)]) (rng s)) /\
    is_arithmetic_mean (wait_times s) avg_wait.
Proof.
  intros Hinit Hrun Hne.
  exists (Qsum (wait_times s) / inject_Z (Z.of_nat (length (wait_times s)))).
  split.
  - intros extra. unfold registration_simulation.
    rewrite Hinit, (env_run_more_fuel _ _ fuel extra _ _ _ Hrun).
    destruct (wait_times s) as [|w ws] eqn:Ew; [congruence|]. reflexivity.
  - exists (Qsum (wait_times s)). split; [apply Qsum_is_sum|reflexivity].
Qed.

(** C6, as the code has it.  A zero or negative registration capacity is
    refused by the [Resource] constructor with [ValueError], before anything
    is scheduled and before any variate is drawn. *)
Theorem bad_capacity_rejected_up_front fuel e counters results g :
  (counters <= 0)%Z ->
  registration_simulation fuel e counters results g
    = Raised ValueError e results g /\
  rejected_up_front (registration_simulation fuel e counters results g)
    e results g.
Proof.
  intros Hc.
  assert (E : registration_simulation fuel e counters results g
              = Raised ValueError e results g).
  { unfold registration_simulation, sim_init, Resource_new. simpl.
    destruct (Z.leb_spec counters 0); [reflexivity|lia]. }
  split; [exact E|]. exists ValueError. exact E.
Qed.

End Finalize.

(** ** The generator is only threaded through the pools *)

Lemma trigger_set_rng r g s :
  sim_trigger_put r (set_rng g s) = set_rng g (sim_trigger_put r s).
Proof.
  unfold sim_trigger_put.
  replace (resource r (set_rng g s)) with (resource r s) by (destruct r; reflexivity).
  simpl env.
  destruct (trigger_put (now (env s)) (resource r s)) as [x [[pid k]|]];
    destruct r; reflexivity.
Qed.

Lemma request_set_rng r pid k g s :
  request r pid k (set_rng g s) = set_rng g (request r pid k s).
Proof.
  unfold request. rewrite <- trigger_set_rng. destruct r; reflexivity.
Qed.

Lemma release_set_rng r pid g s :
  release r pid (set_rng g s) = set_rng g (release r pid s).
Proof. destruct r; reflexivity. Qed.

(** ** More counters

    A run in which no student ever queues for a registration counter does
    not depend on how many counters there are beyond those it uses. *)

Section Uncontended.

Variables avg_doc_check avg_service : Q.

Local Abbreviation student := (student avg_doc_check avg_service).
Local Abbreviation resume := (resume avg_doc_check avg_service).
Local Abbreviation step := (step avg_doc_check avg_service).
Local Abbreviation run_loop := (run_loop avg_doc_check avg_service).
Local Abbreviation env_run := (env_run avg_doc_check avg_service).
Local Abbreviation registration_simulation :=
  (registration_simulation avg_doc_check avg_service).
Local Abbreviation uncontended := (uncontended avg_doc_check avg_service).
Local Abbreviation uncontended_call :=
  (uncontended_call avg_doc_check avg_service).

Lemma no_waiter_true s : no_waiter s = true -> put_queue (registration s) = [].
Proof. unfold no_waiter. destruct (put_queue (registration s)); congruence. Qed.

Lemma release_recap r pid c s :
  release r pid (recap c s) = recap c (release r pid s).
Proof. destruct r; reflexivity. Qed.

Lemma trigger_doc_recap c s :
  sim_trigger_put DocCheck (recap c s) = recap c (sim_trigger_put DocCheck s).
Proof.
  unfold sim_trigger_put. simpl.
  destruct (trigger_put (now (env s)) (doc_check s)) as [x [[pid k]|]]; reflexivity.
Qed.

Lemma request_doc_recap pid k c s :
  request DocCheck pid k (recap c s) = recap c (request DocCheck pid k s).
Proof. unfold request. rewrite <- trigger_doc_recap. reflexivity. Qed.

Lemma trigger_reg_recap c s :
  put_queue (registration s) = [] ->
  sim_trigger_put Registration (recap c s)
    = recap c (sim_trigger_put Registration s).
Proof.
  intros Hq. unfold sim_trigger_put, trigger_put. simpl. rewrite Hq. reflexivity.
Qed.

Lemma request_reg_recap pid k c s :
  put_queue (registration s) = [] ->
  (capacity (registration s) <= c)%Z ->
  put_queue (registration (request Registration pid k s)) = [] ->
  request Registration pid k (recap c s)
    = recap c (request Registration pid k s).
Proof.
  intros Hq Hc. unfold request, sim_trigger_put, trigger_put. simpl.
  rewrite Hq. simpl.
  destruct (Z.ltb_spec (Z.of_nat (length (users (registration s))))
                       (capacity (registration s))) as [Hlt|Hge]; simpl.
  - intros _.
    destruct (Z.ltb_spec (Z.of_nat (length (users (registration s)))) c);
      [reflexivity|lia].
  - discriminate.
Qed.

Lemma yield_recap m k c s :
  yield_timeout m k (recap c s) = map_result (recap c) (yield_timeout m k s).
Proof.
  unfold yield_timeout.
  destruct m as [x|q]; simpl; auto.
  destruct (expovariate q (rng s)) as [[e|d] g]; simpl; auto.
  destruct (Qle_bool 0 d); reflexivity.
Qed.

Lemma student_recap pid pc c s :
  put_queue (registration s) = [] ->
  (capacity (registration s) <= c)%Z ->
  put_queue (registration (student pid pc s)) = [] ->
  student pid pc (recap c s) = recap c (student pid pc s).
Proof.
  intros Hq Hc. destruct pc as [| | |sw|]; simpl.
  - intros _. apply request_doc_recap.
  - intros _. rewrite yield_recap.
    destruct (yield_timeout _ _ s); reflexivity.
  - intros Hpost. rewrite release_recap.
    apply (request_reg_recap pid _ c (release DocCheck pid s)); auto.
  - intros _.
    change (append_wait (now (env s) - sw) (recap c s))
      with (recap c (append_wait (now (env s) - sw) s)).
    rewrite yield_recap.
    destruct (yield_timeout _ _ (append_wait _ s)); reflexivity.
  - intros _. reflexivity.
Qed.

Lemma generator_recap pc c s :
  generator pc (recap c s) = recap c (generator pc s).
Proof.
  unfold generator. destruct pc.
  - rewrite yield_recap. destruct (yield_timeout _ _ _); reflexivity.
  - change (spawn_student (recap c s)) with (recap c (spawn_student s)).
    rewrite yield_recap. destruct (yield_timeout _ _ _); reflexivity.
Qed.

Lemma step_recap c s :
  put_queue (registration s) = [] ->
  (capacity (registration s) <= c)%Z ->
  put_queue (registration (step_state (step s))) = [] ->
  step (recap c s) = map_step (recap c) (step s).
Proof.
  intros Hq Hc. unfold step. simpl queue.
  destruct (queue (env s)) as [|ev rest]; [reflexivity|].
  set (s1 := set_env (fun e => mkEnv (at_time ev) rest (next_eid e)) s).
  change (set_env (fun e => mkEnv (at_time ev) rest (next_eid e)) (recap c s))
    with (recap c s1).
  assert (Hres : forall k,
            put_queue (registration (resume k s1)) = [] ->
            resume k (recap c s1) = recap c (resume k s1)).
  { intros [pid pc|pc] Hpost; simpl.
    - apply student_recap; auto.
    - apply generator_recap. }
  destruct (kind ev) as [k|k|r k|r|[e|]|]; simpl; intros Hpost;
    rewrite ?Hres; auto.
  destruct r; [rewrite trigger_doc_recap|rewrite trigger_reg_recap]; auto.
Qed.

(** The capacity of a pool never changes. *)
Lemma capacity_trigger r r' s :
  capacity (resource r' (sim_trigger_put r s)) = capacity (resource r' s).
Proof.
  unfold sim_trigger_put, trigger_put.
  destruct (put_queue (resource r s)) as [|[pid k] rest]; auto.
  destruct (Z.of_nat (length (users (resource r s))) <? capacity (resource r s))%Z;
    auto.
  destruct r, r'; reflexivity.
Qed.

Lemma capacity_step c s :
  capacity (registration s) = c ->
  capacity (registration (step_state (step s))) = c.
Proof.
  apply (pool_inv_step avg_doc_check avg_service
           (fun s => capacity (registration s) = c)).
  - intros s1 s2 _ E _ H; rewrite E; exact H.
  - intros r pid k s1 H. unfold request.
    rewrite (capacity_trigger r Registration). destruct r; exact H.
  - intros r pid s1 H. destruct r; exact H.
  - intros r s1 H. rewrite (capacity_trigger r Registration). exact H.
Qed.

Lemma run_loop_recap c fuel : forall s,
  (capacity (registration s) <= c)%Z ->
  uncontended fuel s = true ->
  run_loop fuel (recap c s) = map_outcome (recap c) (run_loop fuel s).
Proof.
  induction fuel as [|fuel IH]; intros s Hc Hu; [reflexivity|].
  simpl in Hu. apply andb_prop in Hu. destruct Hu as [H0 Hu].
  apply no_waiter_true in H0.
  assert (Hpost : put_queue (registration (step_state (step s))) = []).
  { destruct (step s) as [s'|s'|x s']; simpl; try now apply no_waiter_true.
    destruct fuel; simpl in Hu; apply andb_prop in Hu;
      apply no_waiter_true; tauto. }
  simpl. rewrite (step_recap c s H0 Hc Hpost).
  pose proof (capacity_step _ s eq_refl) as Ecap.
  destruct (step s) as [s'|s'|x s']; simpl in *; auto.
  apply IH; auto. lia.
Qed.

(** When no student ever has to queue for one of [c1] counters, the call
    with [c2 >= c1] counters goes through the same states and returns the
    same mean wait. *)
Lemma same_call_without_queue fuel e c1 c2 results g e' m1 g' :
  (c1 <= c2)%Z ->
  uncontended_call fuel e c1 g = true ->
  registration_simulation fuel e c1 results g
    = Returned e' (results ++ [(c1, m1)]) g' ->
  registration_simulation fuel e c2 results g
    = Returned e' (results ++ [(c2, m1)]) g'.
Proof.
  intros Hc Hu Hret.
  revert Hu Hret.
  unfold uncontended_call, registration_simulation, sim_init, Resource_new.
  simpl.
  destruct (Z.leb_spec c1 0) as [|Hpos]; [discriminate|].
  destruct (Z.leb_spec c2 0); [lia|].
  unfold env_run. simpl now.
  destruct (Qle_bool SIM_TIME (now e)); [discriminate|].
  intros Hu.
  match type of Hu with uncontended fuel ?s = true =>
    pose proof (run_loop_recap c2 fuel s Hc Hu) as Hrun;
    change (recap c2 s) with
      (set_env (schedule URGENT (SIM_TIME - now e) Until)
         (set_env (schedule URGENT 0 (Initialize (ResumeGenerator GenStart)))
            (mkSim e (mkResource 5 [] []) (mkResource c2 [] []) [] 0 g [])))
      in Hrun;
    simpl in Hrun |- *; rewrite Hrun;
    destruct (run_loop fuel s) as [s'|x s'|s']; simpl; try discriminate
  end.
  destruct (mean (wait_times s')); [discriminate|].
  intros E. inversion E as [[E1 E2 E3]].
  apply app_inv_head in E2. inversion E2; subst. reflexivity.
Qed.

End Uncontended.

(** ** Abstract runs *)

Lemma heappush_Exists (P : Event -> Prop) e q :
  Exists P q -> Exists P (heappush e q).
Proof.
  induction 1 as [x q Hx|x q Hq IH]; simpl; destruct (event_le x e); auto.
Qed.

Lemma yield_timeout_rng m k s :
  rng (result_state (yield_timeout m k s)) = rng s \/
  rng (result_state (yield_timeout m k s)) = snd (random_next (rng s)).
Proof.
  unfold yield_timeout.
  destruct m as [x|[q|]]; simpl; auto; unfold expovariate, random_next.
  destruct (Qeq_bool q 0); simpl; auto.
  destruct (Qle_bool 0 _); simpl; auto.
Qed.

(** A delay raises nothing but [ZeroDivisionError] and [ValueError]. *)
Lemma yield_timeout_raises avg_doc_check avg_service m k s e s' :
  rate_used avg_doc_check avg_service m ->
  yield_timeout m k s = Raise e s' -> delay_error e.
Proof.
  unfold yield_timeout, expovariate, delay_error.
  intros Hm. destruct m as [x|[q|]].
  - intros E; inversion E; subst. right.
    unfold rate_used, np_div, py_div in Hm.
    destruct (Qeq_bool avg_doc_check 0), (Qeq_bool avg_service 0),
             (Qeq_bool SIM_INTER_ARRIVAL 0);
      destruct Hm as [Hm|[Hm|Hm]]; congruence.
  - destruct (random_next (rng s)) as [v g'].
    destruct (Qeq_bool q 0); [intros E; inversion E; auto|].
    destruct (Qle_bool 0 (v / q)); intros E; inversion E; auto.
  - destruct (random_next (rng s)) as [v g'].
    destruct (Qle_bool 0 0); intros E; inversion E; auto.
Qed.

Section Abstract.

Variables avg_doc_check avg_service : Q.
Variable allowed : Exn -> Prop.
Variable R : Random -> Prop.
Variable Kok : Resumption -> Prop.
Variable Wok : Q -> Prop.

Local Abbreviation rate_used := (rate_used avg_doc_check avg_service).

Hypothesis R_next : forall g, R g -> R (snd (random_next g)).
Hypothesis allowed_raise : forall m k s e s',
  rate_used m -> R (rng s) -> yield_timeout m k s = Raise e s' -> allowed e.
Hypothesis K_gen : forall pc, Kok (ResumeGenerator pc).
Hypothesis K_start : forall pid, Kok (ResumeStudent pid AtStart).
Hypothesis K_doc_request : forall pid, Kok (ResumeStudent pid AtDocRequest).
Hypothesis K_doc_timeout : forall pid k s s',
  R (rng s) -> yield_timeout (np_div 1 avg_doc_check) k s = Ok s' ->
  Kok (ResumeStudent pid AtDocTimeout).
Hypothesis K_reg_request : forall pid t,
  Kok (ResumeStudent pid AtDocTimeout) -> 0 <= t <= SIM_TIME ->
  Kok (ResumeStudent pid (AtRegRequest t)).
Hypothesis W_wait : forall pid start_wait t,
  Kok (ResumeStudent pid (AtRegRequest start_wait)) -> 0 <= t <= SIM_TIME ->
  Wok (t - start_wait).
Hypothesis K_reg_timeout : forall pid start_wait,
  Kok (ResumeStudent pid (AtRegRequest start_wait)) ->
  Kok (ResumeStudent pid AtRegTimeout).

Local Abbreviation student := (student avg_doc_check avg_service).
Local Abbreviation resume := (resume avg_doc_check avg_service).
Local Abbreviation step := (step avg_doc_check avg_service).
Local Abbreviation run_loop := (run_loop avg_doc_check avg_service).
Local Abbreviation env_run := (env_run avg_doc_check avg_service).
Local Abbreviation ok b := (abs_ok b SIM_TIME allowed R Kok Wok).

Lemma ab_frame b s s' :
  env s' = env s ->
  put_queue (doc_check s') = put_queue (doc_check s) ->
  put_queue (registration s') = put_queue (registration s) ->
  wait_times s' = wait_times s ->
  R (rng s') ->
  ok b s -> ok b s'.
Proof.
  intros E1 E2 E3 E4 Hr [H1 H2 H3 H4 H5 H6].
  constructor; rewrite ?E1, ?E4; auto.
  intros [|]; simpl; [rewrite E2; apply (H4 DocCheck)|rewrite E3; apply (H4 Registration)].
Qed.

Lemma ab_schedule b prio d k s :
  (forall ev, kind ev = k -> kind_abs SIM_TIME allowed Kok ev) ->
  ok b s -> ok b (set_env (schedule prio d k) s).
Proof.
  intros Hk [H1 H2 H3 H4 H5 H6]. constructor; simpl; auto.
  - intros Hb. apply heappush_Exists; auto.
  - apply heappush_Forall; auto.
Qed.

Lemma kind_abs_request r k ev :
  Kok k -> kind ev = Request r k -> kind_abs SIM_TIME allowed Kok ev.
Proof. intros Hk E. unfold kind_abs. rewrite E. exact Hk. Qed.

Lemma kind_abs_timeout k ev :
  Kok k -> kind ev = Timeout k -> kind_abs SIM_TIME allowed Kok ev.
Proof. intros Hk E. unfold kind_abs. rewrite E. exact Hk. Qed.

Lemma kind_abs_release r ev :
  kind ev = Release r -> kind_abs SIM_TIME allowed Kok ev.
Proof. intros E. unfold kind_abs. rewrite E. exact I. Qed.

Lemma ab_trigger b r s : ok b s -> ok b (sim_trigger_put r s).
Proof.
  intros H. unfold sim_trigger_put, trigger_put.
  pose proof (ab_waiters _ _ _ _ _ _ _ H r) as Hq.
  destruct (put_queue (resource r s)) as [|[pid k] rest] eqn:Eq; auto.
  destruct (Z.of_nat (length (users (resource r s))) <? capacity (resource r s))%Z;
    auto.
  inversion Hq as [|? ? Hk Hrest]; subst; simpl in Hk.
  destruct H as [H1 H2 H3 H4 H5 H6].
  destruct r; constructor; simpl in *; auto;
    try (intros Hb; apply heappush_Exists; auto);
    try (apply heappush_Forall; auto; eapply kind_abs_request; eauto; reflexivity);
    intros [|]; simpl; auto;
    try (apply (H4 DocCheck)); try (apply (H4 Registration)).
Qed.

Lemma ab_request b r pid k s : Kok k -> ok b s -> ok b (request r pid k s).
Proof.
  intros Hk [H1 H2 H3 H4 H5 H6]. unfold request. apply ab_trigger.
  destruct r; constructor; simpl; auto;
    intros [|]; simpl;
    try (apply (H4 DocCheck)); try (apply (H4 Registration));
    apply Forall_app; split; auto;
    try (apply (H4 DocCheck)); try (apply (H4 Registration)).
Qed.

Lemma ab_release b r pid s : ok b s -> ok b (release r pid s).
Proof.
  intros [H1 H2 H3 H4 H5 H6]. unfold release.
  apply ab_schedule; [apply kind_abs_release|].
  destruct r; constructor; simpl; auto;
    intros [|]; simpl; try (apply (H4 DocCheck)); try (apply (H4 Registration)).
Qed.

Lemma ab_process_end b err s :
  match err with Some e => allowed e | None => True end ->
  ok b s -> ok b (process_end err s).
Proof.
  intros He H. apply ab_schedule; auto.
  intros ev E. unfold kind_abs. rewrite E. exact He.
Qed.

Lemma ab_append b w s : Wok w -> ok b s -> ok b (append_wait w s).
Proof.
  intros Hw [H1 H2 H3 H4 H5 H6]. constructor; simpl; auto.
  apply Forall_app; auto.
Qed.

Lemma ab_yield b m k s :
  rate_used m ->
  (forall s', yield_timeout m k s = Ok s' -> Kok k) ->
  ok b s ->
  match yield_timeout m k s with
  | Ok s' => ok b s'
  | Raise e s' => allowed e /\ ok b s'
  end.
Proof.
  intros Hm Hk H.
  pose proof (allowed_raise m k s) as Hraise.
  pose proof (yield_timeout_rng m k s) as Hrng.
  assert (Hr : R (rng (result_state (yield_timeout m k s)))).
  { destruct Hrng as [-> | ->]; [|apply R_next]; apply (ab_rng _ _ _ _ _ _ _ H). }
  clear Hrng. revert Hk Hraise Hr. unfold yield_timeout.
  destruct m as [x|q]; simpl.
  - intros _ Hraise _. split; [|exact H].
    eapply Hraise; eauto. apply (ab_rng _ _ _ _ _ _ _ H).
  - destruct (expovariate q (rng s)) as [[e|d] g]; simpl.
    + intros _ Hraise Hr. split.
      * eapply Hraise; eauto. apply (ab_rng _ _ _ _ _ _ _ H).
      * eapply ab_frame; [| | | | |exact H]; auto.
    + destruct (Qle_bool 0 d); simpl.
      * intros Hk _ Hr.
        apply (ab_schedule b NORMAL d (Timeout k) (set_rng g s)).
        -- intros ev E. apply (kind_abs_timeout k ev); [|exact E].
           eapply Hk; reflexivity.
        -- eapply ab_frame; [| | | | |exact H]; auto.
      * intros _ Hraise Hr. split.
        -- eapply Hraise; eauto. apply (ab_rng _ _ _ _ _ _ _ H).
        -- eapply ab_frame; [| | | | |exact H]; auto.
Qed.

Lemma ab_student b pid pc s :
  Kok (ResumeStudent pid pc) -> ok b s -> ok b (student pid pc s).
Proof.
  intros Hk H. destruct pc as [| | |sw|]; simpl.
  - apply ab_request; auto.
  - pose proof (ab_yield b (np_div 1 avg_doc_check) (ResumeStudent pid AtDocTimeout) s) as Hy.
    assert (Hy' := Hy ltac:(left; reflexivity)
                      ltac:(intros s' E; eapply K_doc_timeout; eauto;
                            apply (ab_rng _ _ _ _ _ _ _ H)) H).
    destruct (yield_timeout _ _ s); auto.
    destruct Hy' as [He Hs]. apply ab_process_end; auto. now apply ab_release.
  - apply ab_request.
    + apply K_reg_request; auto.
      apply (ab_now _ _ _ _ _ _ _ H).
    + now apply ab_release.
  - assert (H1 : ok b (append_wait (now (env s) - sw) s)).
    { apply ab_append; auto. eapply W_wait; eauto.
      apply (ab_now _ _ _ _ _ _ _ H). }
    pose proof (ab_yield b (np_div 1 avg_service) (ResumeStudent pid AtRegTimeout) _
                  ltac:(right; left; reflexivity)
                  ltac:(intros; eapply K_reg_timeout; eauto) H1) as Hy.
    destruct (yield_timeout _ _ (append_wait _ s)); auto.
    destruct Hy as [He Hs]. apply ab_process_end; auto. now apply ab_release.
  - apply ab_process_end; [exact I|]. now apply ab_release.
Qed.

Lemma ab_generator b pc s : ok b s -> ok b (generator pc s).
Proof.
  intros H. unfold generator.
  set (s1 := match pc with GenStart => s | GenTimeout => spawn_student s end).
  assert (H1 : ok b s1).
  { unfold s1. destruct pc; auto. unfold spawn_student.
    eapply ab_frame;
      [| | | | |apply (ab_schedule b URGENT 0
                        (Initialize (ResumeStudent (spawned s) AtStart)) s);
                [|exact H]]; try reflexivity.
    - apply (ab_rng _ _ _ _ _ _ _ H).
    - intros ev E. unfold kind_abs. rewrite E. apply K_start. }
  pose proof (ab_yield b (py_div 1 SIM_INTER_ARRIVAL) (ResumeGenerator GenTimeout) s1
                ltac:(right; right; reflexivity)
                ltac:(intros; apply K_gen) H1) as Hy.
  destruct (yield_timeout _ _ s1); auto.
  destruct Hy as [He Hs]. apply ab_process_end; auto.
Qed.

Lemma ab_resume b k s : Kok k -> ok b s -> ok b (resume k s).
Proof.
  destruct k; simpl; intros; [apply ab_student|apply ab_generator]; auto.
Qed.

Lemma ab_step s :
  time_ok s -> ok true s ->
  match step s with
  | Continue s' => ok true s'
  | Stop s' => ok false s' /\ now (env s') == SIM_TIME
  | Crash e s' => ok false s' /\ allowed e
  end.
Proof.
  intros Ht H. unfold step.
  destruct H as [H1 H2 H3 H4 H5 H6]. specialize (H2 eq_refl).
  destruct (queue (env s)) as [|ev rest] eqn:E; [inversion H2|].
  destruct Ht as [Hs Hf _ _]. rewrite E in Hs, Hf.
  inversion Hs as [|? ? Hs' Hle]; subst.
  inversion Hf as [|? ? [Hnow _] _]; subst.
  inversion H3 as [|? ? Hev Hrest]; subst.
  set (s1 := set_env (fun e => mkEnv (at_time ev) rest (next_eid e)) s).
  assert (Hmid : forall b,
            (b = true -> Exists (fun ev => kind ev = Until) rest) ->
            at_time ev <= SIM_TIME -> ok b s1).
  { intros b Hb Hle'. constructor; simpl; auto.
    split; auto. eapply Qle_trans; [apply H1|exact Hnow]. }
  assert (Hhead : kind ev <> Until ->
            Exists (fun ev => kind ev = Until) rest /\ at_time ev <= SIM_TIME).
  { intros Hne. inversion H2 as [? ? Hu|? ? Hu]; subst; [contradiction|].
    split; auto.
    apply Exists_exists in Hu. destruct Hu as (u & Hin & Hu).
    rewrite Forall_forall in Hle, Hrest.
    specialize (Hle u Hin). specialize (Hrest u Hin).
    unfold kind_abs in Hrest. rewrite Hu in Hrest. rewrite <- Hrest. exact Hle. }
  unfold kind_abs in Hev.
  destruct (kind ev) as [k|k|r k|r|[e|]|] eqn:Ek; simpl.
  - destruct Hhead as [Hu Hle']; [discriminate|]. apply ab_resume; auto.
  - destruct Hhead as [Hu Hle']; [discriminate|]. apply ab_resume; auto.
  - destruct Hhead as [Hu Hle']; [discriminate|]. apply ab_resume; auto.
  - destruct Hhead as [Hu Hle']; [discriminate|]. apply ab_trigger; auto.
  - destruct Hhead as [Hu Hle']; [discriminate|].
    split; [apply Hmid; [discriminate|exact Hle']|exact Hev].
  - destruct Hhead as [Hu Hle']; [discriminate|]. apply Hmid; auto.
  - split; [|exact Hev]. apply Hmid; [discriminate|]. rewrite Hev. apply Qle_refl.
Qed.

Lemma ab_weaken s : ok true s -> ok false s.
Proof.
  intros [H1 H2 H3 H4 H5 H6]. constructor; auto; discriminate.
Qed.

Lemma ab_run_loop fuel : forall s,
  time_ok s -> ok true s ->
  match run_loop fuel s with
  | Finished s' => ok false s' /\ now (env s') == SIM_TIME
  | Crashed e s' => ok false s' /\ allowed e
  | OutOfFuel s' => ok true s'
  end.
Proof.
  induction fuel as [|fuel IH]; intros s Ht H; simpl; auto.
  pose proof (ab_step s Ht H) as Hs.
  pose proof (time_ok_step avg_doc_check avg_service s Ht) as Ht'.
  destruct (step s) as [s'|s'|e s']; simpl in *; auto.
  apply IH; assumption.
Qed.

(** From a fresh environment, for the horizon of the script. *)
Lemma ab_env_run fuel counters g s0 :
  sim_init Environment_new counters g = inr s0 ->
  R g ->
  match env_run fuel SIM_TIME s0 with
  | Finished s' => ok false s' /\ now (env s') == SIM_TIME
  | Crashed e s' => ok false s' /\ allowed e
  | OutOfFuel s' => ok true s'
  end.
Proof.
  intros Hinit Hg.
  pose proof (time_ok_init counters g s0 Hinit) as Ht.
  revert Hinit. unfold sim_init, Resource_new. simpl.
  destruct (counters <=? 0)%Z; [discriminate|].
  intros E; inversion E; subst; clear E.
  unfold env_run. simpl now.
  change (Qle_bool SIM_TIME 0) with false. cbv iota.
  apply ab_run_loop.
  - apply time_ok_schedule; [discriminate|exact I|exact Ht].
  - constructor; simpl.
    + split; [apply Qle_refl|discriminate].
    + intros _. right. left. reflexivity.
    + constructor; [|constructor; [|constructor]].
      * unfold kind_abs; simpl. apply K_gen.
      * unfold kind_abs; simpl. reflexivity.
    + intros [|]; constructor.
    + constructor.
    + exact Hg.
Qed.

End Abstract.

(** ** The size of the pools *)

Lemma capacity_request r r' pid k s :
  capacity (resource r' (request r pid k s)) = capacity (resource r' s).
Proof.
  unfold request. rewrite capacity_trigger. destruct r, r'; reflexivity.
Qed.

Lemma capacity_release r r' pid s :
  capacity (resource r' (release r pid s)) = capacity (resource r' s).
Proof. destruct r, r'; reflexivity. Qed.

(** X11.  In every state a run goes through, and after any further
    sequence of requests and releases, the document-check pool still has
    five units and the registration pool the [counters] it was built with:
    never more than five students are being checked and never more than
    [counters] are being served. *)
Theorem pools_keep_their_size avg_doc_check avg_service fuel e counters g s0 :
  sim_init e counters g = inr s0 ->
  forall ops,
    let s := pool_ops ops
               (outcome_state (env_run avg_doc_check avg_service fuel SIM_TIME s0)) in
    capacity (doc_check s) = 5%Z /\
    capacity (registration s) = counters /\
    (length (users (doc_check s)) <= 5)%nat /\
    (Z.of_nat (length (users (registration s))) <= counters)%Z.
Proof.
  intros Hinit ops s.
  set (P := fun s => capacity (doc_check s) = 5%Z /\
                     capacity (registration s) = counters /\ pools_ok s).
  assert (H : P s).
  { assert (Hreq : forall r pid k s1, P s1 -> P (request r pid k s1)).
    { intros r pid k s1 (H1 & H2 & H3). split; [|split].
      - rewrite <- H1. apply (capacity_request r DocCheck).
      - rewrite <- H2. apply (capacity_request r Registration).
      - now apply pools_ok_request. }
    assert (Hrel : forall r pid s1, P s1 -> P (release r pid s1)).
    { intros r pid s1 (H1 & H2 & H3). split; [|split].
      - rewrite <- H1. apply (capacity_release r DocCheck).
      - rewrite <- H2. apply (capacity_release r Registration).
      - now apply pools_ok_release. }
    assert (Htrig : forall r s1, P s1 -> P (sim_trigger_put r s1)).
    { intros r s1 (H1 & H2 & H3). split; [|split].
      - rewrite <- H1. apply (capacity_trigger r DocCheck).
      - rewrite <- H2. apply (capacity_trigger r Registration).
      - now apply pools_ok_trigger. }
    apply pool_inv_ops; auto.
    apply pool_inv_run; auto.
    - intros s1 s2 E1 E2 _ (H1 & H2 & H3). split; [|split].
      + now rewrite E1.
      + now rewrite E2.
      + now apply (pools_ok_same s1 s2).
    - split; [|split].
      + revert Hinit. unfold sim_init, Resource_new. simpl.
        destruct (counters <=? 0)%Z; intros E; inversion E; reflexivity.
      + revert Hinit. unfold sim_init, Resource_new. simpl.
        destruct (counters <=? 0)%Z; intros E; inversion E; reflexivity.
      + exact (pools_ok_init _ _ _ _ Hinit). }
  destruct H as (H1 & H2 & H3). repeat split; auto.
  - destruct (H3 DocCheck) as [_ [_ Hu]]. simpl in Hu. rewrite H1 in Hu. lia.
  - destruct (H3 Registration) as [_ [_ Hu]]. simpl in Hu. rewrite H2 in Hu. lia.
Qed.

(** ** The horizon, and what a call can raise *)

(** With a positive or infinite rate and a non-negative variate the delay
    is scheduled. *)
Lemma yield_timeout_ok m k s :
  rate_positive m -> 0 <= variates (rng s) (consumed (rng s)) ->
  exists s', yield_timeout m k s = Ok s'.
Proof.
  intros Hm Hv. unfold yield_timeout, expovariate, random_next.
  destruct m as [x|[l|]]; simpl in Hm; [contradiction| |].
  - assert (Hl0 : Qeq_bool l 0 = false).
    { destruct (Qeq_bool l 0) eqn:E; auto. apply Qeq_bool_iff in E.
      rewrite E in Hm. exfalso. revert Hm. apply Qlt_irrefl. }
    rewrite Hl0.
    assert (Hd : Qle_bool 0 (variates (rng s) (consumed (rng s)) / l) = true).
    { apply Qle_bool_iff. unfold Qdiv.
      apply Qmult_le_0_compat; auto.
      apply Qlt_le_weak. now apply Qinv_lt_0_compat. }
    rewrite Hd. eauto.
  - simpl. eauto.
Qed.

(** The reciprocal of a mean that is not negative. *)
Lemma np_div_positive m : 0 <= m -> rate_positive (np_div 1 m).
Proof.
  intros Hm. unfold np_div.
  destruct (Qeq_bool m 0) eqn:E; simpl; auto.
  unfold Qdiv. rewrite Qmult_1_l. apply Qinv_lt_0_compat.
  apply Qle_lteq in Hm. destruct Hm as [Hm|Hm]; auto.
  symmetry in Hm. apply Qeq_bool_iff in Hm. congruence.
Qed.

Section Horizon.

Variables avg_doc_check avg_service : Q.

Local Abbreviation env_run := (env_run avg_doc_check avg_service).
Local Abbreviation registration_simulation :=
  (registration_simulation avg_doc_check avg_service).

(** Whatever the means and the variates. *)
Lemma horizon_run fuel counters g s0 :
  sim_init Environment_new counters g = inr s0 ->
  match env_run fuel SIM_TIME s0 with
  | Finished s' =>
      abs_ok false SIM_TIME delay_error (fun _ => True) start_ok
             (fun w => w <= SIM_TIME) s' /\ now (env s') == SIM_TIME
  | Crashed e s' =>
      abs_ok false SIM_TIME delay_error (fun _ => True) start_ok
             (fun w => w <= SIM_TIME) s' /\ delay_error e
  | OutOfFuel s' =>
      abs_ok true SIM_TIME delay_error (fun _ => True) start_ok
             (fun w => w <= SIM_TIME) s'
  end.
Proof.
  intros Hinit.
  apply (ab_env_run avg_doc_check avg_service delay_error (fun _ => True)
           start_ok (fun w => w <= SIM_TIME)) with (counters := counters) (g := g);
    simpl; auto.
  - intros m k s e s' Hm _. exact (yield_timeout_raises _ _ m k s e s' Hm).
  - intros pid t _ [Ht _]. exact Ht.
  - intros pid sw t Hsw [_ Ht].
    apply Qle_trans with (t - 0).
    + unfold Qminus. apply Qplus_le_r. apply Qopp_le_compat. exact Hsw.
    + unfold Qminus. rewrite Qplus_0_r. exact Ht.
Qed.

(** X1.  In every state a run goes through the clock is between 0 and the
    horizon of 600 minutes, and when [env.run] finishes the clock is the
    horizon. *)
Theorem clock_within_horizon fuel counters g s0 :
  sim_init Environment_new counters g = inr s0 ->
  0 <= now (env (outcome_state (env_run fuel SIM_TIME s0))) <= SIM_TIME /\
  forall s, env_run fuel SIM_TIME s0 = Finished s -> now (env s) == SIM_TIME.
Proof.
  intros Hinit. pose proof (horizon_run fuel counters g s0 Hinit) as H.
  destruct (env_run fuel SIM_TIME s0) as [s'|e s'|s']; simpl.
  - destruct H as [H E]. split; [apply (ab_now _ _ _ _ _ _ _ H)|].
    intros s Es; inversion Es; subst; exact E.
  - destruct H as [H _]. split; [apply (ab_now _ _ _ _ _ _ _ H)|discriminate].
  - split; [apply (ab_now _ _ _ _ _ _ _ H)|discriminate].
Qed.

(** X2.  In every state a run goes through, no recorded wait is longer than
    the horizon, and no student waiting for or granted a registration
    counter has a negative [start_wait]. *)
Theorem recorded_waits_within_horizon fuel counters g s0 :
  sim_init Environment_new counters g = inr s0 ->
  let s := outcome_state (env_run fuel SIM_TIME s0) in
  Forall (fun w => w <= SIM_TIME) (wait_times s) /\
  Forall (fun p => start_ok (snd p)) (put_queue (registration s)).
Proof.
  intros Hinit s. subst s. pose proof (horizon_run fuel counters g s0 Hinit) as H.
  assert (H' : abs_ok false SIM_TIME delay_error (fun _ => True) start_ok
                 (fun w => w <= SIM_TIME)
                 (outcome_state (env_run fuel SIM_TIME s0))).
  { destruct (env_run fuel SIM_TIME s0) as [s'|e s'|s']; simpl;
      [apply H|apply H|apply ab_weaken, H]. }
  split; [apply (ab_waits _ _ _ _ _ _ _ H')
         |apply (ab_waiters _ _ _ _ _ _ _ H' Registration)].
Qed.

(** X3.  Whatever the capacity, the means and the variates, a call made
    with a fresh environment raises nothing but [ValueError],
    [ZeroDivisionError] and [StatisticsError]: the event queue never runs
    dry before the stop event. *)
Theorem call_raises_only fuel counters results g :
  match registration_simulation fuel Environment_new counters results g with
  | Raised x _ _ _ => x = ValueError \/ x = ZeroDivisionError \/ x = StatisticsError
  | _ => True
  end.
Proof.
  unfold registration_simulation.
  destruct (sim_init Environment_new counters g) as [x|s0] eqn:Hinit.
  - left. revert Hinit. unfold sim_init, Resource_new. simpl.
    destruct (counters <=? 0)%Z; intros E; inversion E; reflexivity.
  - pose proof (horizon_run fuel counters g s0 Hinit) as H.
    destruct (env_run fuel SIM_TIME s0) as [s'|e s'|s']; auto.
    + destruct (mean (wait_times s')) eqn:Em; auto.
      destruct (wait_times s'); simpl in Em; inversion Em; auto.
    + destruct H as [_ [->| ->]]; auto.
Qed.

(** Non-negative means, a positive capacity and non-negative variates:
    no process raises. *)
Lemma sound_run fuel counters g s0 :
  0 <= avg_doc_check -> 0 <= avg_service ->
  (forall n, 0 <= variates g n) ->
  sim_init Environment_new counters g = inr s0 ->
  match env_run fuel SIM_TIME s0 with
  | Finished s' =>
      abs_ok false SIM_TIME (fun _ => False) nonneg_variates
             (fun _ => True) (fun _ => True) s' /\
      now (env s') == SIM_TIME
  | Crashed e s' =>
      abs_ok false SIM_TIME (fun _ => False) nonneg_variates
             (fun _ => True) (fun _ => True) s' /\ False
  | OutOfFuel s' =>
      abs_ok true SIM_TIME (fun _ => False) nonneg_variates
             (fun _ => True) (fun _ => True) s'
  end.
Proof.
  intros Hd Hs Hg Hinit.
  apply (ab_env_run avg_doc_check avg_service (fun _ => False)
           nonneg_variates (fun _ => True) (fun _ => True))
    with (counters := counters) (g := g); simpl; auto.
  intros m k s e s' Hm Hr E.
  assert (Hpos : rate_positive m).
  { destruct Hm as [-> |[-> | ->]]; try now apply np_div_positive.
    reflexivity. }
  destruct (yield_timeout_ok m k s Hpos (Hr _)) as [s'' E'].
  congruence.
Qed.

(** X4.  With positive means, a positive capacity and non-negative
    variates, no process ever raises: the only exception of a call made
    with a fresh environment is the [StatisticsError] of a run that recorded
    no wait. *)
Theorem sound_parameters_never_crash fuel counters results g :
  0 < avg_doc_check -> 0 < avg_service -> (0 < counters)%Z ->
  (forall n, 0 <= variates g n) ->
  match registration_simulation fuel Environment_new counters results g with
  | Raised x _ _ _ => x = StatisticsError
  | _ => True
  end.
Proof.
  intros Hd Hs Hc Hg. unfold registration_simulation.
  destruct (sim_init Environment_new counters g) as [x|s0] eqn:Hinit.
  - revert Hinit. unfold sim_init, Resource_new. simpl.
    destruct (Z.leb_spec counters 0); [lia|discriminate].
  - pose proof (sound_run fuel counters g s0 (Qlt_le_weak _ _ Hd)
                  (Qlt_le_weak _ _ Hs) Hg Hinit) as H.
    destruct (env_run fuel SIM_TIME s0) as [s'|e s'|s']; auto; [|tauto].
    destruct (mean (wait_times s')) eqn:Em; auto.
    destruct (wait_times s'); simpl in Em; inversion Em; auto.
Qed.

(** X5.  A zero mean is no error: the division by the [numpy.float64]
    zero gives an infinite rate, and a delay drawn with it is zero.  With
    means that are zero or positive, a positive capacity and non-negative
    variates, the run never crashes, and the call raises nothing but the
    [StatisticsError] of a run that recorded no wait. *)
Theorem zero_mean_is_no_error fuel counters results g :
  0 <= avg_doc_check -> 0 <= avg_service -> (0 < counters)%Z ->
  (forall n, 0 <= variates g n) ->
  (forall s0 x s, sim_init Environment_new counters g = inr s0 ->
                  env_run fuel SIM_TIME s0 <> Crashed x s) /\
  match registration_simulation fuel Environment_new counters results g with
  | Raised x _ _ _ => x = StatisticsError
  | _ => True
  end.
Proof.
  intros Hd Hs Hc Hg. split.
  - intros s0 x s Hinit E.
    pose proof (sound_run fuel counters g s0 Hd Hs Hg Hinit) as H.
    rewrite E in H. tauto.
  - unfold registration_simulation.
    destruct (sim_init Environment_new counters g) as [x|s0] eqn:Hinit.
    + revert Hinit. unfold sim_init, Resource_new. simpl.
      destruct (Z.leb_spec counters 0); [lia|discriminate].
    + pose proof (sound_run fuel counters g s0 Hd Hs Hg Hinit) as H.
      destruct (env_run fuel SIM_TIME s0) as [s'|e s'|s']; auto; [|tauto].
      destruct (mean (wait_times s')) eqn:Em; auto.
      destruct (wait_times s'); simpl in Em; inversion Em; auto.
Qed.

End Horizon.

(** ** The sweep *)

Lemma Qsum_between a b l :
  Forall (fun w => a <= w <= b) l ->
  a * inject_Z (Z.of_nat (length l)) <= Qsum l /\
  Qsum l <= b * inject_Z (Z.of_nat (length l)).
Proof.
  induction 1 as [|w l [Ha Hb] Hl [IHa IHb]].
  - simpl. rewrite !Qmult_0_r. split; apply Qle_refl.
  - assert (E : inject_Z (Z.of_nat (length (w :: l)))
                == 1 + inject_Z (Z.of_nat (length l))).
    { simpl length. rewrite Nat2Z.inj_succ, <- Z.add_1_l, inject_Z_plus.
      reflexivity. }
    rewrite E. simpl Qsum. rewrite !Qmult_plus_distr_r, !Qmult_1_r.
    split; apply Qplus_le_compat; auto.
Qed.

(** The mean of a list lies between any two bounds of its elements. *)
Lemma mean_between a b l m :
  Forall (fun w => a <= w <= b) l -> mean l = inr m -> a <= m <= b.
Proof.
  intros Hl Em. destruct l as [|w l]; [discriminate|].
  simpl in Em. inversion Em; subst; clear Em.
  destruct (Qsum_between a b (w :: l) Hl) as [Ha Hb].
  set (n := inject_Z (Z.of_nat (length (w :: l)))) in *.
  assert (Hn : 0 < n).
  { unfold n. change 0 with (inject_Z 0). rewrite <- Zlt_Qlt.
    simpl length. lia. }
  split.
  - apply Qle_shift_div_l; assumption.
  - apply Qle_shift_div_r; assumption.
Qed.

Section Sweep.

Variables avg_doc_check avg_service : Q.

Local Abbreviation env_run := (env_run avg_doc_check avg_service).
Local Abbreviation registration_simulation :=
  (registration_simulation avg_doc_check avg_service).
Local Abbreviation sweep := (sweep avg_doc_check avg_service).

(** A call that returns appends one entry: its capacity and a mean wait
    between 0 and the horizon. *)
Lemma call_returns_bounded fuel counters results g e r g' :
  registration_simulation fuel Environment_new counters results g
    = Returned e r g' ->
  exists m, r = results ++ [(counters, m)] /\ 0 <= m <= SIM_TIME.
Proof.
  unfold registration_simulation.
  destruct (sim_init Environment_new counters g) as [x|s0] eqn:Hinit;
    [discriminate|].
  pose proof (time_ok_run avg_doc_check avg_service fuel counters g s0 Hinit) as Ht.
  pose proof (horizon_run avg_doc_check avg_service fuel counters g s0 Hinit) as Hh.
  destruct (env_run fuel SIM_TIME s0) as [s'|x s'|s']; try discriminate.
  simpl in Ht. destruct Hh as [Hh _].
  destruct (mean (wait_times s')) as [x|m] eqn:Em; [discriminate|].
  intros E; inversion E; subst; clear E.
  exists m. split; [reflexivity|].
  apply (mean_between 0 SIM_TIME (wait_times s')); auto.
  pose proof (waits_nonneg _ Ht) as H0.
  pose proof (ab_waits _ _ _ _ _ _ _ Hh) as H1.
  rewrite Forall_forall in *. intros w Hw. split; auto.
Qed.

(** A call that raises leaves [results] as it found it. *)
Lemma call_raises_keeps_results fuel e0 counters results g x e r g' :
  registration_simulation fuel e0 counters results g = Raised x e r g' ->
  r = results.
Proof.
  unfold registration_simulation.
  destruct (sim_init e0 counters g); [intros E; inversion E; auto|].
  destruct (env_run fuel SIM_TIME s) as [s'|y s'|s'];
    try (intros E; inversion E; auto; fail).
  destruct (mean (wait_times s')); intros E; inversion E; auto.
Qed.

Lemma sweep_entries fuel cs : forall results g e r g',
  sweep fuel cs results g = Returned e r g' ->
  exists entries,
    r = results ++ entries /\
    map fst entries = cs /\
    Forall (fun p => 0 <= snd p <= SIM_TIME) entries.
Proof.
  induction cs as [|c cs IH]; intros results g e r g'; simpl.
  - intros E; inversion E; subst. exists []. rewrite app_nil_r. auto.
  - destruct (registration_simulation fuel Environment_new c results g)
      as [e1 r1 g1|x e1 r1 g1|] eqn:Ec; try discriminate.
    intros Es.
    destruct (call_returns_bounded _ _ _ _ _ _ _ Ec) as (m & -> & Hm).
    destruct (IH _ _ _ _ _ Es) as (entries & -> & Hfst & Hall).
    exists ((c, m) :: entries). rewrite <- app_assoc. simpl.
    split; [reflexivity|]. split; [now rewrite Hfst|]. constructor; auto.
Qed.

(** X6.  When the sweep returns, [results] has grown by one entry for each
    capacity, in the order of the capacities, and each mean wait is between
    0 and the horizon; what was in [results] before is still there. *)
Theorem sweep_returns_one_entry_each fuel cs results g e r g' :
  sweep fuel cs results g = Returned e r g' ->
  exists entries,
    r = results ++ entries /\
    map fst entries = cs /\
    Forall (fun p => 0 <= snd p <= SIM_TIME) entries.
Proof.
  revert results g. induction cs as [|c cs IH]; intros results g; simpl.
  - intros E; inversion E; subst. exists []. rewrite app_nil_r. auto.
  - destruct (registration_simulation fuel Environment_new c results g)
      as [e1 r1 g1|x e1 r1 g1|] eqn:Ec; try discriminate.
    intros Es.
    destruct (call_returns_bounded _ _ _ _ _ _ _ Ec) as (m & -> & Hm).
    destruct (IH _ _ Es) as (entries & -> & Hfst & Hall).
    exists ((c, m) :: entries). rewrite <- app_assoc. simpl.
    split; [reflexivity|]. split; [now rewrite Hfst|]. constructor; auto.
Qed.

(** X8.  When the sweep of the script returns, whatever the generator was
    seeded to, the data of Figure 4 are the three capacities 3, 10 and 12
    and three mean waits between 0 and the horizon. *)
Theorem figure4_data fuel seeded e r g' :
  simulation_results avg_doc_check avg_service fuel seeded = Returned e r g' ->
  plot_counters r = [3; 10; 12]%Z /\
  length (plot_waits r) = 3%nat /\
  Forall (fun w => 0 <= w <= SIM_TIME) (plot_waits r).
Proof.
  unfold simulation_results. intros Hs.
  destruct (sweep_entries _ _ _ _ _ _ _ Hs) as (entries & -> & Hfst & Hall).
  simpl. unfold plot_counters, plot_waits. split; [exact Hfst|].
  split.
  - rewrite length_map, <- (length_map fst), Hfst. reflexivity.
  - apply Forall_map. exact Hall.
Qed.

(** X7.  When the sweep raises, it does so at the first capacity whose call
    raises: [results] then holds one more entry for each capacity before
    that one, and the capacities after it are not simulated. *)
Theorem sweep_raises_at_first_failure fuel cs : forall results g x e r g',
  sweep fuel cs results g = Raised x e r g' ->
  exists entries c rest g1,
    cs = map fst entries ++ c :: rest /\
    r = results ++ entries /\
    sweep fuel (map fst entries) results g = Returned Environment_new r g1 /\
    registration_simulation fuel Environment_new c r g1 = Raised x e r g'.
Proof.
  induction cs as [|c cs IH]; intros results g x e r g'; simpl;
    [discriminate|].
  destruct (registration_simulation fuel Environment_new c results g)
    as [e1 r1 g1|y e1 r1 g1|] eqn:Ec; try discriminate.
  - intros Es.
    destruct (call_returns_bounded _ _ _ _ _ _ _ Ec) as (m & -> & Hm).
    destruct (IH _ _ _ _ _ _ Es) as (entries & c' & rest & g2 & -> & -> & Hs & Hc).
    exists ((c, m) :: entries), c', rest, g2. simpl.
    rewrite <- app_assoc in Hs, Hc. simpl in Hs, Hc.
    rewrite <- app_assoc. simpl. repeat split; auto.
    rewrite Ec. exact Hs.
  - intros E; inversion E; subst; clear E.
    pose proof (call_raises_keeps_results _ _ _ _ _ _ _ _ _ Ec) as ->.
    exists [], c, cs, g. simpl. rewrite app_nil_r. auto.
Qed.

End Sweep.

(** ** The variates a run reads *)

Lemma rng_trigger r s : rng (sim_trigger_put r s) = rng s.
Proof.
  unfold sim_trigger_put.
  destruct (trigger_put _ _) as [x [[pid k]|]]; auto. destruct r; reflexivity.
Qed.

Lemma rng_request r pid k s : rng (request r pid k s) = rng s.
Proof. unfold request. rewrite rng_trigger. destruct r; reflexivity. Qed.

Lemma rng_release r pid s : rng (release r pid s) = rng s.
Proof. destruct r; reflexivity. Qed.

Lemma sim_agree_map lo hi (f : Sim -> Sim) s1 s2 :
  (forall g s, f (set_rng g s) = set_rng g (f s)) ->
  sim_agree lo hi s1 s2 -> sim_agree lo hi (f s1) (f s2).
Proof.
  intros Hf (s & g1 & g2 & -> & -> & Hg & Hlo).
  exists (f s), g1, g2. rewrite !Hf. auto.
Qed.

Lemma sim_agree_fields lo hi s1 s2 :
  sim_agree lo hi s1 s2 ->
  env s1 = env s2 /\ wait_times s1 = wait_times s2 /\
  consumed (rng s1) = consumed (rng s2).
Proof.
  intros (s & g1 & g2 & -> & -> & [Hc _] & _). simpl. auto.
Qed.

Lemma yield_timeout_agree lo hi m k s1 s2 :
  sim_agree lo hi s1 s2 ->
  (consumed (rng (result_state (yield_timeout m k s1))) <= hi)%nat ->
  result_agree lo hi (yield_timeout m k s1) (yield_timeout m k s2).
Proof.
  intros (s & g1 & g2 & -> & -> & [Hc Hv] & Hlo). unfold yield_timeout.
  destruct m as [x|[lambd|]]; simpl.
  - intros _. split; auto. exists s, g1, g2. repeat split; auto.
  - unfold expovariate, random_next. rewrite <- Hc.
    destruct (Qeq_bool lambd 0); simpl.
    + intros Hhi. split; auto.
      exists s, (mkRandom (variates g1) (S (consumed g1))),
             (mkRandom (variates g2) (S (consumed g1))).
      repeat split; simpl; auto.
    + assert (Hsame : (S (consumed g1) <= hi)%nat ->
                      variates g1 (consumed g1) = variates g2 (consumed g1))
        by (intros; apply Hv; lia).
      destruct (Qle_bool 0 (variates g1 (consumed g1) / lambd)) eqn:E1; simpl;
        intros Hhi; rewrite <- (Hsame Hhi), E1; simpl.
      * exists (set_env (schedule NORMAL (variates g1 (consumed g1) / lambd)
                           (Timeout k)) s),
               (mkRandom (variates g1) (S (consumed g1))),
               (mkRandom (variates g2) (S (consumed g1))).
        repeat split; simpl; auto.
      * split; auto.
        exists s, (mkRandom (variates g1) (S (consumed g1))),
               (mkRandom (variates g2) (S (consumed g1))).
        repeat split; simpl; auto.
  - unfold expovariate, random_next. rewrite <- Hc. simpl. intros Hhi.
    exists (set_env (schedule NORMAL 0 (Timeout k)) s),
           (mkRandom (variates g1) (S (consumed g1))),
           (mkRandom (variates g2) (S (consumed g1))).
    repeat split; simpl; auto.
Qed.

Section Locality.

Variables avg_doc_check avg_service : Q.

Local Abbreviation student := (student avg_doc_check avg_service).
Local Abbreviation resume := (resume avg_doc_check avg_service).
Local Abbreviation step := (step avg_doc_check avg_service).
Local Abbreviation run_loop := (run_loop avg_doc_check avg_service).
Local Abbreviation env_run := (env_run avg_doc_check avg_service).
Local Abbreviation registration_simulation :=
  (registration_simulation avg_doc_check avg_service).
Local Abbreviation sweep := (sweep avg_doc_check avg_service).

(** Processing one event draws at most one variate. *)
Lemma rng_student pid pc s :
  rng (student pid pc s) = rng s \/
  rng (student pid pc s) = snd (random_next (rng s)).
Proof.
  destruct pc as [| | |sw|]; simpl;
    rewrite ?rng_request, ?rng_release; auto;
    match goal with |- context [yield_timeout ?m ?k ?x] =>
      pose proof (yield_timeout_rng m k x) as H;
      destruct (yield_timeout m k x); simpl in *; exact H
    end.
Qed.

Lemma rng_generator pc s :
  rng (generator pc s) = rng s \/
  rng (generator pc s) = snd (random_next (rng s)).
Proof.
  unfold generator.
  match goal with |- context [yield_timeout ?m ?k ?x] =>
    pose proof (yield_timeout_rng m k x) as H;
    destruct (yield_timeout m k x); simpl in *; destruct pc; exact H
  end.
Qed.

Lemma rng_step s :
  rng (step_state (step s)) = rng s \/
  rng (step_state (step s)) = snd (random_next (rng s)).
Proof.
  unfold step. destruct (queue (env s)) as [|ev rest]; [simpl; auto|].
  destruct (kind ev) as [k|k|r k|r|[e|]|]; unfold step_state; auto;
    try (destruct k as [pid pc|pc]; unfold resume;
         [exact (rng_student pid pc _)|exact (rng_generator pc _)]).
  rewrite rng_trigger. auto.
Qed.

Lemma consumed_run_loop fuel : forall s,
  (consumed (rng s) <= consumed (rng (outcome_state (run_loop fuel s))))%nat.
Proof.
  induction fuel as [|fuel IH]; intros s; simpl; auto.
  pose proof (rng_step s) as H.
  assert (Hs : (consumed (rng s) <= consumed (rng (step_state (step s))))%nat)
    by (destruct H as [-> | ->]; simpl; lia).
  destruct (step s) as [s'|s'|e s']; simpl in *; auto.
  specialize (IH s'). lia.
Qed.

Lemma student_agree lo hi pid pc s1 s2 :
  sim_agree lo hi s1 s2 ->
  (consumed (rng (student pid pc s1)) <= hi)%nat ->
  sim_agree lo hi (student pid pc s1) (student pid pc s2).
Proof.
  intros H. destruct pc as [| | |sw|]; simpl.
  - intros _. revert H. apply sim_agree_map. intros; apply request_set_rng.
  - intros Hhi.
    pose proof (yield_timeout_agree lo hi (np_div 1 avg_doc_check)
                  (ResumeStudent pid AtDocTimeout) s1 s2 H) as Hy.
    destruct (yield_timeout _ _ s1), (yield_timeout _ _ s2); simpl in *;
      specialize (Hy Hhi); try contradiction; auto.
    destruct Hy as [-> Hy]. revert Hy.
    apply (sim_agree_map lo hi
             (fun s => process_end (Some e0) (release DocCheck pid s))).
    reflexivity.
  - intros _. revert H.
    apply (sim_agree_map lo hi (fun s => request Registration pid
             (ResumeStudent pid (AtRegRequest (now (env (release DocCheck pid s)))))
             (release DocCheck pid s))).
    intros g s. rewrite release_set_rng, request_set_rng. reflexivity.
  - intros Hhi.
    destruct (sim_agree_fields _ _ _ _ H) as (En & _ & _). rewrite <- En.
    assert (H' : sim_agree lo hi (append_wait (now (env s1) - sw) s1)
                           (append_wait (now (env s1) - sw) s2))
      by (revert H; apply sim_agree_map; reflexivity).
    pose proof (yield_timeout_agree lo hi (np_div 1 avg_service)
                  (ResumeStudent pid AtRegTimeout) _ _ H') as Hy.
    destruct (yield_timeout _ _ (append_wait _ s1)),
             (yield_timeout _ _ (append_wait _ s2)); simpl in *;
      specialize (Hy Hhi); try contradiction; auto.
    destruct Hy as [-> Hy]. revert Hy.
    apply (sim_agree_map lo hi
             (fun s => process_end (Some e0) (release Registration pid s))).
    reflexivity.
  - intros _. revert H.
    apply (sim_agree_map lo hi
             (fun s => process_end None (release Registration pid s))).
    reflexivity.
Qed.

Lemma generator_agree lo hi pc s1 s2 :
  sim_agree lo hi s1 s2 ->
  (consumed (rng (generator pc s1)) <= hi)%nat ->
  sim_agree lo hi (generator pc s1) (generator pc s2).
Proof.
  intros H. unfold generator.
  set (f := fun s => match pc with GenStart => s | GenTimeout => spawn_student s end).
  assert (H' : sim_agree lo hi (f s1) (f s2))
    by (revert H; apply sim_agree_map; destruct pc; reflexivity).
  pose proof (yield_timeout_agree lo hi (py_div 1 SIM_INTER_ARRIVAL)
                (ResumeGenerator GenTimeout) _ _ H') as Hy.
  change (match pc with GenStart => s1 | GenTimeout => spawn_student s1 end) with (f s1).
  change (match pc with GenStart => s2 | GenTimeout => spawn_student s2 end) with (f s2).
  intros Hhi.
  destruct (yield_timeout _ _ (f s1)), (yield_timeout _ _ (f s2)); simpl in *;
    specialize (Hy Hhi); try contradiction; auto.
  destruct Hy as [-> Hy]. revert Hy. apply sim_agree_map. reflexivity.
Qed.

Lemma step_agree_step lo hi s1 s2 :
  sim_agree lo hi s1 s2 ->
  (consumed (rng (step_state (step s1))) <= hi)%nat ->
  step_agree lo hi (step s1) (step s2).
Proof.
  intros H. destruct (sim_agree_fields _ _ _ _ H) as (En & _ & _).
  unfold step. rewrite <- En.
  destruct (queue (env s1)) as [|ev rest]; simpl; auto.
  assert (H1 : sim_agree lo hi
            (set_env (fun e => mkEnv (at_time ev) rest (next_eid e)) s1)
            (set_env (fun e => mkEnv (at_time ev) rest (next_eid e)) s2))
    by (revert H; apply sim_agree_map; reflexivity).
  destruct (kind ev) as [k|k|r k|r|[e|]|]; simpl; auto;
    try (destruct k; simpl; intros Hhi;
         [apply student_agree|apply generator_agree]; auto).
  intros _. revert H1. apply sim_agree_map. intros; apply trigger_set_rng.
Qed.

Lemma run_loop_agree lo hi fuel : forall s1 s2,
  sim_agree lo hi s1 s2 ->
  (consumed (rng (outcome_state (run_loop fuel s1))) <= hi)%nat ->
  outcome_agree lo hi (run_loop fuel s1) (run_loop fuel s2).
Proof.
  induction fuel as [|fuel IH]; intros s1 s2 H Hhi; simpl in *; auto.
  pose proof (step_agree_step lo hi s1 s2 H) as Hs.
  pose proof (consumed_run_loop fuel (step_state (step s1))) as Hm.
  destruct (step s1) as [a|a|x a], (step s2) as [b|b|y b]; simpl in *;
    try (specialize (Hs Hhi); try contradiction; auto; fail).
  all: assert (Ha : (consumed (rng a) <= hi)%nat) by lia.
  all: specialize (Hs Ha); try contradiction; auto.
Qed.

Lemma consumed_env_run fuel t s :
  (consumed (rng s) <= consumed (rng (outcome_state (env_run fuel t s))))%nat.
Proof.
  unfold env_run. destruct (Qle_bool t (now (env s))); simpl; auto.
  apply (consumed_run_loop fuel (set_env _ s)).
Qed.

Lemma env_run_agree lo hi fuel t s1 s2 :
  sim_agree lo hi s1 s2 ->
  (consumed (rng (outcome_state (env_run fuel t s1))) <= hi)%nat ->
  outcome_agree lo hi (env_run fuel t s1) (env_run fuel t s2).
Proof.
  intros H. destruct (sim_agree_fields _ _ _ _ H) as (En & _ & _).
  unfold env_run. rewrite <- En.
  destruct (Qle_bool t (now (env s1))); simpl; auto.
  apply run_loop_agree. revert H. apply sim_agree_map. reflexivity.
Qed.

Lemma sim_init_agree lo hi e counters g1 g2 :
  Random_agree lo hi g1 g2 -> (lo <= consumed g1)%nat ->
  match sim_init e counters g1, sim_init e counters g2 with
  | inl x, inl y => x = y
  | inr a, inr b => sim_agree lo hi a b /\ rng a = g1
  | _, _ => False
  end.
Proof.
  intros Hg Hlo. unfold sim_init, Resource_new. simpl.
  destruct (counters <=? 0)%Z; simpl; auto.
  split; [|reflexivity].
  exists (set_env (schedule URGENT 0 (Initialize (ResumeGenerator GenStart)))
            (mkSim e (mkResource 5 [] []) (mkResource counters [] []) [] 0 g1 [])),
         g1, g2.
  split; [reflexivity|]. split; [reflexivity|]. auto.
Qed.

(** A call reads the variates between the place of the generator when it
    starts and its place when it ends, and nothing else of the generator. *)
Lemma call_agree lo hi fuel e counters results g1 g2 :
  Random_agree lo hi g1 g2 -> (lo <= consumed g1)%nat ->
  match registration_simulation fuel e counters results g1 with
  | Returned e' r g1' =>
      (consumed g1' <= hi)%nat ->
      exists g2', registration_simulation fuel e counters results g2
                  = Returned e' r g2' /\
                  Random_agree lo hi g1' g2' /\ (consumed g1 <= consumed g1')%nat
  | Raised x e' r g1' =>
      (consumed g1' <= hi)%nat ->
      exists g2', registration_simulation fuel e counters results g2
                  = Raised x e' r g2' /\
                  Random_agree lo hi g1' g2' /\ (consumed g1 <= consumed g1')%nat
  | Diverged => True
  end.
Proof.
  intros Hg Hlo. unfold registration_simulation.
  pose proof (sim_init_agree lo hi e counters g1 g2 Hg Hlo) as Hi.
  destruct (sim_init e counters g1) as [x|a], (sim_init e counters g2) as [y|b];
    try contradiction.
  - subst y. intros _. eauto.
  - destruct Hi as [Hi Ea].
    pose proof (env_run_agree lo hi fuel SIM_TIME a b Hi) as Ho.
    pose proof (consumed_env_run fuel SIM_TIME a) as Hm. rewrite Ea in Hm.
    destruct (env_run fuel SIM_TIME a) as [a'|x a'|a'] eqn:E1; simpl in *; auto.
    + destruct (mean (wait_times a')) eqn:Em; intros Hhi; specialize (Ho Hhi);
        destruct (env_run fuel SIM_TIME b) as [b'|y b'|b']; try contradiction;
        destruct Ho as (s & h1 & h2 & -> & -> & Hh & Hl); simpl in *;
        rewrite Em; eauto.
    + intros Hhi. specialize (Ho Hhi).
      destruct (env_run fuel SIM_TIME b) as [b'|y b'|b']; try contradiction.
      destruct Ho as [<- (s & h1 & h2 & -> & -> & Hh & Hl)]; simpl in *.
      eauto.
Qed.

(** X9.  A call depends on the generator only through its place and the
    variates it reads: if it returns after moving the generator from place
    [consumed g1] to place [consumed g1'], a call from any generator at the
    same place whose variates agree between these two places returns the
    same environment and the same [results]. *)
Theorem call_reads_only_its_variates fuel e counters results g1 g2 e' r g1' :
  registration_simulation fuel e counters results g1 = Returned e' r g1' ->
  consumed g2 = consumed g1 ->
  (forall n, (consumed g1 <= n < consumed g1')%nat ->
             variates g2 n = variates g1 n) ->
  (consumed g1 <= consumed g1')%nat /\
  exists g2',
    registration_simulation fuel e counters results g2 = Returned e' r g2' /\
    consumed g2' = consumed g1'.
Proof.
  intros Hret Hc Hv.
  pose proof (call_agree (consumed g1) (consumed g1') fuel e counters results
                g1 g2) as H.
  rewrite Hret in H.
  destruct H as (g2' & E & [Hc' _] & Hm); auto.
  - split; auto. intros n Hn. symmetry. auto.
  - split; auto. exists g2'. split; auto.
Qed.

(** X10.  The same for the whole sweep: the results of a sweep that
    returns depend only on the variates between the place of the generator
    before the first call and its place after the last. *)
Theorem sweep_reads_only_its_variates fuel cs :
  forall results g1 g2 e' r g1',
  sweep fuel cs results g1 = Returned e' r g1' ->
  consumed g2 = consumed g1 ->
  (forall n, (consumed g1 <= n < consumed g1')%nat ->
             variates g2 n = variates g1 n) ->
  (consumed g1 <= consumed g1')%nat /\
  exists g2',
    sweep fuel cs results g2 = Returned e' r g2' /\
    consumed g2' = consumed g1'.
Proof.
  induction cs as [|c cs IH]; intros results g1 g2 e' r g1'; simpl.
  - intros E Hc Hv. inversion E; subst. split; auto. eauto.
  - destruct (registration_simulation fuel Environment_new c results g1)
      as [e1 r1 h1|x e1 r1 h1|] eqn:Ec; try discriminate.
    intros Es Hc Hv.
    assert (Hm2 : (consumed h1 <= consumed g1')%nat).
    { destruct (IH r1 h1 h1 e' r g1' Es eq_refl) as [Hm _]; auto. }
    pose proof (call_agree (consumed g1) (consumed g1') fuel Environment_new c
                  results g1 g2) as H.
    rewrite Ec in H.
    destruct H as (h2 & E2 & [Hc2 Hv2] & Hm1); auto.
    { split; auto. intros n Hn. symmetry. auto. }
    rewrite E2.
    destruct (IH r1 h1 h2 e' r g1' Es) as [_ (g2' & Es2 & Hc')]; auto.
    { intros n Hn. symmetry. apply Hv2. lia. }
    split; [lia|]. eauto.
Qed.

(** A call reads its [results] argument only to append to it. *)
Lemma call_appends fuel e counters results results' g e' m g' :
  registration_simulation fuel e counters results g
    = Returned e' (results ++ [(counters, m)]) g' ->
  registration_simulation fuel e counters results' g
    = Returned e' (results' ++ [(counters, m)]) g'.
Proof.
  unfold registration_simulation.
  destruct (sim_init e counters g) as [x|s0]; [discriminate|].
  destruct (env_run fuel SIM_TIME s0) as [s'|x s'|s']; try discriminate.
  destruct (mean (wait_times s')) as [x|a]; [discriminate|].
  intros E. inversion E as [[E1 E2 E3]].
  apply app_inv_head in E2. inversion E2. reflexivity.
Qed.

(** C2.  Two executions of the sweep with the same seed and the same
    parameters produce the same sequence of results.  The seed is the state
    of the generator: its place in its sequence of variates, and the
    variates from there on.  If a sweep returns after moving the generator
    from place [consumed g1] to place [consumed g1'], then a sweep over the
    same capacities with the same means, started from any generator at the
    same place with the same variates between these two places, and with
    whatever [results] list, returns too; both append the same entries, one
    for each capacity in order, with the same mean waits, and both leave
    the generator at the same place. *)
Theorem seeded_runs_agree fuel cs :
  forall results1 results2 g1 g2 e r1 g1',
  sweep fuel cs results1 g1 = Returned e r1 g1' ->
  consumed g2 = consumed g1 ->
  (forall n, (consumed g1 <= n < consumed g1')%nat ->
             variates g2 n = variates g1 n) ->
  (consumed g1 <= consumed g1')%nat /\
  exists entries g2',
    r1 = results1 ++ entries /\
    map fst entries = cs /\
    sweep fuel cs results2 g2 = Returned e (results2 ++ entries) g2' /\
    consumed g2' = consumed g1'.
Proof.
  induction cs as [|c cs IH]; intros results1 results2 g1 g2 e r1 g1'; simpl.
  - intros E Hc Hv. inversion E; subst. split; auto.
    exists [], g2. rewrite !app_nil_r. auto.
  - destruct (registration_simulation fuel Environment_new c results1 g1)
      as [e1 q1 h1|x e1 q1 h1|] eqn:Ec; try discriminate.
    intros Es Hc Hv.
    destruct (call_returns_bounded avg_doc_check avg_service _ _ _ _ _ _ _ Ec)
      as (m & -> & _).
    assert (Hm2 : (consumed h1 <= consumed g1')%nat).
    { destruct (IH _ results2 h1 h1 e r1 g1' Es eq_refl) as [Hm _]; auto. }
    pose proof (call_agree (consumed g1) (consumed g1') fuel Environment_new c
                  results1 g1 g2) as H.
    rewrite Ec in H.
    destruct H as (h2 & E2 & [Hc2 Hv2] & Hm1); auto.
    { split; auto. intros n Hn. symmetry. auto. }
    rewrite (call_appends _ _ _ _ results2 _ _ _ _ E2).
    destruct (IH _ (results2 ++ [(c, m)]) h1 h2 e r1 g1' Es)
      as [_ (entries & g2' & -> & Hf & Es2 & Hc')]; auto.
    { intros n Hn. symmetry. apply Hv2. lia. }
    split; [lia|].
    exists ((c, m) :: entries), g2'.
    rewrite <- !app_assoc in *. simpl in *.
    repeat split; auto. now rewrite Hf.
Qed.

End Locality.

(** ** Grants and recorded waits *)

Lemma filter_heappush_length (f : Event -> bool) e q :
  length (filter f (heappush e q))
  = ((if f e then 1 else 0) + length (filter f q))%nat.
Proof.
  induction q as [|x q IH]; simpl.
  - destruct (f e); reflexivity.
  - destruct (event_le x e); simpl.
    + destruct (f x); simpl; rewrite IH; lia.
    + destruct (f e); reflexivity.
Qed.

Lemma tally_schedule d prio t k s :
  (forall r, k <> Request Registration r) ->
  grants_tally d s -> grants_tally d (set_env (schedule prio t k) s).
Proof.
  intros Hk. unfold grants_tally, pending_grants. simpl.
  rewrite filter_heappush_length. unfold is_reg_grant at 1. simpl.
  destruct k as [| |[|] k| | |]; auto. exfalso. eapply Hk; reflexivity.
Qed.

Lemma tally_frame d s s' :
  queue (env s') = queue (env s) -> wait_times s' = wait_times s ->
  trace s' = trace s -> grants_tally d s -> grants_tally d s'.
Proof.
  unfold grants_tally, pending_grants. intros -> -> ->. auto.
Qed.

Lemma tally_trigger d r s : grants_tally d s -> grants_tally d (sim_trigger_put r s).
Proof.
  unfold sim_trigger_put, trigger_put.
  destruct (put_queue (resource r s)) as [|[pid k] rest]; auto.
  destruct (Z.of_nat (length (users (resource r s))) <? capacity (resource r s))%Z;
    auto.
  unfold grants_tally, pending_grants.
  destruct r; simpl; rewrite filter_heappush_length, granted_app; simpl;
    rewrite ?app_nil_r, ?length_app; simpl; lia.
Qed.

Lemma tally_request d r pid k s :
  grants_tally d s -> grants_tally d (request r pid k s).
Proof.
  intros H. unfold request. apply tally_trigger. revert H.
  unfold grants_tally, pending_grants.
  destruct r; simpl; rewrite granted_app; simpl; rewrite app_nil_r; auto.
Qed.

Lemma tally_release d r pid s :
  grants_tally d s -> grants_tally d (release r pid s).
Proof.
  intros H. unfold release. apply tally_schedule; [discriminate|]. revert H.
  unfold grants_tally, pending_grants.
  destruct r; simpl; rewrite granted_app; simpl; rewrite app_nil_r; auto.
Qed.

Lemma tally_yield d m k s :
  grants_tally d s -> grants_tally d (result_state (yield_timeout m k s)).
Proof.
  intros H. unfold yield_timeout.
  destruct m as [x|q]; simpl; auto.
  destruct (expovariate q (rng s)) as [[e|x] g]; simpl; auto.
  destruct (Qle_bool 0 x); simpl; auto.
  apply (tally_schedule d NORMAL x (Timeout k) (set_rng g s)); [discriminate|].
  exact H.
Qed.

Lemma tally_process_end d err s :
  grants_tally d s -> grants_tally d (process_end err s).
Proof. apply tally_schedule. discriminate. Qed.

Section Tally.

Variables avg_doc_check avg_service : Q.

Local Abbreviation student := (student avg_doc_check avg_service).
Local Abbreviation resume := (resume avg_doc_check avg_service).
Local Abbreviation step := (step avg_doc_check avg_service).
Local Abbreviation env_run := (env_run avg_doc_check avg_service).

(** Only a student resumed after its registration request records. *)
Lemma tally_student pid pc s :
  grants_tally (match pc with AtRegRequest _ => 1 | _ => 0 end) s ->
  grants_tally 0 (student pid pc s).
Proof.
  intros H. destruct pc as [| | |sw|]; simpl.
  - now apply tally_request.
  - pose proof (tally_yield 0 (np_div 1 avg_doc_check) (ResumeStudent pid AtDocTimeout) s H)
      as Hy.
    destruct (yield_timeout _ _ s); simpl in Hy; auto.
    now apply tally_process_end, tally_release.
  - now apply tally_request, tally_release.
  - assert (H1 : grants_tally 0 (append_wait (now (env s) - sw) s)).
    { revert H. unfold grants_tally, pending_grants. simpl.
      rewrite length_app. simpl. lia. }
    pose proof (tally_yield 0 (np_div 1 avg_service) (ResumeStudent pid AtRegTimeout) _ H1)
      as Hy.
    destruct (yield_timeout _ _ (append_wait _ s)); simpl in Hy; auto.
    now apply tally_process_end, tally_release.
  - now apply tally_process_end, tally_release.
Qed.

Lemma tally_generator pc s : grants_tally 0 s -> grants_tally 0 (generator pc s).
Proof.
  intros H. unfold generator.
  set (s1 := match pc with GenStart => s | GenTimeout => spawn_student s end).
  assert (H1 : grants_tally 0 s1).
  { unfold s1. destruct pc; auto. unfold spawn_student.
    eapply tally_frame;
      [| | |apply (tally_schedule 0 URGENT 0
                    (Initialize (ResumeStudent (spawned s) AtStart)) s);
            [discriminate|exact H]]; reflexivity. }
  pose proof (tally_yield 0 (py_div 1 SIM_INTER_ARRIVAL) (ResumeGenerator GenTimeout) s1 H1)
    as Hy.
  destruct (yield_timeout _ _ s1); simpl in Hy; auto.
  now apply tally_process_end.
Qed.

Lemma tally_step s :
  wf s -> grants_tally 0 s -> grants_tally 0 (step_state (step s)).
Proof.
  intros [Hq _] H. unfold step.
  destruct (queue (env s)) as [|ev rest] eqn:E; simpl; auto.
  inversion Hq as [|? ? Hev _]; subst. unfold event_wf in Hev.
  set (s1 := set_env (fun e => mkEnv (at_time ev) rest (next_eid e)) s).
  assert (H1 : grants_tally (if is_reg_grant ev then 1 else 0) s1).
  { revert H. unfold grants_tally, pending_grants, s1. simpl. rewrite E. simpl.
    destruct (is_reg_grant ev); simpl; lia. }
  unfold is_reg_grant in H1.
  destruct (kind ev) as [k|k|r k|r|[e|]|]; unfold step_state;
    try (destruct r);
    try (destruct k as [pid pc|pc]; [destruct pc|destruct pc]);
    try contradiction;
    try first [exact H1
              |exact (tally_generator _ _ H1)
              |exact (tally_trigger _ _ _ H1)].
  all: match goal with
       | |- grants_tally 0 (resume (ResumeStudent ?pid ?pc) ?x) =>
           exact (tally_student pid pc x H1)
       end.
Qed.

Lemma tally_run fuel counters g s0 :
  sim_init Environment_new counters g = inr s0 ->
  grants_tally 0 (outcome_state (env_run fuel SIM_TIME s0)).
Proof.
  intros Hinit.
  assert (H : wf (outcome_state (env_run fuel SIM_TIME s0)) /\
              grants_tally 0 (outcome_state (env_run fuel SIM_TIME s0))).
  { apply (env_run_invariant avg_doc_check avg_service
             (fun s => wf s /\ grants_tally 0 s)).
    - intros s [Hw Ht]. split; [now apply wf_step|now apply tally_step].
    - intros s d [Hw Ht]. split.
      + apply wf_schedule; auto. exact I.
      + apply tally_schedule; auto. discriminate.
    - split; [exact (wf_init _ _ _ Hinit)|].
      revert Hinit. unfold sim_init, Resource_new. simpl.
      destruct (counters <=? 0)%Z; [discriminate|].
      intros E; inversion E; subst. reflexivity. }
  apply H.
Qed.

(** X12.  In every state a run goes through, the recorded waits and the
    registration grants not yet resumed add up to the registration grants
    made: each grant is recorded once, when its student resumes, and
    nothing else is recorded.  So there are never more recorded waits than
    students who asked for a counter. *)
Theorem one_wait_per_grant fuel counters g s0 :
  sim_init Environment_new counters g = inr s0 ->
  let s := outcome_state (env_run fuel SIM_TIME s0) in
  (length (wait_times s) + pending_grants s
   = length (granted Registration (trace s)))%nat /\
  (length (wait_times s) <= length (requested Registration (trace s)))%nat.
Proof.
  intros Hinit s.
  pose proof (tally_run fuel counters g s0 Hinit) as Ht. fold s in Ht.
  unfold grants_tally in Ht. rewrite Nat.add_0_r in Ht.
  split; [exact Ht|].
  assert (Hf : fifo_ok s).
  { apply pool_inv_run.
    - apply fifo_ok_frame.
    - apply fifo_ok_request.
    - apply fifo_ok_release.
    - apply fifo_ok_trigger.
    - exact (fifo_ok_init _ _ _ _ Hinit). }
  rewrite (Hf Registration), length_app. lia.
Qed.

End Tally.

(** ** Grants made at once *)

Lemma prompt_schedule prio d k s :
  grant_on_time (mkEvent (now (env s) + d) prio (next_eid (env s)) k) ->
  prompt s -> prompt (set_env (schedule prio d k) s).
Proof.
  intros Hk [H1 H2 H3]. constructor; simpl; auto.
  apply heappush_Forall; auto.
Qed.

Lemma prompt_frame s s' :
  queue (env s') = queue (env s) -> wait_times s' = wait_times s ->
  trace s' = trace s -> prompt s -> prompt s'.
Proof.
  intros E1 E2 E3 [H1 H2 H3]. constructor; rewrite ?E1, ?E2, ?E3; auto.
Qed.

(** An observation that is not a registration grant, or is one made at
    the time of a request already in the history. *)
Lemma granted_when_asked_log tr o :
  match o with
  | ObsGrant Registration pid t => In (ObsRequest Registration pid t) tr
  | _ => True
  end ->
  granted_when_asked tr -> granted_when_asked (tr ++ [o]).
Proof.
  intros Ho H pid t Hin. apply in_app_iff.
  apply in_app_iff in Hin. destruct Hin as [Hin|[Hin|[]]].
  - left. now apply H.
  - subst o. left. exact Ho.
Qed.

Lemma prompt_trigger_doc s : prompt s -> prompt (sim_trigger_put DocCheck s).
Proof.
  intros H. unfold sim_trigger_put, trigger_put. simpl.
  destruct (put_queue (doc_check s)) as [|[pid k] rest]; auto.
  destruct (Z.of_nat (length (users (doc_check s))) <? capacity (doc_check s))%Z;
    auto.
  destruct H as [H1 H2 H3]. constructor; simpl; auto.
  - apply heappush_Forall; auto. exact I.
  - apply granted_when_asked_log; simpl; auto.
Qed.

Lemma prompt_trigger_reg s :
  put_queue (registration s) = [] -> prompt s ->
  prompt (sim_trigger_put Registration s).
Proof.
  intros Hq H. unfold sim_trigger_put, trigger_put. simpl. rewrite Hq. exact H.
Qed.

Lemma prompt_request_doc pid k s :
  prompt s -> prompt (request DocCheck pid k s).
Proof.
  intros [H1 H2 H3]. unfold request. apply prompt_trigger_doc.
  constructor; simpl; auto.
  apply granted_when_asked_log; simpl; auto.
Qed.

(** A request made when nobody waits is granted, if at all, for the time
    it is made; one made when every counter is taken is not granted. *)
Lemma prompt_request_reg pid s :
  put_queue (registration s) = [] \/ full (registration s) ->
  prompt s ->
  prompt (request Registration pid
            (ResumeStudent pid (AtRegRequest (now (env s)))) s).
Proof.
  intros Hq [H1 H2 H3].
  assert (H3' : granted_when_asked
                  (trace s ++ [ObsRequest Registration pid (now (env s))]))
    by (apply granted_when_asked_log; simpl; auto).
  unfold request, sim_trigger_put, trigger_put. simpl.
  destruct Hq as [Hq|Hfull].
  - rewrite Hq. simpl.
    destruct (Z.of_nat (length (users (registration s))) <? capacity (registration s))%Z;
      constructor; simpl; auto.
    + apply heappush_Forall; auto.
      unfold grant_on_time; simpl. apply Qplus_0_r.
    + apply granted_when_asked_log; auto.
      apply in_app_iff. right. left. reflexivity.
  - unfold full in Hfull.
    destruct (put_queue (registration s) ++
              [(pid, ResumeStudent pid (AtRegRequest (now (env s))))])
      as [|[p k] rest]; [|rewrite Hfull]; constructor; simpl; auto.
Qed.

Lemma prompt_release r pid s : prompt s -> prompt (release r pid s).
Proof.
  intros [H1 H2 H3]. unfold release. apply prompt_schedule; [exact I|].
  destruct r; constructor; simpl; auto;
    apply granted_when_asked_log; simpl; auto.
Qed.

Lemma prompt_yield m k s :
  (forall r start_wait, k <> ResumeStudent r (AtRegRequest start_wait)) ->
  prompt s -> prompt (result_state (yield_timeout m k s)).
Proof.
  intros Hk H. unfold yield_timeout.
  destruct m as [x|q]; simpl; auto.
  destruct (expovariate q (rng s)) as [[e|x] g]; simpl.
  - eapply prompt_frame; [| | |exact H]; reflexivity.
  - destruct (Qle_bool 0 x); simpl.
    + apply (prompt_schedule NORMAL x (Timeout k) (set_rng g s)); [exact I|].
      eapply prompt_frame; [| | |exact H]; reflexivity.
    + eapply prompt_frame; [| | |exact H]; reflexivity.
Qed.

Lemma prompt_process_end err s : prompt s -> prompt (process_end err s).
Proof. apply prompt_schedule. exact I. Qed.

Lemma mean_of_zeros l m :
  Forall (fun w => w == 0) l -> mean l = inr m -> m == 0.
Proof.
  intros Hl Em.
  destruct (mean_between 0 0 l m) as [Ha Hb]; auto.
  - eapply Forall_impl; [|exact Hl].
    intros w Hw. rewrite Hw. split; apply Qle_refl.
  - apply Qle_antisym; assumption.
Qed.

Section Prompt.

Variables avg_doc_check avg_service : Q.

Local Abbreviation student := (student avg_doc_check avg_service).
Local Abbreviation resume := (resume avg_doc_check avg_service).
Local Abbreviation step := (step avg_doc_check avg_service).
Local Abbreviation run_loop := (run_loop avg_doc_check avg_service).
Local Abbreviation env_run := (env_run avg_doc_check avg_service).
Local Abbreviation registration_simulation :=
  (registration_simulation avg_doc_check avg_service).
Local Abbreviation uncontended := (uncontended avg_doc_check avg_service).
Local Abbreviation uncontended_call :=
  (uncontended_call avg_doc_check avg_service).

Lemma prompt_student pid pc s :
  put_queue (registration s) = [] \/ full (registration s) ->
  match pc with
  | AtRegRequest start_wait => now (env s) == start_wait
  | _ => True
  end ->
  prompt s -> prompt (student pid pc s).
Proof.
  intros Hq Hpc H. destruct pc as [| | |sw|]; simpl.
  - now apply prompt_request_doc.
  - pose proof (prompt_yield (np_div 1 avg_doc_check)
                  (ResumeStudent pid AtDocTimeout) s ltac:(discriminate) H) as Hy.
    destruct (yield_timeout _ _ s); simpl in Hy; auto.
    now apply prompt_process_end, prompt_release.
  - apply (prompt_request_reg pid (release DocCheck pid s)); auto.
    now apply prompt_release.
  - assert (H1 : prompt (append_wait (now (env s) - sw) s)).
    { destruct H as [H1 H2 H3]. constructor; simpl; auto.
      apply Forall_app; split; auto. constructor; auto.
      rewrite Hpc. unfold Qminus. apply Qplus_opp_r. }
    pose proof (prompt_yield (np_div 1 avg_service)
                  (ResumeStudent pid AtRegTimeout) _ ltac:(discriminate) H1) as Hy.
    destruct (yield_timeout _ _ (append_wait _ s)); simpl in Hy; auto.
    now apply prompt_process_end, prompt_release.
  - now apply prompt_process_end, prompt_release.
Qed.

Lemma prompt_generator pc s : prompt s -> prompt (generator pc s).
Proof.
  intros H. unfold generator.
  set (s1 := match pc with GenStart => s | GenTimeout => spawn_student s end).
  assert (H1 : prompt s1).
  { unfold s1. destruct pc; auto. unfold spawn_student.
    eapply prompt_frame;
      [| | |apply (prompt_schedule URGENT 0
                    (Initialize (ResumeStudent (spawned s) AtStart)) s);
            [exact I|exact H]]; reflexivity. }
  pose proof (prompt_yield (py_div 1 SIM_INTER_ARRIVAL)
                (ResumeGenerator GenTimeout) s1 ltac:(discriminate) H1) as Hy.
  destruct (yield_timeout _ _ s1); simpl in Hy; auto.
  now apply prompt_process_end.
Qed.

Lemma prompt_step s :
  wf s -> calm s -> prompt s -> prompt (step_state (step s)).
Proof.
  intros [Hw _] Hcalm Hp. pose proof Hp as [H1 H2 H3]. unfold step.
  destruct (queue (env s)) as [|ev rest] eqn:E; simpl; [exact Hp|].
  pose proof (Forall_inv H1) as Hev. pose proof (Forall_inv_tail H1) as Hrest.
  pose proof (Forall_inv Hw) as Hwf. unfold event_wf in Hwf.
  unfold grant_on_time in Hev.
  set (s1 := set_env (fun e => mkEnv (at_time ev) rest (next_eid e)) s).
  assert (Hs1 : prompt s1) by (constructor; simpl; auto).
  assert (Hq : put_queue (registration s1) = [] \/ full (registration s1))
    by (destruct Hcalm as [Hq|[Hf _]]; auto).
  assert (Hrel : kind ev = Release Registration ->
                 put_queue (registration s1) = []).
  { intros Ek. destruct Hcalm as [Hq'|[_ Hn]]; auto.
    rewrite E in Hn. exfalso. apply (Forall_inv Hn). exact Ek. }
  destruct (kind ev) as [k|k|r k|r|[e|]|]; unfold step_state; auto;
    try (destruct r);
    try (destruct k as [pid pc|pc]; [destruct pc|destruct pc]);
    try contradiction;
    try first [exact (prompt_generator _ _ Hs1)
              |exact (prompt_trigger_doc _ Hs1)
              |exact (prompt_trigger_reg s1 (Hrel eq_refl) Hs1)].
  all: match goal with
       | |- prompt (resume (ResumeStudent ?pid ?pc) ?x) =>
           apply (prompt_student pid pc x Hq); auto; exact I
       end.
Qed.

Lemma prompt_run_loop fuel : forall s,
  wf s -> prompt s -> uncontended fuel s = true ->
  prompt (outcome_state (run_loop fuel s)).
Proof.
  induction fuel as [|fuel IH]; intros s Hw Hp Hu; simpl; auto.
  simpl in Hu. apply andb_prop in Hu. destruct Hu as [H0 Hu].
  apply no_waiter_true in H0.
  pose proof (prompt_step s Hw (or_introl H0) Hp) as Hs.
  pose proof (wf_step avg_doc_check avg_service s Hw) as Hw'.
  destruct (step s) as [s'|s'|x s']; simpl in *; auto.
Qed.

Lemma prompt_init counters g s0 :
  sim_init Environment_new counters g = inr s0 ->
  now (env s0) = 0 /\ prompt s0.
Proof.
  unfold sim_init, Resource_new. simpl.
  destruct (counters <=? 0)%Z; [discriminate|].
  intros E; inversion E; subst. split; [reflexivity|].
  constructor; simpl; repeat constructor. intros pid t [].
Qed.

(** A run from a fresh environment in which nobody queues for a counter. *)
Lemma uncontended_prompt fuel counters g s0 :
  sim_init Environment_new counters g = inr s0 ->
  uncontended_call fuel Environment_new counters g = true ->
  prompt (outcome_state (env_run fuel SIM_TIME s0)).
Proof.
  intros Hinit. unfold uncontended_call. rewrite Hinit. intros Hu.
  pose proof (wf_init _ _ _ Hinit) as Hw0.
  destruct (prompt_init _ _ _ Hinit) as [En Hp0].
  unfold env_run. rewrite En in *.
  change (Qle_bool SIM_TIME 0) with false. cbv iota.
  apply prompt_run_loop; auto.
  - apply wf_schedule; [exact I|exact Hw0].
  - apply prompt_schedule; [exact I|exact Hp0].
Qed.

Lemma uncontended_mean_zero fuel counters results g e r g' :
  uncontended_call fuel Environment_new counters g = true ->
  registration_simulation fuel Environment_new counters results g
    = Returned e r g' ->
  exists m, r = results ++ [(counters, m)] /\ m == 0.
Proof.
  intros Hu. unfold registration_simulation.
  destruct (sim_init Environment_new counters g) as [x|s0] eqn:Hinit;
    [discriminate|].
  pose proof (uncontended_prompt fuel counters g s0 Hinit Hu) as Hp.
  destruct (env_run fuel SIM_TIME s0) as [s'|x s'|s']; try discriminate.
  simpl in Hp.
  destruct (mean (wait_times s')) as [x|m] eqn:Em; [discriminate|].
  intros E; inversion E; subst; clear E.
  exists m. split; [reflexivity|].
  apply (mean_of_zeros (wait_times s')); auto. apply (pr_waits _ Hp).
Qed.

(** X13.  When no student ever has to queue for a registration counter,
    every grant is made at the time of its request: in every state the run
    goes through, each registration grant of the history bears the time at
    which its student asked, each grant still to be resumed is due at the
    [start_wait] its student read, and every recorded wait is zero; so the
    mean wait of a call that returns is zero. *)
Theorem uncontended_waits_are_zero fuel counters results g s0 :
  sim_init Environment_new counters g = inr s0 ->
  uncontended_call fuel Environment_new counters g = true ->
  let s := outcome_state (env_run fuel SIM_TIME s0) in
  (forall pid t, In (ObsGrant Registration pid t) (trace s) ->
                 In (ObsRequest Registration pid t) (trace s)) /\
  Forall (fun ev =>
            match kind ev with
            | Request Registration (ResumeStudent _ (AtRegRequest start_wait)) =>
                at_time ev == start_wait
            | _ => True
            end) (queue (env s)) /\
  Forall (fun w => w == 0) (wait_times s) /\
  forall e r g',
    registration_simulation fuel Environment_new counters results g
      = Returned e r g' ->
    exists m, r = results ++ [(counters, m)] /\ m == 0.
Proof.
  intros Hinit Hu s.
  pose proof (uncontended_prompt fuel counters g s0 Hinit Hu) as [H1 H2 H3].
  fold s in H1, H2, H3.
  split; [exact H3|]. split; [exact H1|]. split; [exact H2|].
  intros e r g'. now apply uncontended_mean_zero.
Qed.

(** ** More counters, and nobody queueing at the larger capacity *)

Lemma uncontended_recap c fuel : forall s,
  (capacity (registration s) <= c)%Z ->
  uncontended fuel s = true -> uncontended fuel (recap c s) = true.
Proof.
  induction fuel as [|fuel IH]; intros s Hc Hu; simpl in *.
  - exact Hu.
  - apply andb_prop in Hu. destruct Hu as [H0 Hu].
    change (no_waiter (recap c s)) with (no_waiter s). rewrite H0. simpl.
    pose proof (no_waiter_true _ H0) as Hq.
    assert (Hpost : put_queue (registration (step_state (step s))) = []).
    { destruct (step s) as [s'|s'|x s']; simpl; try now apply no_waiter_true.
      destruct fuel; simpl in Hu; apply andb_prop in Hu;
        apply no_waiter_true; tauto. }
    rewrite (step_recap avg_doc_check avg_service c s Hq Hc Hpost).
    pose proof (capacity_step avg_doc_check avg_service _ s eq_refl) as Ecap.
    destruct (step s) as [s'|s'|x s']; simpl in *; auto.
    apply IH; auto. lia.
Qed.

(** C3, as the code has it.  With the same generator state and the same
    means, for [c1 <= c2] counters: when no student has to queue for one of
    the [c1] counters, none has to queue for one of the [c2] either, and the
    call with [c2] returns the very same mean wait; and when no student has
    to queue for one of the [c2] counters, the mean wait the call with [c2]
    returns is zero, which is not above the mean wait with [c1], whatever
    the students waited for one of the [c1]. *)
Theorem mean_wait_monotone_without_queue fuel c1 c2 results g e1 m1 g1 :
  (c1 <= c2)%Z ->
  registration_simulation fuel Environment_new c1 results g
    = Returned e1 (results ++ [(c1, m1)]) g1 ->
  (uncontended_call fuel Environment_new c1 g = true ->
   uncontended_call fuel Environment_new c2 g = true /\
   registration_simulation fuel Environment_new c2 results g
     = Returned e1 (results ++ [(c2, m1)]) g1) /\
  (uncontended_call fuel Environment_new c2 g = true ->
   forall e2 m2 g2,
     registration_simulation fuel Environment_new c2 results g
       = Returned e2 (results ++ [(c2, m2)]) g2 ->
     m2 == 0 /\ m2 <= m1).
Proof.
  intros Hc Hret. split.
  - intros Hu. split.
    + revert Hu. unfold uncontended_call, sim_init, Resource_new. simpl.
      destruct (Z.leb_spec c1 0) as [|Hpos]; [discriminate|].
      destruct (Z.leb_spec c2 0); [lia|].
      intros Hu. apply (uncontended_recap c2) in Hu; [exact Hu|exact Hc].
    + apply (same_call_without_queue avg_doc_check avg_service fuel
               Environment_new c1 c2 results g e1 m1 g1 Hc Hu Hret).
  - intros Hu e2 m2 g2 Hret2.
    destruct (uncontended_mean_zero _ _ _ _ _ _ _ Hu Hret2) as (m & E & Hm).
    apply app_inv_head in E. inversion E; subst m.
    split; [exact Hm|].
    destruct (call_returns_bounded avg_doc_check avg_service _ _ _ _ _ _ _ Hret)
      as (m & E1 & Hm1 & _).
    apply app_inv_head in E1. inversion E1; subst m.
    rewrite Hm. exact Hm1.
Qed.

End Prompt.

(** ** Runs in which no student leaves a registration counter

    While no counter is released, a request is granted at once or not at
    all: every recorded wait is zero. *)

Lemma released_app r a b : released r (a ++ b) = released r a ++ released r b.
Proof.
  induction a as [|o a IH]; simpl; auto.
  destruct o as [r' pid t|r' pid t|r' pid t]; auto.
  destruct (ResId_eqb r r'); simpl; congruence.
Qed.

Lemma released_more r a b : released r a <> [] -> released r (a ++ b) <> [].
Proof.
  rewrite released_app. destruct (released r a); simpl; congruence.
Qed.

Lemma trace_trigger r s : exists d, trace (sim_trigger_put r s) = trace s ++ d.
Proof.
  unfold sim_trigger_put.
  destruct (trigger_put (now (env s)) (resource r s)) as [x [[pid k]|]].
  - exists [ObsGrant r pid (now (env s))]. destruct r; reflexivity.
  - exists []. now rewrite app_nil_r.
Qed.

(** Leaving a registration counter is written in the history. *)
Lemma released_leaving tr pid t :
  released Registration (tr ++ [ObsRelease Registration pid t]) <> [].
Proof.
  rewrite released_app. simpl.
  destruct (released Registration tr); discriminate.
Qed.

Lemma idle_schedule prio d k s :
  k <> Release Registration -> idle s -> idle (set_env (schedule prio d k) s).
Proof.
  intros Hk [H1 H2]. split; simpl; auto. apply heappush_Forall; auto.
Qed.

Lemma idle_frame s s' :
  registration s' = registration s -> queue (env s') = queue (env s) ->
  idle s -> idle s'.
Proof. intros E1 E2 [H1 H2]. split; rewrite ?E1, ?E2; auto. Qed.

Lemma idle_trigger_doc s : idle s -> idle (sim_trigger_put DocCheck s).
Proof.
  intros H. unfold sim_trigger_put, trigger_put. simpl.
  destruct (put_queue (doc_check s)) as [|[pid k] rest]; auto.
  destruct (Z.of_nat (length (users (doc_check s))) <? capacity (doc_check s))%Z;
    auto.
  destruct H as [H1 H2]. split; simpl; auto.
  apply heappush_Forall; auto. discriminate.
Qed.

Lemma idle_request_doc pid k s : idle s -> idle (request DocCheck pid k s).
Proof.
  intros [H1 H2]. unfold request. apply idle_trigger_doc. split; simpl; auto.
Qed.

Lemma idle_release_doc pid s : idle s -> idle (release DocCheck pid s).
Proof.
  intros [H1 H2]. unfold release. apply idle_schedule; [discriminate|].
  split; simpl; auto.
Qed.

(** A request is granted only when nobody waited before it, and then it
    leaves nobody waiting. *)
Lemma idle_request_reg pid k s : idle s -> idle (request Registration pid k s).
Proof.
  intros [H1 H2]. unfold request, sim_trigger_put, trigger_put. simpl.
  destruct (put_queue (registration s)) as [|[p0 k0] q] eqn:Eq; simpl.
  - destruct (Z.of_nat (length (users (registration s)))
              <? capacity (registration s))%Z eqn:El; split; simpl; auto.
    + congruence.
    + apply heappush_Forall; auto. discriminate.
  - assert (Hf : full (registration s)) by (apply H1; discriminate).
    unfold full in Hf. rewrite Hf. split; simpl; auto.
Qed.

Lemma idle_yield m k s : idle s -> idle (result_state (yield_timeout m k s)).
Proof.
  intros H. unfold yield_timeout.
  destruct m as [x|q]; simpl; auto.
  destruct (expovariate q (rng s)) as [[e|x] g]; simpl.
  - eapply idle_frame; [| |exact H]; reflexivity.
  - destruct (Qle_bool 0 x); simpl.
    + apply (idle_schedule NORMAL x (Timeout k) (set_rng g s)); [discriminate|].
      eapply idle_frame; [| |exact H]; reflexivity.
    + eapply idle_frame; [| |exact H]; reflexivity.
Qed.

Lemma idle_process_end err s : idle s -> idle (process_end err s).
Proof. apply idle_schedule. discriminate. Qed.

Section Unserved.

Variables avg_doc_check avg_service : Q.

Local Abbreviation student := (student avg_doc_check avg_service).
Local Abbreviation resume := (resume avg_doc_check avg_service).
Local Abbreviation step := (step avg_doc_check avg_service).
Local Abbreviation env_run := (env_run avg_doc_check avg_service).
Local Abbreviation registration_simulation :=
  (registration_simulation avg_doc_check avg_service).

(** Once a counter was released, the history says so for ever. *)
Lemma released_step s :
  released Registration (trace s) <> [] ->
  released Registration (trace (step_state (step s))) <> [].
Proof.
  apply (pool_inv_step avg_doc_check avg_service
           (fun s => released Registration (trace s) <> [])).
  - intros s1 s2 _ _ E H. rewrite E. exact H.
  - intros r pid k s1 H. unfold request.
    match goal with |- context [sim_trigger_put ?r ?x] =>
      destruct (trace_trigger r x) as [d E]; rewrite E;
      replace (trace x) with (trace s1 ++ [ObsRequest r pid (now (env s1))])
        by (destruct r; reflexivity)
    end.
    now apply released_more, released_more.
  - intros r pid s1 H.
    replace (trace (release r pid s1))
      with (trace s1 ++ [ObsRelease r pid (now (env s1))])
      by (destruct r; reflexivity).
    now apply released_more.
  - intros r s1 H. destruct (trace_trigger r s1) as [d E]. rewrite E.
    now apply released_more.
Qed.

Lemma idle_generator pc s : idle s -> idle (generator pc s).
Proof.
  intros H. unfold generator.
  set (s1 := match pc with GenStart => s | GenTimeout => spawn_student s end).
  assert (H1 : idle s1).
  { unfold s1. destruct pc; auto. unfold spawn_student.
    eapply idle_frame;
      [| |apply (idle_schedule URGENT 0
                  (Initialize (ResumeStudent (spawned s) AtStart)) s);
          [discriminate|exact H]]; reflexivity. }
  pose proof (idle_yield (py_div 1 SIM_INTER_ARRIVAL)
                (ResumeGenerator GenTimeout) s1 H1) as Hy.
  destruct (yield_timeout _ _ s1); simpl in Hy; auto.
  now apply idle_process_end.
Qed.

Lemma idle_student pid pc s :
  idle s ->
  idle (student pid pc s) \/
  released Registration (trace (student pid pc s)) <> [].
Proof.
  intros H. destruct pc as [| | |sw|]; simpl.
  - left. now apply idle_request_doc.
  - left.
    pose proof (idle_yield (np_div 1 avg_doc_check)
                  (ResumeStudent pid AtDocTimeout) s H) as Hy.
    destruct (yield_timeout _ _ s); simpl in Hy; auto.
    now apply idle_process_end, idle_release_doc.
  - left. now apply idle_request_reg, idle_release_doc.
  - assert (H1 : idle (append_wait (now (env s) - sw) s)) by exact H.
    pose proof (idle_yield (np_div 1 avg_service)
                  (ResumeStudent pid AtRegTimeout) _ H1) as Hy.
    destruct (yield_timeout _ _ (append_wait _ s)); simpl in Hy; auto.
    right. simpl. apply released_leaving.
  - right. apply released_leaving.
Qed.

Lemma idle_step s :
  idle s ->
  idle (step_state (step s)) \/
  released Registration (trace (step_state (step s))) <> [].
Proof.
  intros [H1 H2]. unfold step.
  destruct (queue (env s)) as [|ev rest] eqn:E; simpl.
  { left. split; auto. rewrite E. constructor. }
  set (s1 := set_env (fun e => mkEnv (at_time ev) rest (next_eid e)) s).
  assert (Hs1 : idle s1)
    by (split; simpl; [exact H1|exact (Forall_inv_tail H2)]).
  pose proof (Forall_inv H2) as Hev. unfold no_reg_release in Hev.
  assert (Hres : forall k,
            idle (resume k s1) \/
            released Registration (trace (resume k s1)) <> []).
  { intros [pid pc|pc]; simpl; [now apply idle_student|].
    left. now apply idle_generator. }
  destruct (kind ev) as [k|k|r k|r|[e|]|]; unfold step_state; auto.
  destruct r; [left; now apply idle_trigger_doc|congruence].
Qed.

Lemma unserved_step s :
  wf s ->
  released Registration (trace s) <> [] \/ (prompt s /\ idle s) ->
  released Registration (trace (step_state (step s))) <> [] \/
  (prompt (step_state (step s)) /\ idle (step_state (step s))).
Proof.
  intros Hw [H|[Hp Hi]]; [left; now apply released_step|].
  destruct (idle_step s Hi) as [Hi'|Hr]; [|left; exact Hr].
  right. split; auto. apply prompt_step; auto.
  destruct Hi as [H1 H2]. unfold calm.
  destruct (put_queue (registration s)) eqn:Eq; [left; reflexivity|].
  right. split; auto. apply H1. discriminate.
Qed.

(** From a fresh environment: in a state whose history has no release of
    a registration counter, every grant was made at once. *)
Lemma unserved_run fuel counters g s0 :
  sim_init Environment_new counters g = inr s0 ->
  released Registration
    (trace (outcome_state (env_run fuel SIM_TIME s0))) = [] ->
  prompt (outcome_state (env_run fuel SIM_TIME s0)).
Proof.
  intros Hinit Hr.
  assert (H : (fun s => wf s /\
                 (released Registration (trace s) <> [] \/ (prompt s /\ idle s)))
              (outcome_state (env_run fuel SIM_TIME s0))).
  { apply (env_run_invariant avg_doc_check avg_service).
    - intros s1 [Hw H]. split; [now apply wf_step|now apply unserved_step].
    - intros s1 d [Hw H]. split; [apply wf_schedule; [exact I|exact Hw]|].
      destruct H as [H|[Hp Hi]]; [left; exact H|right; split].
      + apply prompt_schedule; [exact I|exact Hp].
      + apply idle_schedule; [discriminate|exact Hi].
    - split; [apply (wf_init _ _ _ Hinit)|]. right.
      split; [apply (prompt_init _ _ _ Hinit)|].
      revert Hinit. unfold sim_init, Resource_new. simpl.
      destruct (counters <=? 0)%Z; [discriminate|].
      intros E; inversion E; subst. split; simpl; [congruence|].
      repeat constructor. discriminate. }
  simpl in H. destruct H as [_ [H|[Hp _]]]; [contradiction|exact Hp].
Qed.

(** C1, as the code has it.  When [env.run] finishes and no student has
    left a registration counter, that is when zero students completed the
    second stage, no degenerate run is signalled.  Every wait recorded is
    the zero of a student granted a counter at once.  If none was recorded,
    [statistics.mean] raises [StatisticsError]: the call raises it, whatever
    fuel is added, and appends nothing to [results].  Otherwise the call
    returns, whatever fuel is added, and appends a mean wait of zero as for
    any other run. *)
Theorem degenerate_run_raises_or_returns_zero fuel counters results g s0 s :
  sim_init Environment_new counters g = inr s0 ->
  env_run fuel SIM_TIME s0 = Finished s ->
  released Registration (trace s) = [] ->
  Forall (fun w => w == 0) (wait_times s) /\
  match wait_times s with
  | [] =>
      forall extra,
        registration_simulation (fuel + extra) Environment_new counters results g
        = Raised StatisticsError (env s) results (rng s)
  | _ :: _ =>
      exists m,
        m == 0 /\
        forall extra,
          registration_simulation (fuel + extra) Environment_new counters
            results g
          = Returned (env s) (results ++ [(counters, m)]) (rng s)
  end.
Proof.
  intros Hinit Hrun Hr.
  pose proof (unserved_run fuel counters g s0 Hinit) as Hp.
  rewrite Hrun in Hp. simpl in Hp. specialize (Hp Hr).
  pose proof (pr_waits _ Hp) as Hz. split; [exact Hz|].
  destruct (wait_times s) as [|w ws] eqn:Ew.
  - intros extra. unfold registration_simulation.
    rewrite Hinit, (env_run_more_fuel _ _ fuel extra _ _ _ Hrun), Ew.
    reflexivity.
  - exists (Qsum (w :: ws) / inject_Z (Z.of_nat (length (w :: ws)))). split.
    + apply (mean_of_zeros (w :: ws)); auto.
    + intros extra. unfold registration_simulation.
      rewrite Hinit, (env_run_more_fuel _ _ fuel extra _ _ _ Hrun), Ew.
      reflexivity.
Qed.

End Unserved.

(** ** Concrete runs *)

(** C1, refuted as stated.  Every variate is 36, so a student arrives every
    18 minutes, and there are three counters.

    With a mean document check of 1000 minutes no student is through the
    check by the horizon: no counter is ever asked for, nothing is recorded
    and the call raises [StatisticsError] with nothing reported.

    With a mean document check of 1/36 and a mean service of 1000 minutes
    the first three students are granted a counter at 19, 37 and 55 and are
    served until after the horizon, the others queue: no student completes
    the second stage, and the call returns a mean wait of zero as for a run
    in which nobody waited. *)
Lemma degenerate_run_is_not_signalled :
  (released Registration
     (trace (outcome_state (env_run 1000 1 400 SIM_TIME (start 3 g_steady)))) = [] /\
   call_exn (registration_simulation 1000 1 400 Environment_new 3 [] g_steady)
     = Some StatisticsError /\
   ~ reported (registration_simulation 1000 1 400 Environment_new 3 [] g_steady) []) /\
  (released Registration
     (trace (outcome_state (env_run (1 # 36) 1000 400 SIM_TIME (start 3 g_steady))))
     = [] /\
   map Qred
     (wait_times (outcome_state (env_run (1 # 36) 1000 400 SIM_TIME
                                   (start 3 g_steady)))) = [0; 0; 0] /\
   call_results
     (registration_simulation (1 # 36) 1000 400 Environment_new 3 [] g_steady)
     = Some [(3%Z, 0)]).
Proof.
  split; split; [vm_compute; reflexivity| |vm_compute; reflexivity|].
  - split; [vm_compute; reflexivity|].
    intros (e & entry & g & H). vm_compute in H. discriminate.
  - split; vm_compute; reflexivity.
Qed.

(** The second of these runs, through the theorem: three waits of zero,
    and the call returns a mean wait of zero with 400 events of fuel or
    more. *)
Lemma degenerate_run_raises_or_returns_zero_witness :
  (Forall (fun w => w == 0)
     (wait_times (outcome_state (env_run (1 # 36) 1000 400 SIM_TIME
                                   (start 3 g_steady)))) /\
   match wait_times (outcome_state (env_run (1 # 36) 1000 400 SIM_TIME
                                      (start 3 g_steady))) with
   | [] =>
       forall extra,
         registration_simulation (1 # 36) 1000 (400 + extra) Environment_new 3
           [] g_steady
         = Raised StatisticsError
             (env (outcome_state (env_run (1 # 36) 1000 400 SIM_TIME
                                    (start 3 g_steady)))) []
             (rng (outcome_state (env_run (1 # 36) 1000 400 SIM_TIME
                                    (start 3 g_steady))))
   | _ :: _ =>
       exists m,
         m == 0 /\
         forall extra,
           registration_simulation (1 # 36) 1000 (400 + extra) Environment_new 3
             [] g_steady
           = Returned
               (env (outcome_state (env_run (1 # 36) 1000 400 SIM_TIME
                                      (start 3 g_steady))))
               ([] ++ [(3%Z, m)])
               (rng (outcome_state (env_run (1 # 36) 1000 400 SIM_TIME
                                      (start 3 g_steady))))
   end) /\
  length (wait_times (outcome_state (env_run (1 # 36) 1000 400 SIM_TIME
                                       (start 3 g_steady)))) = 3%nat.
Proof.
  split; [|vm_compute; reflexivity].
  apply (degenerate_run_raises_or_returns_zero (1 # 36) 1000 400 3 [] g_steady
           (start 3 g_steady)).
  - reflexivity.
  - vm_compute; reflexivity.
  - vm_compute; reflexivity.
Defined.

(** A sweep over one, two and three counters, with a mean document check
    of 1/36 and a mean service of one minute, reads the first 284 variates
    of [g_steady].  [g_steady_other] has the same 284 and others after
    them, and the second sweep starts from another [results] list: both
    append the entries (1, 144), (2, 0) and (3, 0). *)
Lemma seeded_runs_agree_witness :
  call_results (sweep (1 # 36) 1 400 [1; 2; 3]%Z [] g_steady)
    = Some [(1%Z, 144); (2%Z, 0); (3%Z, 0)] /\
  (consumed g_steady
   <= consumed (call_rng (sweep (1 # 36) 1 400 [1; 2; 3]%Z [] g_steady)))%nat /\
  exists entries g2',
    call_raw (sweep (1 # 36) 1 400 [1; 2; 3]%Z [] g_steady) = [] ++ entries /\
    map fst entries = [1; 2; 3]%Z /\
    sweep (1 # 36) 1 400 [1; 2; 3]%Z [(12%Z, 5)] g_steady_other
      = Returned (call_env (sweep (1 # 36) 1 400 [1; 2; 3]%Z [] g_steady))
                 ([(12%Z, 5)] ++ entries) g2' /\
    consumed g2'
      = consumed (call_rng (sweep (1 # 36) 1 400 [1; 2; 3]%Z [] g_steady)).
Proof.
  split; [vm_compute; reflexivity|].
  apply (seeded_runs_agree (1 # 36) 1 400 [1; 2; 3]%Z [] [(12%Z, 5)]
           g_steady g_steady_other).
  - vm_compute; reflexivity.
  - reflexivity.
  - assert (E : consumed (call_rng (sweep (1 # 36) 1 400 [1; 2; 3]%Z []
                                      g_steady)) = 284%nat)
      by (vm_compute; reflexivity).
    rewrite E. intros n [_ Hn]. unfold g_steady_other, g_steady, stream, variates.
    rewrite nth_repeat_lt by exact Hn. destruct n; reflexivity.
Defined.

(** C3, refuted as stated.  From the same generator state, with the same
    means of 50 minutes, one counter gives a mean wait of 0 and two
    counters a mean wait of 3; students queue at both capacities. *)
Lemma second_counter_raises_mean_wait :
  call_results (registration_simulation 50 50 400 Environment_new 1 [] g_rush)
    = Some [(1%Z, 0)] /\
  call_results (registration_simulation 50 50 400 Environment_new 2 [] g_rush)
    = Some [(2%Z, 3)] /\
  uncontended_call 50 50 400 Environment_new 1 g_rush = false /\
  uncontended_call 50 50 400 Environment_new 2 g_rush = false /\
  (1 <= 2)%Z /\ ~ 3 <= 0.
Proof.
  split; [vm_compute; reflexivity|]. split; [vm_compute; reflexivity|].
  split; [vm_compute; reflexivity|]. split; [vm_compute; reflexivity|].
  split; [lia|]. intros H. vm_compute in H. apply H. reflexivity.
Qed.

(** With three counters nobody queues: the mean wait is 0, against the 3
    of the run with two counters, in which the third student queues. *)
Lemma mean_wait_monotone_without_queue_witness :
  call_results (registration_simulation 50 50 400 Environment_new 2 [] g_rush)
    = Some [(2%Z, 3)] /\
  call_results (registration_simulation 50 50 400 Environment_new 3 [] g_rush)
    = Some [(3%Z, 0)] /\
  call_mean (registration_simulation 50 50 400 Environment_new 3 [] g_rush) == 0 /\
  call_mean (registration_simulation 50 50 400 Environment_new 3 [] g_rush)
    <= call_mean (registration_simulation 50 50 400 Environment_new 2 [] g_rush).
Proof.
  split; [vm_compute; reflexivity|]. split; [vm_compute; reflexivity|].
  refine (proj2
            (mean_wait_monotone_without_queue 50 50 400 2 3 [] g_rush
               (call_env (registration_simulation 50 50 400 Environment_new 2 []
                            g_rush))
               (call_mean (registration_simulation 50 50 400 Environment_new 2 []
                             g_rush))
               (call_rng (registration_simulation 50 50 400 Environment_new 2 []
                            g_rush)) _ _)
            _
            (call_env (registration_simulation 50 50 400 Environment_new 3 []
                         g_rush))
            (call_mean (registration_simulation 50 50 400 Environment_new 3 []
                          g_rush))
            (call_rng (registration_simulation 50 50 400 Environment_new 3 []
                         g_rush)) _).
  - lia.
  - vm_compute; reflexivity.
  - vm_compute; reflexivity.
  - vm_compute; reflexivity.
Defined.

(** The registration pool after the whole run with two counters, and then
    the burst. *)
Lemma in_use_within_capacity_witness :
  let s := outcome_state (env_run 1 1 30 SIM_TIME (start 2 g_three)) in
  let pool := resource Registration (pool_ops burst s) in
  (0 <= Z.of_nat (length (users pool)) <= capacity pool)%Z.
Proof.
  refine (in_use_within_capacity 1 1 30 Environment_new 2 g_three (start 2 g_three)
            _ burst Registration).
  reflexivity.
Defined.

(** The same state: students 0 to 3 were granted in that order, 4, 5 and 6
    wait in that order. *)
Lemma grants_follow_arrival_order_witness :
  let s := pool_ops burst
             (outcome_state (env_run 1 1 30 SIM_TIME (start 2 g_three))) in
  requested Registration (trace s)
    = granted Registration (trace s) ++ waiting Registration s /\
  granted Registration (trace s)
    = firstn (length (granted Registration (trace s)))
             (requested Registration (trace s)).
Proof.
  refine (grants_follow_arrival_order 1 1 30 Environment_new 2 g_three
            (start 2 g_three) _ burst Registration).
  reflexivity.
Defined.

(** The waits 0, 0 and 9 of the run with two counters. *)
Lemma recorded_waits_nonnegative_witness :
  let s := outcome_state (env_run 1 1 60 SIM_TIME (start 2 g_three)) in
  Forall (fun w => 0 <= w) (wait_times s) /\
  Forall (fun ev =>
            now (env s) <= at_time ev /\
            match kind ev with
            | Request _ (ResumeStudent _ (AtRegRequest start_wait)) =>
                start_wait <= at_time ev
            | _ => True
            end) (queue (env s)).
Proof.
  apply (recorded_waits_nonnegative 1 1 60 2 g_three (start 2 g_three)).
  reflexivity.
Defined.

(** The third student asked at 7/2 and is granted at 25/2: 9 is appended. *)
Lemma only_registration_wait_recorded_witness :
  let s' := step_state (step 1 1 before_third_grant) in
  now (env s') = at_time third_grant /\
  match kind third_grant with
  | Request Registration (ResumeStudent pid (AtRegRequest start_wait)) =>
      wait_times s' = wait_times before_third_grant ++ [now (env s') - start_wait] /\
      In (ObsRequest Registration pid start_wait) (trace before_third_grant) /\
      exists t, In (ObsGrant Registration pid t) (trace before_third_grant) /\
                t == now (env s')
  | _ => wait_times s' = wait_times before_third_grant
  end.
Proof.
  apply (only_registration_wait_recorded 1 1 21 2 g_three (start 2 g_three)
           eq_refl third_grant (tl (queue (env before_third_grant)))).
  vm_compute; reflexivity.
Defined.

(** The run with two counters recorded the waits 0, 0 and 9: the call
    returns their arithmetic mean, 3. *)
Lemma mean_wait_is_arithmetic_mean_witness :
  map Qred (wait_times (outcome_state (env_run 50 50 400 SIM_TIME (start 2 g_rush))))
    = [0; 0; 9] /\
  exists avg_wait,
    ((forall extra,
        registration_simulation 50 50 (400 + extra) Environment_new 2 [] g_rush
        = Returned (env (outcome_state (env_run 50 50 400 SIM_TIME (start 2 g_rush))))
            ([] ++ [(2%Z, avg_wait)])
            (rng (outcome_state (env_run 50 50 400 SIM_TIME (start 2 g_rush))))) /\
     is_arithmetic_mean
       (wait_times (outcome_state (env_run 50 50 400 SIM_TIME (start 2 g_rush))))
       avg_wait) /\
    avg_wait == 3.
Proof.
  split; [vm_compute; reflexivity|].
  destruct (mean_wait_is_arithmetic_mean 50 50 400 Environment_new 2 [] g_rush
              (start 2 g_rush)
              (outcome_state (env_run 50 50 400 SIM_TIME (start 2 g_rush))))
    as [avg_wait [H1 H2]].
  - reflexivity.
  - vm_compute; reflexivity.
  - vm_compute; discriminate.
  - exists avg_wait. split; [split; assumption|].
    pose proof (H1 0%nat) as E. vm_compute in E.
    apply (f_equal call_mean) in E. simpl in E. rewrite <- E. reflexivity.
Defined.

(** C6, refuted as stated.  Every variate is 36 and there are three
    counters.

    With a mean document check of -1 the call is not refused: the first
    student arrives at 18, three variates are drawn, and only then
    [env.timeout] raises [ValueError] for the negative delay, inside the
    student.

    With a zero mean document check nothing is refused at all: the checks
    take no time and the call returns. *)
Lemma bad_mean_is_not_rejected_up_front :
  (call_exn (registration_simulation (-1) 1 400 Environment_new 3 [] g_steady)
     = Some ValueError /\
   now (call_env (registration_simulation (-1) 1 400 Environment_new 3 []
                    g_steady)) == 18 /\
   consumed (call_rng (registration_simulation (-1) 1 400 Environment_new 3 []
                         g_steady)) = 3%nat /\
   ~ rejected_up_front
       (registration_simulation (-1) 1 400 Environment_new 3 [] g_steady)
       Environment_new [] g_steady) /\
  call_results (registration_simulation 0 1000 400 Environment_new 3 [] g_steady)
    = Some [(3%Z, 0)].
Proof.
  split; [|vm_compute; reflexivity].
  split; [vm_compute; reflexivity|]. split; [vm_compute; reflexivity|].
  split; [vm_compute; reflexivity|].
  intros (x & H). apply (f_equal (fun c => consumed (call_rng c))) in H.
  vm_compute in H. discriminate.
Qed.

(** No counter at all. *)
Lemma bad_capacity_rejected_up_front_witness :
  registration_simulation 1 1 400 Environment_new 0 [] g_steady
    = Raised ValueError Environment_new [] g_steady /\
  rejected_up_front (registration_simulation 1 1 400 Environment_new 0 [] g_steady)
    Environment_new [] g_steady.
Proof.
  apply (bad_capacity_rejected_up_front 1 1 400 Environment_new 0 [] g_steady).
  lia.
Defined.

(** C9.  The same call, with two counters and the same means, made twice in
    a row as the sweep does: the second starts from the generator state the
    first left, ten variates further in the same sequence, and returns
    another mean wait (0 instead of 3). *)
Theorem generator_state_decides_the_result :
  exists g1 g2 : Random,
    (forall n, variates g1 n = variates g2 n) /\
    consumed g1 <> consumed g2 /\
    g2 = call_rng (registration_simulation 1 1 60 Environment_new 2 [] g1) /\
    call_results (registration_simulation 1 1 60 Environment_new 2 [] g1)
      = Some [(2%Z, 3)] /\
    call_results (registration_simulation 1 1 60 Environment_new 2 [] g2)
      = Some [(2%Z, 0)] /\
    call_results (sweep 1 1 60 [2; 2]%Z [] g1) = Some [(2%Z, 3); (2%Z, 0)] /\
    ~ 3 == 0.
Proof.
  exists g_three, (mkRandom (variates g_three) 10).
  split; [reflexivity|]. split; [discriminate|].
  split; [vm_compute; reflexivity|]. split; [vm_compute; reflexivity|].
  split; [vm_compute; reflexivity|]. split; [vm_compute; reflexivity|].
  discriminate.
Qed.

(** ** More concrete runs *)

Lemma stream_nonneg l d :
  Forall (fun v => 0 <= v) l -> 0 <= d -> forall n, 0 <= variates (stream l d) n.
Proof.
  intros Hl Hd n. simpl. revert n.
  induction Hl as [|v l Hv Hl IH]; intros [|n]; simpl; auto.
Qed.

(** The run with two counters, after 60 events and at its end. *)
Lemma clock_within_horizon_witness :
  0 <= now (env (outcome_state (env_run 1 1 60 SIM_TIME (start 2 g_three))))
    <= SIM_TIME /\
  forall s, env_run 1 1 60 SIM_TIME (start 2 g_three) = Finished s ->
            now (env s) == SIM_TIME.
Proof.
  apply (clock_within_horizon 1 1 60 2 g_three (start 2 g_three)).
  reflexivity.
Defined.

(** Its waits 0, 0 and 9. *)
Lemma recorded_waits_within_horizon_witness :
  let s := outcome_state (env_run 1 1 60 SIM_TIME (start 2 g_three)) in
  Forall (fun w => w <= SIM_TIME) (wait_times s) /\
  Forall (fun p => start_ok (snd p)) (put_queue (registration s)).
Proof.
  apply (recorded_waits_within_horizon 1 1 60 2 g_three (start 2 g_three)).
  reflexivity.
Defined.

(** Means of one minute, two counters, the variates of [g_three]. *)
Lemma sound_parameters_never_crash_witness :
  match registration_simulation 1 1 60 Environment_new 2 [] g_three with
  | Raised x _ _ _ => x = StatisticsError
  | _ => True
  end.
Proof.
  apply (sound_parameters_never_crash 1 1 60 2 [] g_three).
  - reflexivity.
  - reflexivity.
  - lia.
  - apply stream_nonneg; [|discriminate].
    unfold contended. repeat constructor; discriminate.
Defined.

(** A zero mean document check, a mean service of 1000 minutes, three
    counters: the call returns. *)
Lemma zero_mean_is_no_error_witness :
  ((forall s0 x s, sim_init Environment_new 3 g_steady = inr s0 ->
                   env_run 0 1000 400 SIM_TIME s0 <> Crashed x s) /\
   match registration_simulation 0 1000 400 Environment_new 3 [] g_steady with
   | Raised x _ _ _ => x = StatisticsError
   | _ => True
   end) /\
  call_results (registration_simulation 0 1000 400 Environment_new 3 [] g_steady)
    = Some [(3%Z, 0)].
Proof.
  split; [|vm_compute; reflexivity].
  apply (zero_mean_is_no_error 0 1000 400 3 [] g_steady).
  - discriminate.
  - discriminate.
  - lia.
  - apply stream_nonneg; [constructor|discriminate].
Defined.

(** Two calls with two counters: the entries (2, 3) and (2, 0). *)
Lemma sweep_returns_one_entry_each_witness :
  exists entries,
    call_raw (sweep 1 1 60 [2; 2]%Z [] g_three) = [] ++ entries /\
    map fst entries = [2; 2]%Z /\
    Forall (fun p => 0 <= snd p <= SIM_TIME) entries.
Proof.
  apply (sweep_returns_one_entry_each 1 1 60 [2; 2]%Z [] g_three
           (call_env (sweep 1 1 60 [2; 2]%Z [] g_three))
           (call_raw (sweep 1 1 60 [2; 2]%Z [] g_three))
           (call_rng (sweep 1 1 60 [2; 2]%Z [] g_three))).
  vm_compute; reflexivity.
Defined.

(** The second of three capacities is 0: the sweep raises [ValueError]
    with the entry of the first call in [results]. *)
Lemma sweep_raises_at_first_failure_witness :
  exists entries c rest g1,
    [2; 0; 3]%Z = map fst entries ++ c :: rest /\
    call_raw (sweep 1 1 60 [2; 0; 3]%Z [] g_three) = [] ++ entries /\
    sweep 1 1 60 (map fst entries) [] g_three
      = Returned Environment_new
          (call_raw (sweep 1 1 60 [2; 0; 3]%Z [] g_three)) g1 /\
    registration_simulation 1 1 60 Environment_new c
      (call_raw (sweep 1 1 60 [2; 0; 3]%Z [] g_three)) g1
      = Raised ValueError
          (call_env (sweep 1 1 60 [2; 0; 3]%Z [] g_three))
          (call_raw (sweep 1 1 60 [2; 0; 3]%Z [] g_three))
          (call_rng (sweep 1 1 60 [2; 0; 3]%Z [] g_three)).
Proof.
  apply (sweep_raises_at_first_failure 1 1 60 [2; 0; 3]%Z [] g_three).
  vm_compute; reflexivity.
Defined.

(** The sweep of the script on three runs of one student each. *)
Lemma figure4_data_witness :
  plot_counters (call_raw (simulation_results 1 1 60 g_sweep)) = [3; 10; 12]%Z /\
  length (plot_waits (call_raw (simulation_results 1 1 60 g_sweep))) = 3%nat /\
  Forall (fun w => 0 <= w <= SIM_TIME)
         (plot_waits (call_raw (simulation_results 1 1 60 g_sweep))).
Proof.
  apply (figure4_data 1 1 60 g_sweep
           (call_env (simulation_results 1 1 60 g_sweep))
           (call_raw (simulation_results 1 1 60 g_sweep))
           (call_rng (simulation_results 1 1 60 g_sweep))).
  vm_compute; reflexivity.
Defined.

(** The call with two counters reads the first ten variates of [g_three];
    [g_other] has the same ten and others after them. *)
Lemma call_reads_only_its_variates_witness :
  (consumed g_three
   <= consumed (call_rng (registration_simulation 1 1 60 Environment_new 2 []
                            g_three)))%nat /\
  exists g2',
    registration_simulation 1 1 60 Environment_new 2 [] g_other
    = Returned
        (call_env (registration_simulation 1 1 60 Environment_new 2 [] g_three))
        (call_raw (registration_simulation 1 1 60 Environment_new 2 [] g_three))
        g2' /\
    consumed g2'
    = consumed (call_rng (registration_simulation 1 1 60 Environment_new 2 []
                            g_three)).
Proof.
  apply (call_reads_only_its_variates 1 1 60 Environment_new 2 [] g_three g_other).
  - vm_compute; reflexivity.
  - reflexivity.
  - assert (E : consumed (call_rng (registration_simulation 1 1 60
                                      Environment_new 2 [] g_three)) = 10%nat)
      by (vm_compute; reflexivity).
    rewrite E. intros n [_ Hn].
    do 10 (destruct n as [|n]; [reflexivity|]). lia.
Defined.

(** The sweep of two calls reads the first fourteen. *)
Lemma sweep_reads_only_its_variates_witness :
  (consumed g_three
   <= consumed (call_rng (sweep 1 1 60 [2; 2]%Z [] g_three)))%nat /\
  exists g2',
    sweep 1 1 60 [2; 2]%Z [] g_other_sweep
    = Returned (call_env (sweep 1 1 60 [2; 2]%Z [] g_three))
               (call_raw (sweep 1 1 60 [2; 2]%Z [] g_three)) g2' /\
    consumed g2' = consumed (call_rng (sweep 1 1 60 [2; 2]%Z [] g_three)).
Proof.
  apply (sweep_reads_only_its_variates 1 1 60 [2; 2]%Z [] g_three g_other_sweep).
  - vm_compute; reflexivity.
  - reflexivity.
  - assert (E : consumed (call_rng (sweep 1 1 60 [2; 2]%Z [] g_three)) = 14%nat)
      by (vm_compute; reflexivity).
    rewrite E. intros n [_ Hn].
    do 14 (destruct n as [|n]; [reflexivity|]). lia.
Defined.

(** The pools after the run with two counters and the burst. *)
Lemma pools_keep_their_size_witness :
  let s := pool_ops burst
             (outcome_state (env_run 1 1 30 SIM_TIME (start 2 g_three))) in
  capacity (doc_check s) = 5%Z /\
  capacity (registration s) = 2%Z /\
  (length (users (doc_check s)) <= 5)%nat /\
  (Z.of_nat (length (users (registration s))) <= 2)%Z.
Proof.
  refine (pools_keep_their_size 1 1 30 Environment_new 2 g_three (start 2 g_three)
            _ burst).
  reflexivity.
Defined.

(** Before the third grant is resumed: two waits recorded, one grant
    pending, three grants made. *)
Lemma one_wait_per_grant_witness :
  let s := outcome_state (env_run 1 1 21 SIM_TIME (start 2 g_three)) in
  (length (wait_times s) + pending_grants s
   = length (granted Registration (trace s)))%nat /\
  (length (wait_times s) <= length (requested Registration (trace s)))%nat.
Proof.
  apply (one_wait_per_grant 1 1 21 2 g_three (start 2 g_three)).
  reflexivity.
Defined.

(** Three counters and the students of [g_rush]: nobody queues. *)
Lemma uncontended_waits_are_zero_witness :
  let s := outcome_state (env_run 50 50 400 SIM_TIME (start 3 g_rush)) in
  (forall pid t, In (ObsGrant Registration pid t) (trace s) ->
                 In (ObsRequest Registration pid t) (trace s)) /\
  Forall (fun ev =>
            match kind ev with
            | Request Registration (ResumeStudent _ (AtRegRequest start_wait)) =>
                at_time ev == start_wait
            | _ => True
            end) (queue (env s)) /\
  Forall (fun w => w == 0) (wait_times s) /\
  forall e r g',
    registration_simulation 50 50 400 Environment_new 3 [] g_rush
      = Returned e r g' ->
    exists m, r = [] ++ [(3%Z, m)] /\ m == 0.
Proof.
  apply (uncontended_waits_are_zero 50 50 400 3 [] g_rush (start 3 g_rush)).
  - reflexivity.
  - vm_compute; reflexivity.
Defined.
